(** * Application processing pipeline (DRAE): document resolution,
      extraction, consolidation, lifecycle status and cohort statistics.

    The development embeds the functions of
    [backend/lambda/student_application.py] and of
    [backend/lambda/report_generation.py] (class [StatisticalCalculator])
    and proves properties of them.

    Conventions of the embedding.
    - JSON-like Python data is the inductive type [value]; a dict is a
      finite map ([gmap]) whose equality is extensional, as Python's [==]
      on dicts and the key-value store are insensitive to insertion order.
    - Python exceptions are explicit: fallible operations return [res].
    - Numbers are integers ([Z]) in [value]; the statistics functions work
      over the rationals ([Q]) with the square root kept as a parameter.
    - Strings are sequences of 8-bit characters.
    - Each DynamoDB table is a finite map from the key attribute to the
      item. A read or a write is refused only when the request is
      malformed (empty key, empty item, an attribute name that is not a
      string); outages of the store are not modelled.
    - The state machine, the evaluation agent, the report generator and
      the text-extraction service are parameters of the flows that call
      them.
    - Messages that interpolate data are shortened to their fixed part. *)

From Stdlib Require Import ZArith QArith String Ascii List Lia Lqa Permutation DecimalString DecimalNat.
From stdpp Require Import base option list gmap strings.

Set Warnings "-register-all".

Open Scope string_scope.

(** ** Python values *)

Module Py.

(** Hashable dictionary keys. Python hashes [True] and [1] alike, so a
    Boolean key is an integer key. *)
Inductive key : Type :=
| KNone
| KInt (n : Z)
| KStr (s : string).

Global Instance key_eq_dec : EqDecision key.
Proof. solve_decision. Defined.

Definition key_enc (k : key) : unit + (Z + string) :=
  match k with
  | KNone => inl tt
  | KInt n => inr (inl n)
  | KStr s => inr (inr s)
  end.

Definition key_dec (x : unit + (Z + string)) : key :=
  match x with
  | inl _ => KNone
  | inr (inl n) => KInt n
  | inr (inr s) => KStr s
  end.

Global Instance key_countable : Countable key.
Proof. apply (inj_countable' key_enc key_dec). by intros []. Defined.

Inductive value : Type :=
| VNone
| VBool (b : bool)
| VNum (n : Z)
| VStr (s : string)
| VList (l : list value)
| VDict (d : gmap key value).

(** The record of one application, and any other JSON object. *)
Abbreviation dict := (gmap key value).

Inductive exn : Type :=
| AttributeError
| TypeError
| ValueError
| IndexError
| KeyError
| StoreError.

Inductive res (A : Type) : Type :=
| Ok (a : A)
| Raise (e : exn).
Global Arguments Ok {A} a.
Global Arguments Raise {A} e.

Global Instance res_ret : MRet res := @Ok.
Global Instance res_bind : MBind res := fun A B f m =>
  match m with
  | Ok a => f a
  | Raise e => Raise e
  end.

(** What is left of a result once the exception's identity is forgotten. *)
Definition succeeded {A} (m : res A) : option A :=
  match m with
  | Ok a => Some a
  | Raise _ => None
  end.

(** [bool(v)] *)
Definition truthy (v : value) : bool :=
  match v with
  | VNone => false
  | VBool b => b
  | VNum n => negb (n =? 0)%Z
  | VStr s => negb (String.eqb s "")
  | VList l => match l with [] => false | _ :: _ => true end
  | VDict d => negb (bool_decide (d = ∅))
  end.

(** [v == "lit"] *)
Definition eq_str (v : value) (lit : string) : bool :=
  match v with
  | VStr s => String.eqb s lit
  | _ => false
  end.

(** [hash(v)]: lists and dicts are unhashable. *)
Definition hashable (v : value) : option key :=
  match v with
  | VNone => Some KNone
  | VBool b => Some (KInt (if b then 1 else 0))
  | VNum n => Some (KInt n)
  | VStr s => Some (KStr s)
  | VList _ | VDict _ => None
  end.

(** A value usable as a sequence index ([__index__]). *)
Definition as_index (v : value) : option Z :=
  match v with
  | VBool b => Some (if b then 1 else 0)%Z
  | VNum n => Some n
  | _ => None
  end.

(** Position designated by index [i] in a sequence of [n] elements;
    negative indices count from the end. *)
Definition norm_index (i : Z) (n : nat) : option nat :=
  if (0 <=? i)%Z then
    if (i <? Z.of_nat n)%Z then Some (Z.to_nat i) else None
  else
    if (- Z.of_nat n <=? i)%Z then Some (Z.to_nat (Z.of_nat n + i)) else None.

(** [needle in hay] for two strings: substring test. *)
Fixpoint contains (needle hay : string) : bool :=
  String.prefix needle hay ||
  match hay with
  | EmptyString => false
  | String _ rest => contains needle rest
  end.

(** [s.split(c)] for a one-character separator. *)
Fixpoint split (c : ascii) (s : string) : list string :=
  match s with
  | EmptyString => [EmptyString]
  | String a rest =>
      if Ascii.eqb a c then EmptyString :: split c rest
      else match split c rest with
           | [] => [String a EmptyString]
           | p :: ps => String a p :: ps
           end
  end.

(** [s.split(c, 1)]: the text before the first [c] and, when [c] occurs,
    the text after it. *)
Fixpoint split1 (c : ascii) (s : string) : string * option string :=
  match s with
  | EmptyString => (EmptyString, None)
  | String a rest =>
      if Ascii.eqb a c then (EmptyString, Some rest)
      else let '(p, q) := split1 c rest in (String a p, q)
  end.

(** [s[n:]] *)
Fixpoint drop_chars (n : nat) (s : string) : string :=
  match n, s with
  | O, _ => s
  | S _, EmptyString => EmptyString
  | S n', String _ rest => drop_chars n' rest
  end.

Definition chars (s : string) : list value :=
  List.map (fun a => VStr (String a EmptyString)) (list_ascii_of_string s).

(** [x.get(k, dflt)]: only dicts have the method. *)
Definition get (x : value) (k : string) (dflt : value) : res value :=
  match x with
  | VDict d => Ok (default dflt (d !! KStr k))
  | _ => Raise AttributeError
  end.

(** ["k" in x] *)
Definition str_in (k : string) (x : value) : res bool :=
  match x with
  | VStr s => Ok (contains k s)
  | VList l => Ok (existsb (fun e => eq_str e k) l)
  | VDict d => Ok (bool_decide (is_Some (d !! KStr k)))
  | VNone | VBool _ | VNum _ => Raise TypeError
  end.

(** [len(x)] *)
Definition len (x : value) : res nat :=
  match x with
  | VStr s => Ok (String.length s)
  | VList l => Ok (length l)
  | VDict d => Ok (size d)
  | VNone | VBool _ | VNum _ => Raise TypeError
  end.

(** [x[k]] *)
Definition getitem (x k : value) : res value :=
  match x with
  | VDict d =>
      match hashable k with
      | Some k' => match d !! k' with Some v => Ok v | None => Raise KeyError end
      | None => Raise TypeError
      end
  | VList l =>
      match as_index k with
      | Some i =>
          match norm_index i (length l) with
          | Some j => match l !! j with Some v => Ok v | None => Raise IndexError end
          | None => Raise IndexError
          end
      | None => Raise TypeError
      end
  | VStr s =>
      match as_index k with
      | Some i =>
          match norm_index i (String.length s) with
          | Some j => match chars s !! j with Some v => Ok v | None => Raise IndexError end
          | None => Raise IndexError
          end
      | None => Raise TypeError
      end
  | VNone | VBool _ | VNum _ => Raise TypeError
  end.

(** [x[k] = v], returning the updated container. *)
Definition setitem (x k v : value) : res value :=
  match x with
  | VDict d =>
      match hashable k with
      | Some k' => Ok (VDict (<[k' := v]> d))
      | None => Raise TypeError
      end
  | VList l =>
      match as_index k with
      | Some i =>
          match norm_index i (length l) with
          | Some j => Ok (VList (<[j := v]> l))
          | None => Raise IndexError
          end
      | None => Raise TypeError
      end
  | VNone | VBool _ | VNum _ | VStr _ => Raise TypeError
  end.

(** The place of a list or a dict that an index designates: a position
    of the list, a key of the dict. *)
Inductive slot : Type :=
| SPos (j : nat)
| SKey (k : key).

Global Instance slot_eq_dec : EqDecision slot.
Proof. solve_decision. Defined.

Definition slot_of (x i : value) : option slot :=
  match x with
  | VList l => SPos <$> (as_index i ≫= fun z => norm_index z (length l))
  | VDict _ => SKey <$> hashable i
  | _ => None
  end.

Definition read (x : value) (s : slot) : option value :=
  match x, s with
  | VList l, SPos j => l !! j
  | VDict d, SKey k => d !! k
  | _, _ => None
  end.

Definition write (x : value) (s : slot) (v : value) : value :=
  match x, s with
  | VList l, SPos j => VList (<[j := v]> l)
  | VDict d, SKey k => VDict (<[k := v]> d)
  | _, _ => x
  end.

(** [x[k1][k2] = v]: the element is fetched, updated in place, and the
    container still holds it. *)
Definition setitem2 (x k1 k2 v : value) : res value :=
  e ← getitem x k1;
  e' ← setitem e k2 v;
  setitem x k1 e'.

(** [int(s)] for a string: surrounding whitespace, an optional sign, and
    decimal digits that single underscores may separate. *)
Definition is_space (a : ascii) : bool :=
  let n := nat_of_ascii a in
  (n =? 32)%nat || ((9 <=? n)%nat && (n <=? 13)%nat) || ((28 <=? n)%nat && (n <=? 31)%nat).

Definition digit_of (a : ascii) : option Z :=
  let n := nat_of_ascii a in
  if ((48 <=? n)%nat && (n <=? 57)%nat) then Some (Z.of_nat (n - 48)) else None.

Fixpoint lstrip (s : string) : string :=
  match s with
  | String a rest => if is_space a then lstrip rest else s
  | EmptyString => s
  end.

Fixpoint rstrip (s : string) : string :=
  match s with
  | EmptyString => EmptyString
  | String a rest =>
      match rstrip rest with
      | EmptyString => if is_space a then EmptyString else String a EmptyString
      | r => String a r
      end
  end.

Fixpoint digits (acc : Z) (after_digit : bool) (s : string) : option Z :=
  match s with
  | EmptyString => if after_digit then Some acc else None
  | String a rest =>
      match digit_of a with
      | Some d => digits (10 * acc + d)%Z true rest
      | None =>
          if Ascii.eqb a "_"%char && after_digit then digits acc false rest
          else None
      end
  end.

Definition int (s : string) : res Z :=
  let body := rstrip (lstrip s) in
  let parsed :=
    match body with
    | String "-"%char rest => Z.opp <$> digits 0 false rest
    | String "+"%char rest => digits 0 false rest
    | _ => digits 0 false body
    end in
  match parsed with
  | Some n => Ok n
  | None => Raise ValueError
  end.

(** [str(n)] for a natural number. *)
Definition str_of_nat (n : nat) : string :=
  NilZero.string_of_uint (Nat.to_uint n).

(** A dict literal with string keys. *)
Definition obj (fields : list (string * value)) : value :=
  VDict (list_to_map (List.map (fun kv => (KStr kv.1, kv.2)) fields)).

(** The values a [for] loop draws from [x]: the elements of a list, the
    characters of a string, the keys of a dict. *)
Definition key_value (k : key) : value :=
  match k with
  | KNone => VNone
  | KInt n => VNum n
  | KStr s => VStr s
  end.

Definition iter (x : value) : res (list value) :=
  match x with
  | VList l => Ok l
  | VStr s => Ok (chars s)
  | VDict d => Ok (List.map (fun kv => key_value kv.1) (map_to_list d))
  | VNone | VBool _ | VNum _ => Raise TypeError
  end.

(** [for x in l: acc = f(acc, x)] where [f] may raise. *)
Fixpoint foldM {A B} (f : A -> B -> res A) (acc : A) (l : list B) : res A :=
  match l with
  | [] => Ok acc
  | x :: l' => acc' ← f acc x; foldM f acc' l'
  end.

(** [enumerate(l)] *)
Fixpoint enumerate_from {A} (i : nat) (l : list A) : list (nat * A) :=
  match l with
  | [] => []
  | x :: l' => (i, x) :: enumerate_from (S i) l'
  end.

Definition enumerate {A} (l : list A) : list (nat * A) := enumerate_from 0 l.

(** The text of [str(e)], kept at the granularity of the exception class. *)
Definition exn_text (e : exn) : string :=
  match e with
  | AttributeError => "AttributeError"
  | TypeError => "TypeError"
  | ValueError => "ValueError"
  | IndexError => "IndexError"
  | KeyError => "KeyError"
  | StoreError => "StoreError"
  end.

End Py.

Import Py.

(** ** The key-value document store *)

Module Store.

(** A table maps the string value of its key attribute [application_id]
    to the stored item. *)
Abbreviation table := (gmap string dict).

Record db : Type := Db {
  applications : table;
  evaluations : table
}.

(** An item can be written only if every attribute name in it, at any
    depth, is a string. *)
Fixpoint storable (v : value) : bool :=
  match v with
  | VList l => forallb storable l
  | VDict d =>
      map_fold (fun k x acc =>
                  match k with
                  | KStr _ => storable x && acc
                  | _ => false
                  end) true d
  | _ => true
  end.

(** [dynamodb_get_item("application_id", id_value, table)]: the key must
    be a non-empty string; an absent item is [None]. *)
Definition dynamodb_get_item (id_value : value) (t : table) : res (option dict) :=
  match id_value with
  | VStr s => if String.eqb s "" then Raise ValueError else Ok (t !! s)
  | _ => Raise StoreError
  end.

(** [dynamodb_put_item(item, table)]: an empty item is refused, the key
    attribute must be a non-empty string, and the item must be storable. *)
Definition dynamodb_put_item (item : dict) (t : table) : res table :=
  if bool_decide (item = ∅) then Raise ValueError
  else match item !! KStr "application_id" with
       | Some (VStr s) =>
           if String.eqb s "" then Raise StoreError
           else if storable (VDict item) then Ok (<[s := item]> t)
           else Raise StoreError
       | _ => Raise StoreError
       end.

(** [not student] for the result of a read. *)
Definition missing (student : option dict) : bool :=
  match student with
  | None => true
  | Some d => bool_decide (d = ∅)
  end.

End Store.

Import Store.

(** ** Cohort statistics ([StatisticalCalculator]) *)

Module Stats.

Open Scope Q_scope.

(** A cohort entry: [None] stands for a null or not-a-number entry, which
    the calculator filters out. *)
Abbreviation sample := (list (option Q)).

(** [[v for v in all_values if v is not None and not pd.isna(v)]] *)
Fixpoint valid_values (all_values : sample) : list Q :=
  match all_values with
  | [] => []
  | Some v :: rest => v :: valid_values rest
  | None :: rest => valid_values rest
  end.

Definition Qlt_bool (a b : Q) : bool := negb (Qle_bool b a).

Definition count_below (score : Q) (a : list Q) : nat :=
  length (List.filter (fun v => Qlt_bool v score) a).

Definition of_nat (n : nat) : Q := inject_Z (Z.of_nat n).

(** [scipy.stats.percentileofscore(a, score, kind='strict')] for a
    non-empty [a]: the percentage of entries strictly below [score],
    computed as [count * (100 / n)]. *)
Definition percentileofscore_strict (a : list Q) (score : Q) : Q :=
  of_nat (count_below score a) * (100 / of_nat (length a)).

(** Python's [min(a, b)] and [max(a, b)] keep the first argument unless
    the second is strictly smaller (resp. larger). *)
Definition py_min (a b : Q) : Q := if Qlt_bool b a then b else a.
Definition py_max (a b : Q) : Q := if Qlt_bool a b then b else a.

Definition calculate_percentile (value : option Q) (all_values : sample)
  : option Q :=
  match value with
  | None => None
  | Some value =>
      if (length all_values <? 2)%nat then None
      else
        let valid := valid_values all_values in
        if (length valid <? 2)%nat then None
        else
          let percentile := percentileofscore_strict valid value in
          Some (py_max 0 (py_min 100 percentile))
  end.

Fixpoint sum (l : list Q) : Q :=
  match l with
  | [] => 0
  | x :: l' => x + sum l'
  end.

(** [statistics.mean] *)
Definition mean (l : list Q) : Q := sum l / of_nat (length l).

(** [statistics.variance]: the sample variance, exact on rationals. *)
Definition variance (l : list Q) : Q :=
  let c := mean l in
  sum (List.map (fun x => (x - c) * (x - c)) l) / of_nat (length l - 1).

Section ZScore.

(** The square root that [statistics.stdev] takes of the variance. *)
Variable sqrtQ : Q -> Q.

Definition stdev (l : list Q) : Q := sqrtQ (variance l).

(** A null [value] makes [value - mean] raise [TypeError], which the
    function's handler turns into [None]. *)
Definition calculate_z_score (value : option Q) (all_values : sample)
  : option Q :=
  if (length all_values <? 2)%nat then None
  else
    let valid := valid_values all_values in
    if (length valid <? 2)%nat then None
    else
      let mean := mean valid in
      let stdev := stdev valid in
      if Qeq_bool stdev 0 then Some 0
      else match value with
           | Some value => Some ((value - mean) / stdev)
           | None => None
           end.

End ZScore.

(** A computable stand-in for the square root on rationals: for the
    fraction [n/d] in lowest terms, the integer square root of [n * d]
    over [d]. It maps 0 to 0, is positive on positive arguments and does
    not depend on how its argument is written. *)
Definition approx_sqrt (q : Q) : Q :=
  let r := Qred q in
  Qmake (Z.sqrt (Qnum r * Zpos (Qden r))) (Qden r).

Close Scope Q_scope.

End Stats.

(** ** Extraction unit *)

Module ExtractionUnit.

(** [parse_s3_uri]: bucket and key of [s3://bucket/key], [(None, None)]
    when the argument is not such a string. The key is [""] when absent. *)
Definition parse_s3_uri (s3_uri : value) : option string * option string :=
  match s3_uri with
  | VStr uri =>
      if negb (truthy s3_uri) || negb (String.prefix "s3://" uri) then (None, None)
      else
        let path := drop_chars 5 uri in
        if String.eqb path "" then (None, None)
        else
          let parts := split1 "/" path in
          let bucket := if String.eqb parts.1 "" then None else Some parts.1 in
          let key := match parts.2 with
                     | Some k => k
                     | None => ""
                     end in
          (bucket, Some key)
  | _ => (None, None)
  end.

(** The addressing scheme [s3://bucket/key]: the bucket is the non-empty
    text up to the first slash, the key the non-empty text after it. *)
Fixpoint has_char (c : ascii) (s : string) : bool :=
  match s with
  | EmptyString => false
  | String a rest => Ascii.eqb a c || has_char c rest
  end.

Definition addresses (s3_uri : value) (bucket key : string) : Prop :=
  s3_uri = VStr ("s3://" +:+ bucket +:+ "/" +:+ key) /\
  bucket <> "" /\ key <> "" /\ has_char "/" bucket = false.


(** [not x] for an optional string. *)
Definition blank (x : option string) : bool :=
  match x with
  | None => true
  | Some s => String.eqb s ""
  end.

Definition failed_outcome (application_id document : value) (error : string) : value :=
  obj [("application_id", application_id); ("document", document);
       ("status", VStr "failed"); ("error", VStr error); ("content", VStr "")].

Definition success_outcome (application_id document : value) (content : string) : value :=
  obj [("application_id", application_id); ("document", document);
       ("status", VStr "success"); ("content", VStr content)].


(** Tallies of the sequential flow: the field names extracted, failed
    and skipped, in order of arrival. *)
Record extraction_results : Type := Tallies {
  successful : list string;
  failed : list string;
  skipped : list string
}.

(** The registry of main documents: document key and content field. *)
Definition document_mapping : list (string * string) :=
  [("transcript", "transcript_content");
   ("sop", "sop_content");
   ("resume", "resume_content");
   ("lor_academic", "lor_academic_content");
   ("lor_research", "lor_research_content");
   ("lor_professional", "lor_professional_content");
   ("passport", "passport_content");
   ("gre_report", "gre_report_content");
   ("english_report", "english_report_content");
   ("degree_certificate", "degree_certificate_content");
   ("bank_statement", "bank_statement_content");
   ("affidavit", "affidavit_content");
   ("fee_receipt", "fee_receipt_content");
   ("writing_sample", "writing_sample_content");
   ("portfolio", "portfolio_content");
   ("research_proposal", "research_proposal_content");
   ("publication_certificate", "publication_certificate_content");
   ("internship_certificate", "internship_certificate_content");
   ("work_certificate", "work_certificate_content");
   ("recommendation_letter_additional", "recommendation_letter_additional_content")].

Section WithTextractor.

(** [textractor_document_analysis(bucket, key)]: the text-extraction
    service, which reports its own faults as a ["FAILED"] status. *)
Variable textractor_document_analysis : string -> string -> string * string.

Definition extract_single_document_body (application_id document : value)
  : res (bool * value) :=
  if negb (truthy application_id) || negb (truthy document) then
    Ok (false, VStr "Missing required parameters")
  else
    s3_uri ← get document "s3_uri" VNone;
    document_key ← get document "document_key" VNone;
    match parse_s3_uri s3_uri with
    | (Some bucket_name, Some s3_key) =>
        if blank (Some bucket_name) || blank (Some s3_key) then
          Ok (true, failed_outcome application_id document "Invalid S3 URI")
        else
          let '(status, result) := textractor_document_analysis bucket_name s3_key in
          if String.eqb status "SUCCEEDED" then
            Ok (true, success_outcome application_id document result)
          else
            Ok (true, failed_outcome application_id document result)
    | _ => Ok (true, failed_outcome application_id document "Invalid S3 URI")
    end.

(** [extract_single_document_flow(data)]: the handler of the [try] block
    turns any exception into a failed outcome. *)
Definition extract_single_document_flow (data : dict) : bool * value :=
  let application_id := default VNone (data !! KStr "application_id") in
  match extract_single_document_body application_id
          (default VNone (data !! KStr "document")) with
  | Ok r => r
  | Raise e =>
      (true, failed_outcome application_id
               (default (VDict ∅) (data !! KStr "document")) (exn_text e))
  end.

(** The helper [extract_document] of [document_extraction_flow]: [None]
    for a skipped locator, [Some ""] for a failed extraction. *)
Definition extract_document (s3_uri : value) (field_name : string)
    (r : extraction_results) : extraction_results * option string :=
  if negb (truthy s3_uri) || eq_str s3_uri "" then
    (Tallies (successful r) (failed r) (skipped r ++ [field_name]), None)
  else
    match parse_s3_uri s3_uri with
    | (Some bucket_name, Some s3_key) =>
        if blank (Some bucket_name) || blank (Some s3_key) then
          (Tallies (successful r) (failed r ++ [field_name]) (skipped r), Some "")
        else
          let '(status, result) := textractor_document_analysis bucket_name s3_key in
          if String.eqb status "SUCCEEDED" then
            (Tallies (successful r ++ [field_name]) (failed r) (skipped r), Some result)
          else
            (Tallies (successful r) (failed r ++ [field_name]) (skipped r), Some "")
    | _ => (Tallies (successful r) (failed r ++ [field_name]) (skipped r), Some "")
    end.

(** One iteration of the loop of [_extract_main_documents]. *)
Definition extract_main_document (docs : value) (doc_key content_key : string)
    (st : dict * extraction_results) : res (dict * extraction_results) :=
  present ← str_in doc_key docs;
  if present : bool then
    s3_uri ← getitem docs (VStr doc_key);
    let '(r, extracted_content) := extract_document s3_uri doc_key st.2 in
    match extracted_content with
    | Some text => Ok (<[KStr content_key := VStr text]> st.1, r)
    | None => Ok (st.1, r)
    end
  else Ok st.

(** The loop stops at the first exception, which the function's handler
    swallows; what was stored before it stays. *)
Fixpoint extract_main_loop (docs : value) (mapping : list (string * string))
    (st : dict * extraction_results) : dict * extraction_results :=
  match mapping with
  | [] => st
  | (doc_key, content_key) :: rest =>
      match extract_main_document docs doc_key content_key st with
      | Ok st' => extract_main_loop docs rest st'
      | Raise _ => st
      end
  end.

(** Whether the extraction of a non-empty locator ends as failed: the
    locator is rejected or the service does not report success. *)
Definition extraction_fails (s3_uri : value) : bool :=
  match parse_s3_uri s3_uri with
  | (Some bucket_name, Some s3_key) =>
      blank (Some bucket_name) || blank (Some s3_key) ||
      negb (String.eqb (textractor_document_analysis bucket_name s3_key).1 "SUCCEEDED")
  | _ => true
  end.

Definition _extract_main_documents (st : dict * extraction_results)
  : dict * extraction_results :=
  let docs := default (VDict ∅) (st.1 !! KStr "documents") in
  if negb (truthy docs) then st
  else extract_main_loop docs document_mapping st.

End WithTextractor.

End ExtractionUnit.

(** ** Document set resolver *)

Module Resolver.

Import ExtractionUnit.

Definition main_task (application_id : value) (doc_key content_key : string)
    (s3_uri : value) : value :=
  obj [("application_id", application_id); ("document_type", VStr "main");
       ("document_key", VStr doc_key); ("content_key", VStr content_key);
       ("s3_uri", s3_uri)].

Definition nested_task (application_id : value) (document_key content_key : string)
    (s3_uri : value) (parent_path : string) : value :=
  obj [("application_id", application_id); ("document_type", VStr "nested");
       ("document_key", VStr document_key); ("content_key", VStr content_key);
       ("s3_uri", s3_uri); ("parent_path", VStr parent_path)].

(** [if field in holder and holder[field]: documents.append(task)] *)
Definition add_if_present (holder : value) (field : string)
    (task : value -> value) (documents : list value) : res (list value) :=
  present ← str_in field holder;
  if present : bool then
    locator ← getitem holder (VStr field);
    if truthy locator then Ok (documents ++ [task locator])%list else Ok documents
  else Ok documents.

Definition add_main (application_id docs : value) (documents : list value)
    (entry : string * string) : res (list value) :=
  add_if_present docs entry.1 (main_task application_id entry.1 entry.2) documents.

Definition add_project (application_id : value) (documents : list value)
    (entry : nat * value) : res (list value) :=
  let '(idx, project) := entry in
  let i := str_of_nat idx in
  documents ← add_if_present project "publication_document"
    (fun uri => nested_task application_id
       ("research_experience.projects[" +:+ i +:+ "].publication_document")
       "publication_content" uri ("research_experience.projects." +:+ i))
    documents;
  add_if_present project "report_document"
    (fun uri => nested_task application_id
       ("research_experience.projects[" +:+ i +:+ "].report_document")
       "report_content" uri ("research_experience.projects." +:+ i))
    documents.

Definition add_work (application_id : value) (documents : list value)
    (entry : nat * value) : res (list value) :=
  let '(idx, work) := entry in
  let i := str_of_nat idx in
  documents ← add_if_present work "certificate_document"
    (fun uri => nested_task application_id
       ("work_experience[" +:+ i +:+ "].certificate_document")
       "certificate_content" uri ("work_experience." +:+ i))
    documents;
  add_if_present work "recommendation_document"
    (fun uri => nested_task application_id
       ("work_experience[" +:+ i +:+ "].recommendation_document")
       "recommendation_content" uri ("work_experience." +:+ i))
    documents.

(** The four scans of [prepare_document_list_flow] over a loaded record,
    each appending to the tasks found so far. *)
Definition scan_main (application_id : value) (student : dict)
    (documents : list value) : res (list value) :=
  match student !! KStr "documents" with
  | Some docs => foldM (add_main application_id docs) documents document_mapping
  | None => Ok documents
  end.

Definition scan_personal (application_id : value) (student : dict)
    (documents : list value) : res (list value) :=
  match student !! KStr "personal_information" with
  | Some personal_info =>
      add_if_present personal_info "government_id_document"
        (fun uri => nested_task application_id
           "personal_information.government_id_document"
           "government_id_content" uri "personal_information")
        documents
  | None => Ok documents
  end.

Definition scan_projects (application_id : value) (student : dict)
    (documents : list value) : res (list value) :=
  match student !! KStr "research_experience" with
  | Some research_exp =>
      projects ← get research_exp "projects" (VList []);
      projects ← iter projects;
      foldM (add_project application_id) documents (enumerate projects)
  | None => Ok documents
  end.

Definition scan_work (application_id : value) (student : dict)
    (documents : list value) : res (list value) :=
  match student !! KStr "work_experience" with
  | Some work_experiences =>
      work_experiences ← iter work_experiences;
      foldM (add_work application_id) documents (enumerate work_experiences)
  | None => Ok documents
  end.

Definition collect_documents (application_id : value) (student : dict)
  : res (list value) :=
  documents ← scan_main application_id student [];
  documents ← scan_personal application_id student documents;
  documents ← scan_projects application_id student documents;
  scan_work application_id student documents.

Definition prepare_document_list_body (data : dict) (t : table)
  : res (bool * value) :=
  let application_id := default VNone (data !! KStr "application_id") in
  if negb (truthy application_id) then
    Ok (false, VStr "Missing application_id parameter")
  else
    student ← dynamodb_get_item application_id t;
    match student with
    | Some student =>
        if missing (Some student) then Ok (false, VStr "Application not found")
        else
          documents ← collect_documents application_id student;
          Ok (true, obj [("application_id", application_id);
                         ("documents", VList documents);
                         ("total_documents", VNum (Z.of_nat (length documents)))])
    | None => Ok (false, VStr "Application not found")
    end.

Definition prepare_document_list_flow (data : dict) (t : table) : bool * value :=
  match prepare_document_list_body data t with
  | Ok r => r
  | Raise e => (false, VStr ("Failed to prepare document list: " +:+ exn_text e))
  end.

(** *** What the resolver is expected to produce

    A record of the expected shape keeps a mapping under [documents] and
    [personal_information], a mapping with a list of mappings under
    [research_experience.projects], and a list of mappings under
    [work_experience]; each section may be absent. *)

Definition is_dict (v : value) : bool :=
  match v with
  | VDict _ => true
  | _ => false
  end.

Definition well_shaped (student : dict) : bool :=
  from_option is_dict true (student !! KStr "documents") &&
  from_option is_dict true (student !! KStr "personal_information") &&
  match student !! KStr "research_experience" with
  | None => true
  | Some (VDict research_exp) =>
      match research_exp !! KStr "projects" with
      | None => true
      | Some (VList projects) => forallb is_dict projects
      | Some _ => false
      end
  | Some _ => false
  end &&
  match student !! KStr "work_experience" with
  | None => true
  | Some (VList work_experiences) => forallb is_dict work_experiences
  | Some _ => false
  end.

(** The field of a section seen as a mapping; nothing is found in a
    section that is absent. *)
Definition field_of (holder : value) (field : string) : option value :=
  match holder with
  | VDict d => d !! KStr field
  | _ => None
  end.

(** One task for a locator that is present and non-empty, none otherwise. *)
Definition task_for (holder : value) (field : string) (task : value -> value)
  : list value :=
  match field_of holder field with
  | Some locator => if truthy locator then [task locator] else []
  | None => []
  end.

(** Number of present, non-empty locators at one place: 0 or 1. *)
Definition locators_at (holder : value) (field : string) : nat :=
  match field_of holder field with
  | Some locator => if truthy locator then 1 else 0
  | None => 0
  end.

Definition section_of (student : dict) (name : string) : value :=
  default VNone (student !! KStr name).

Definition entries_of (holder : value) : list (nat * value) :=
  match holder with
  | VList l => enumerate l
  | _ => []
  end.

Definition projects_of (student : dict) : list (nat * value) :=
  entries_of (default VNone (field_of (section_of student "research_experience") "projects")).

Definition work_of (student : dict) : list (nat * value) :=
  entries_of (section_of student "work_experience").

Definition project_tasks (application_id : value) (entry : nat * value) : list value :=
  let i := str_of_nat entry.1 in
  (task_for entry.2 "publication_document"
     (fun uri => nested_task application_id
        ("research_experience.projects[" +:+ i +:+ "].publication_document")
        "publication_content" uri ("research_experience.projects." +:+ i)) ++
   task_for entry.2 "report_document"
     (fun uri => nested_task application_id
        ("research_experience.projects[" +:+ i +:+ "].report_document")
        "report_content" uri ("research_experience.projects." +:+ i)))%list.

Definition work_tasks (application_id : value) (entry : nat * value) : list value :=
  let i := str_of_nat entry.1 in
  (task_for entry.2 "certificate_document"
     (fun uri => nested_task application_id
        ("work_experience[" +:+ i +:+ "].certificate_document")
        "certificate_content" uri ("work_experience." +:+ i)) ++
   task_for entry.2 "recommendation_document"
     (fun uri => nested_task application_id
        ("work_experience[" +:+ i +:+ "].recommendation_document")
        "recommendation_content" uri ("work_experience." +:+ i)))%list.

Definition expected_documents (application_id : value) (student : dict) : list value :=
  (flat_map (fun entry : string * string =>
               task_for (section_of student "documents") entry.1
                 (main_task application_id entry.1 entry.2))
            document_mapping ++
   task_for (section_of student "personal_information") "government_id_document"
     (fun uri => nested_task application_id
        "personal_information.government_id_document"
        "government_id_content" uri "personal_information") ++
   flat_map (project_tasks application_id) (projects_of student) ++
   flat_map (work_tasks application_id) (work_of student))%list.

Definition sum_list (l : list nat) : nat := fold_right Nat.add 0 l.

Definition locator_count (student : dict) : nat :=
  sum_list (List.map (fun entry : string * string =>
                   locators_at (section_of student "documents") entry.1)
                document_mapping) +
  locators_at (section_of student "personal_information") "government_id_document" +
  sum_list (List.map (fun entry : nat * value =>
                   locators_at entry.2 "publication_document" +
                   locators_at entry.2 "report_document")
                (projects_of student)) +
  sum_list (List.map (fun entry : nat * value =>
                   locators_at entry.2 "certificate_document" +
                   locators_at entry.2 "recommendation_document")
                (work_of student)).

End Resolver.

(** ** Consolidator *)

Module Consolidator.

Record summary : Type := Summary {
  successful : nat;
  failed : nat;
  skipped : nat
}.

Definition total (n : summary) : nat := successful n + failed n + skipped n.

(** [student[section][idx][content_key] = content] for the list held
    under [section], guarded by [idx < len(...)]. *)
Definition store_in_list (entries : value) (idx : Z) (content_key content : value)
  : res value :=
  n ← len entries;
  if (idx <? Z.of_nat n)%Z then setitem2 entries (VNum idx) content_key content
  else Ok entries.

Definition store_personal (student : dict) (content_key content : value) : res dict :=
  let student :=
    if bool_decide (is_Some (student !! KStr "personal_information")) then student
    else <[KStr "personal_information" := VDict ∅]> student in
  personal_info ← getitem (VDict student) (VStr "personal_information");
  personal_info ← setitem personal_info content_key content;
  Ok (<[KStr "personal_information" := personal_info]> student).

(** The part of the projects branch that reads the record. *)
Definition write_project (student : dict) (idx : Z) (content_key content : value)
  : res dict :=
  match student !! KStr "research_experience" with
  | Some research_exp =>
      present ← str_in "projects" research_exp;
      if present : bool then
        projects ← getitem research_exp (VStr "projects");
        projects ← store_in_list projects idx content_key content;
        research_exp ← setitem research_exp (VStr "projects") projects;
        Ok (<[KStr "research_experience" := research_exp]> student)
      else Ok student
  | None => Ok student
  end.

Definition store_project (student : dict) (path_parts : list string)
    (content_key content : value) : res dict :=
  if (3 <=? length path_parts)%nat then
    idx ← int (default "" (path_parts !! 2%nat));
    write_project student idx content_key content
  else Ok student.

(** The part of the work-experience branch that reads the record. *)
Definition write_work (student : dict) (idx : Z) (content_key content : value)
  : res dict :=
  match student !! KStr "work_experience" with
  | Some work_experience =>
      work_experience ← store_in_list work_experience idx content_key content;
      Ok (<[KStr "work_experience" := work_experience]> student)
  | None => Ok student
  end.

Definition store_work (student : dict) (path_parts : list string)
    (content_key content : value) : res dict :=
  if (2 <=? length path_parts)%nat then
    idx ← int (default "" (path_parts !! 1%nat));
    write_work student idx content_key content
  else Ok student.

(** [parent_path.split(".")]: only strings have the method. *)
Definition split_path (parent_path : value) : res (list string) :=
  match parent_path with
  | VStr s => Ok (split "." s)
  | _ => Raise AttributeError
  end.

(** The body of the [status == "success"] branch after the tally. *)
Definition store_content (student : dict) (document content : value) : res dict :=
  document_type ← get document "document_type" VNone;
  if eq_str document_type "main" then
    content_key ← get document "content_key" VNone;
    if truthy content_key then
      match hashable content_key with
      | Some k => Ok (<[k := content]> student)
      | None => Raise TypeError
      end
    else Ok student
  else if eq_str document_type "nested" then
    parent_path ← get document "parent_path" (VStr "");
    content_key ← get document "content_key" VNone;
    personal ← str_in "personal_information" parent_path;
    if personal : bool then store_personal student content_key content
    else
      research ← str_in "research_experience.projects" parent_path;
      if research : bool then
        path_parts ← split_path parent_path;
        store_project student path_parts content_key content
      else
        work ← str_in "work_experience" parent_path;
        if work : bool then
          path_parts ← split_path parent_path;
          store_work student path_parts content_key content
        else Ok student
  else Ok student.

(** [result_wrapper.get("Payload", {}).get("result", {})] *)
Definition result_of (result_wrapper : value) : res value :=
  payload ← get result_wrapper "Payload" (VDict ∅);
  get payload "result" (VDict ∅).

(** One iteration of the loop over [extraction_results]. *)
Definition process_result (st : dict * summary) (result_wrapper : value)
  : res (dict * summary) :=
  let '(student, n) := st in
  result ← result_of result_wrapper;
  status ← get result "status" VNone;
  if eq_str status "success" then
    let n := Summary (S (successful n)) (failed n) (skipped n) in
    document ← get result "document" (VDict ∅);
    content ← get result "content" (VStr "");
    student ← store_content student document content;
    Ok (student, n)
  else if eq_str status "failed" then
    Ok (student, Summary (successful n) (S (failed n)) (skipped n))
  else
    Ok (student, Summary (successful n) (failed n) (S (skipped n))).

Definition in_progress : value := VStr "Evaluation in-progress".

(** The loop and the status update, on the loaded record. *)
Definition consolidate (student : dict) (extraction_results : list value)
  : res (dict * summary) :=
  st ← foldM process_result (student, Summary 0 0 0) extraction_results;
  Ok (<[KStr "application_status" := in_progress]> st.1, st.2).

Definition summary_value (application_id : value) (n : summary) (total : nat) : value :=
  obj [("application_id", application_id);
       ("summary", obj [("successful", VNum (Z.of_nat (successful n)));
                        ("failed", VNum (Z.of_nat (failed n)));
                        ("skipped", VNum (Z.of_nat (skipped n)));
                        ("total", VNum (Z.of_nat total))])].

Definition consolidate_body (data : dict) (t : table) : res (table * (bool * value)) :=
  let application_id := default VNone (data !! KStr "application_id") in
  let extraction_results := default (VList []) (data !! KStr "extraction_results") in
  if negb (truthy application_id) then
    Ok (t, (false, VStr "Missing application_id parameter"))
  else
    student ← dynamodb_get_item application_id t;
    match student with
    | Some student =>
        if missing (Some student) then Ok (t, (false, VStr "Application not found"))
        else
          results ← iter extraction_results;
          st ← consolidate student results;
          t' ← dynamodb_put_item st.1 t;
          total ← len extraction_results;
          Ok (t', (true, summary_value application_id st.2 total))
    | None => Ok (t, (false, VStr "Application not found"))
    end.

(** [consolidate_extraction_results_flow(data)] against the application
    table: an exception anywhere leaves the table as it was. *)
Definition consolidate_extraction_results_flow (data : dict) (t : table)
  : table * (bool * value) :=
  match consolidate_body data t with
  | Ok r => r
  | Raise e => (t, (false, VStr ("Failed to consolidate results: " +:+ exn_text e)))
  end.

(** The input of the consolidation step. *)
Definition consolidation_input (application_id : string) (outcomes : list value) : dict :=
  <[KStr "application_id" := VStr application_id]>
    (<[KStr "extraction_results" := VList outcomes]> ∅).

(** *** The effect of one outcome, split into what it says and what it
    does to the record *)

Inductive tally_kind : Type := Success | Failure | Skip.

(** The write an outcome asks for. *)
Inductive action : Type :=
| NoWrite
| SetField (k : key) (content : value)
| SetPersonal (content_key content : value)
| SetProject (idx : Z) (content_key content : value)
| SetWork (idx : Z) (content_key content : value).

(** The decisions of [store_content] that read the document only. *)
Definition decode_document (document content : value) : res action :=
  document_type ← get document "document_type" VNone;
  if eq_str document_type "main" then
    content_key ← get document "content_key" VNone;
    if truthy content_key then
      match hashable content_key with
      | Some k => Ok (SetField k content)
      | None => Raise TypeError
      end
    else Ok NoWrite
  else if eq_str document_type "nested" then
    parent_path ← get document "parent_path" (VStr "");
    content_key ← get document "content_key" VNone;
    personal ← str_in "personal_information" parent_path;
    if personal : bool then Ok (SetPersonal content_key content)
    else
      research ← str_in "research_experience.projects" parent_path;
      if research : bool then
        path_parts ← split_path parent_path;
        if (3 <=? length path_parts)%nat then
          idx ← int (default "" (path_parts !! 2%nat));
          Ok (SetProject idx content_key content)
        else Ok NoWrite
      else
        work ← str_in "work_experience" parent_path;
        if work : bool then
          path_parts ← split_path parent_path;
          if (2 <=? length path_parts)%nat then
            idx ← int (default "" (path_parts !! 1%nat));
            Ok (SetWork idx content_key content)
          else Ok NoWrite
        else Ok NoWrite
  else Ok NoWrite.

Definition decode (result_wrapper : value) : res (tally_kind * action) :=
  result ← result_of result_wrapper;
  status ← get result "status" VNone;
  if eq_str status "success" then
    document ← get result "document" (VDict ∅);
    content ← get result "content" (VStr "");
    a ← decode_document document content;
    Ok (Success, a)
  else if eq_str status "failed" then Ok (Failure, NoWrite)
  else Ok (Skip, NoWrite).

Definition apply (a : action) (student : dict) : res dict :=
  match a with
  | NoWrite => Ok student
  | SetField k content => Ok (<[k := content]> student)
  | SetPersonal content_key content => store_personal student content_key content
  | SetProject idx content_key content => write_project student idx content_key content
  | SetWork idx content_key content => write_work student idx content_key content
  end.

Definition bump (k : tally_kind) (n : summary) : summary :=
  match k with
  | Success => Summary (S (successful n)) (failed n) (skipped n)
  | Failure => Summary (successful n) (S (failed n)) (skipped n)
  | Skip => Summary (successful n) (failed n) (S (skipped n))
  end.

Definition run (acts : list action) (student : dict) : res dict :=
  foldM (fun s a => apply a s) student acts.

(** The top-level field of the record under which an action writes. *)
Definition root (a : action) : option key :=
  match a with
  | NoWrite => None
  | SetField k _ => Some k
  | SetPersonal _ _ => Some (KStr "personal_information")
  | SetProject _ _ _ => Some (KStr "research_experience")
  | SetWork _ _ _ => Some (KStr "work_experience")
  end.

(** What an action does to the value held under its root. *)
Definition local (a : action) (o : option value) : res (option value) :=
  match a with
  | NoWrite => Ok o
  | SetField _ content => Ok (Some content)
  | SetPersonal content_key content =>
      v ← setitem (default (VDict ∅) o) content_key content; Ok (Some v)
  | SetProject idx content_key content =>
      match o with
      | Some research_exp =>
          present ← str_in "projects" research_exp;
          if present : bool then
            projects ← getitem research_exp (VStr "projects");
            projects ← store_in_list projects idx content_key content;
            research_exp ← setitem research_exp (VStr "projects") projects;
            Ok (Some research_exp)
          else Ok (Some research_exp)
      | None => Ok None
      end
  | SetWork idx content_key content =>
      match o with
      | Some work_experience =>
          work_experience ← store_in_list work_experience idx content_key content;
          Ok (Some work_experience)
      | None => Ok None
      end
  end.

Definition put (r : key) (o : option value) (student : dict) : dict :=
  match o with
  | Some v => <[r := v]> student
  | None => student
  end.

(** The effect of an action on the value under the top-level field [r]. *)
Definition step (r : key) (a : action) (o : option value) : res (option value) :=
  if bool_decide (root a = Some r) then local a o else Ok o.

Definition chain (r : key) (acts : list action) (o : option value)
  : res (option value) :=
  foldM (fun o a => step r a o) o acts.

Definition is_set (r : key) (a : action) : bool :=
  match a with
  | SetField k _ => bool_decide (k = r)
  | _ => false
  end.

(** Two writes that cannot touch the same place: different top-level
    fields, or within one section different string-named fields or
    different non-negative list positions. *)
Definition distinct_fields (k1 k2 : value) : bool :=
  match k1, k2 with
  | VStr s1, VStr s2 => negb (String.eqb s1 s2)
  | _, _ => false
  end.

Definition distinct_entries (i j : Z) : bool :=
  (0 <=? i)%Z && (0 <=? j)%Z && negb (i =? j)%Z.

Definition independent (a b : action) : bool :=
  match a, b with
  | NoWrite, _ | _, NoWrite => true
  | SetPersonal k1 _, SetPersonal k2 _ => distinct_fields k1 k2
  | SetProject i k1 _, SetProject j k2 _ => distinct_entries i j || distinct_fields k1 k2
  | SetWork i k1 _, SetWork j k2 _ => distinct_entries i j || distinct_fields k1 k2
  | _, _ => negb (bool_decide (root a = root b))
  end.

(** Outcomes whose writes are independent; an outcome that cannot be
    decoded makes every order fail alike. *)
Definition independent_outcomes (w1 w2 : value) : bool :=
  match decode w1, decode w2 with
  | Ok (_, a), Ok (_, b) => independent a b
  | _, _ => true
  end.

(** Two nested writes of the same section. *)
Definition same_section (a b : action) : bool :=
  match a, b with
  | SetPersonal _ _, SetPersonal _ _
  | SetProject _ _ _, SetProject _ _ _
  | SetWork _ _ _, SetWork _ _ _ => true
  | _, _ => false
  end.

(** The status update that ends consolidation, as a write. *)
Definition set_status : action := SetField (KStr "application_status") in_progress.

Definition not_found : bool * value := (false, VStr "Application not found").

(** The write of an outcome, [NoWrite] when it cannot be decoded. *)
Definition action_of (w : value) : action :=
  match decode w with
  | Ok (_, a) => a
  | Raise _ => NoWrite
  end.

Fixpoint pairwise_independent (outcomes : list value) : bool :=
  match outcomes with
  | [] => true
  | w :: rest => forallb (independent_outcomes w) rest && pairwise_independent rest
  end.

End Consolidator.

(** ** Families of writes in which the last writer wins *)

Module LastWriter.

Section Family.

Context {X I : Type} (f : I -> X -> res X).

(** A write whose result does not depend on what was there. *)
Definition constant (i : I) : Prop :=
  forall x y x' y', f i x = Ok y -> f i x' = Ok y' -> y = y'.

Definition idempotent (i : I) : Prop :=
  forall x x1, f i x = Ok x1 -> f i x1 = Ok x1.

(** A later write [j] either hides the earlier write [i] or commutes
    with it, and succeeds without it. *)
Definition overtaken (i j : I) : Prop :=
  forall x x1 x2, f i x = Ok x1 -> f j x1 = Ok x2 ->
    exists x3, f j x = Ok x3 /\ (x2 = x3 \/ f i x3 = Ok x2).

Definition last_writer_wins : Prop :=
  forall i, constant i \/ (idempotent i /\ forall j, overtaken i j).

Definition replay (u : list I) (x : X) : res X := foldM (fun x i => f i x) x u.

End Family.

End LastWriter.

(** ** Lifecycle status transitions of the pipeline stages *)

Module Lifecycle.

(** [s.endswith(suffix)] *)
Definition ends_with (suffix s : string) : bool :=
  (String.length suffix <=? String.length s)%nat &&
  String.eqb (drop_chars (String.length s - String.length suffix) s) suffix.

Definition is_metadata_key (s : string) : bool :=
  String.eqb s "submission_date" || String.eqb s "last_updated" ||
  String.eqb s "document_count".

(** [{k: v for k, v in d.items() if keep(k)}], where [keep] uses a
    string method of the key. *)
Definition select_fields (keep : string -> bool) (d : dict) : res dict :=
  if forallb (fun kv => match kv.1 with KStr _ => true | _ => false end) (map_to_list d)
  then Ok (filter (fun kv : key * value =>
                     Is_true (match kv.1 with KStr k => keep k | _ => false end)) d)
  else Raise AttributeError.

Definition status_key : key := KStr "application_status".

Section WithServices.

(** [start_state_machine(arn, input)], given the application id that the
    input carries: success flag and execution ARN or error text. *)
Variable start_state_machine : value -> bool * string.

(** [invoke_agentcore_runtime(prompt)], given the record the prompt is
    built from: success flag and response. *)
Variable invoke_agentcore_runtime : dict -> bool * value.

(** [ProfessionalAdmissionsReportGenerator(...).generate_html_report],
    given the evaluation, the cohort and the report key. *)
Variable generate_html_report : dict -> list dict -> string -> value.

(** Configured location of the reports. *)
Variables s3_bucket s3_prefix : string.

Definition process_application_flow (data : dict) (d : db) : db * (bool * value) :=
  let application_id := default VNone (data !! KStr "application_id") in
  if negb (truthy application_id) then
    (d, (false, VStr "Missing application_id parameter"))
  else
    match dynamodb_get_item application_id (applications d) with
    | Raise e => (d, (false, VStr ("Failed to process application: " +:+ exn_text e)))
    | Ok student =>
        if missing student then (d, (false, VStr "Application not found"))
        else
          let student := default ∅ student in
          let '(status, output) := start_state_machine application_id in
          if negb status then
            let student := <[status_key := VStr "On-hold"]> student in
            match dynamodb_put_item student (applications d) with
            | Ok t => (Db t (evaluations d),
                       (false, VStr ("Failed to start processing: " +:+ output)))
            | Raise e =>
                (d, (false, VStr ("Failed to process application: " +:+ exn_text e)))
            end
          else
            let student := <[status_key := VStr "Application processing"]> student in
            match dynamodb_put_item student (applications d) with
            | Ok t => (Db t (evaluations d),
                       (true, VStr "Application processing initiated successfully"))
            | Raise e =>
                (d, (false, VStr ("Failed to process application: " +:+ exn_text e)))
            end
    end.

Definition evaluate_application_flow (data : dict) (d : db) : db * (bool * value) :=
  let application_id := default VNone (data !! KStr "application_id") in
  if negb (truthy application_id) then
    (d, (false, VStr "Missing application_id parameter"))
  else
    match dynamodb_get_item application_id (applications d) with
    | Raise e => (d, (false, VStr ("Failed to evaluate application: " +:+ exn_text e)))
    | Ok student =>
        if missing student then (d, (false, VStr "Application not found"))
        else
          let student := default ∅ student in
          let eval_data := delete status_key student in
          let '(status, response) := invoke_agentcore_runtime eval_data in
          if negb status then (d, (false, VStr "Evaluation service failed"))
          else
            match response with
            | VDict response =>
                if negb (truthy (VDict response)) then
                  (d, (false, VStr "Invalid evaluation response from AI service"))
                else
                  let response := <[KStr "application_id" := application_id]> response in
                  let student := <[status_key := VStr "Generating report"]> student in
                  match dynamodb_put_item student (applications d) with
                  | Raise e =>
                      (d, (false, VStr ("Failed to evaluate application: " +:+ exn_text e)))
                  | Ok t =>
                      match dynamodb_put_item response (evaluations d) with
                      | Raise e =>
                          (Db t (evaluations d),
                           (false, VStr ("Failed to evaluate application: " +:+ exn_text e)))
                      | Ok t' =>
                          (Db t t', (true, obj [("application_id", application_id)]))
                      end
                  end
            | _ => (d, (false, VStr "Invalid evaluation response from AI service"))
            end
    end.

(** The evaluation with the application's context merged in. *)
Definition with_context (student : dict) (app_data : option dict) : res dict :=
  if missing app_data then Ok student
  else
    let app_data := default ∅ app_data in
    documents ← select_fields (ends_with "_content") app_data;
    metadata ← select_fields is_metadata_key app_data;
    Ok (<[KStr "application_context" :=
            VDict (<[KStr "documents" := VDict documents]>
                     (<[KStr "metadata" := VDict metadata]> ∅))]> student).

Definition report_failure (e : exn) : bool * value :=
  (false, VStr ("Failed to generate report: " +:+ exn_text e)).

Definition generate_report_flow (data : dict) (d : db) : db * (bool * value) :=
  let application_id := default VNone (data !! KStr "application_id") in
  if negb (truthy application_id) then
    (d, (false, VStr "Missing application_id parameter"))
  else
    match dynamodb_get_item application_id (evaluations d) with
    | Raise e => (d, report_failure e)
    | Ok student =>
        if missing student then (d, (false, VStr "No evaluation data found"))
        else
          let student := default ∅ student in
          match app_data ← dynamodb_get_item application_id (applications d);
                with_context student app_data with
          | Raise e => (d, report_failure e)
          | Ok student =>
              let all_students := List.map snd (map_to_list (evaluations d)) in
              let id_text := match application_id with VStr s => s | _ => "" end in
              let s3_key := s3_prefix +:+ "/" +:+ id_text +:+ "/report.html" in
              let result := generate_html_report student all_students s3_key in
              match upload ← get result "upload" (VDict ∅);
                    get upload "success" (VBool false) with
              | Raise e => (d, report_failure e)
              | Ok success =>
                  if negb (truthy success) then
                    (d, (false, VStr "Failed to upload report"))
                  else
                    let report_url := "s3://" +:+ s3_bucket +:+ "/" +:+ s3_key in
                    let student := <[KStr "report" := VStr report_url]> student in
                    match dynamodb_put_item student (evaluations d) with
                    | Raise e => (d, report_failure e)
                    | Ok te =>
                        match dynamodb_get_item application_id (applications d) with
                        | Raise e => (Db (applications d) te, report_failure e)
                        | Ok app_student =>
                            let ok :=
                              (true, obj [("application_id", application_id);
                                          ("report", VStr report_url);
                                          ("upload_details",
                                           default (VDict ∅)
                                             (succeeded (get result "upload" (VDict ∅))))]) in
                            if missing app_student then (Db (applications d) te, ok)
                            else
                              let app_student :=
                                <[status_key := VStr "Processing complete"]>
                                  (default ∅ app_student) in
                              match dynamodb_put_item app_student (applications d) with
                              | Raise e => (Db (applications d) te, report_failure e)
                              | Ok ta => (Db ta te, ok)
                              end
                        end
                    end
              end
          end
    end.

End WithServices.

(** [result.get('upload', {}).get('success', False)], as a truth value. *)
Definition upload_succeeded (result : value) : bool :=
  match upload ← get result "upload" (VDict ∅); get upload "success" (VBool false) with
  | Ok success => truthy success
  | Raise _ => false
  end.


End Lifecycle.

(** ** Sample data *)

Module Samples.

Import Resolver Consolidator.

(** What the orchestrator hands to consolidation for one extraction. *)
Definition outcome (result : value) : value :=
  obj [("StatusCode", VNum 200);
       ("Payload", obj [("status_code", VNum 200); ("result", result)])].

Definition main_success (doc_key content_key content : string) : value :=
  outcome (obj [("application_id", VStr "A1");
                ("document", main_task (VStr "A1") doc_key content_key
                               (VStr "s3://bucket/doc.pdf"));
                ("status", VStr "success"); ("content", VStr content)]).

Definition nested_success (parent_path content_key content : string) : value :=
  outcome (obj [("application_id", VStr "A1");
                ("document", nested_task (VStr "A1") "nested" content_key
                               (VStr "s3://bucket/doc.pdf") parent_path);
                ("status", VStr "success"); ("content", VStr content)]).


(** An application with two work-experience entries. *)
Definition application : dict :=
  <[KStr "application_id" := VStr "A1"]>
    (<[KStr "application_status" := VStr "Application processing"]>
       (<[KStr "documents" := obj [("transcript", VStr "s3://bucket/t.pdf");
                                   ("sop", VStr "")]]>
          (<[KStr "work_experience" :=
               VList [obj [("certificate_document", VStr "s3://bucket/c0.pdf")];
                      obj [("employer", VStr "ACME")]]]> ∅))).

Definition applications_table : table := <["A1" := application]> ∅.

Definition request : dict := <[KStr "application_id" := VStr "A1"]> ∅.

(** The same application once consolidation has run. *)
Definition consolidated : dict :=
  <[KStr "application_status" := VStr "Evaluation in-progress"]> application.


Definition database_in_evaluation : db := Db (<["A1" := consolidated]> ∅) ∅.


Definition start_accepted (application_id : value) : bool * string :=
  (true, "arn:aws:states:execution:1").


Definition agent_scores (eval_data : dict) : bool * value :=
  (true, obj [("level4_Result", obj [("final_decision", VStr "ADMIT")])]).


Definition upload_refused (student : dict) (all_students : list dict)
    (s3_key : string) : value :=
  obj [("upload", obj [("success", VBool false); ("message", VStr "AccessDenied")])].

(** A text-extraction service that is down. *)
Definition unavailable (bucket key : string) : string * string :=
  ("FAILED", "service unavailable").

End Samples.

(** ** Reading, submitting and listing records *)

Module Records.

(** [dynamodb_get_all_items(table)]: the items of a scan, in the order
    the store hands them out. As outages are not modelled the status is
    always [True]. *)
Definition dynamodb_get_all_items (t : table) : bool * list dict :=
  (true, List.map snd (map_to_list t)).

Definition items_value (items : list dict) : value := VList (VDict <$> items).

(** [get_application_flow(data)] against the application table. *)
Definition get_application_flow (data : dict) (t : table) : bool * value :=
  let application_id := default VNone (data !! KStr "application_id") in
  if negb (truthy application_id) then (false, VStr "Missing application_id parameter")
  else
    match dynamodb_get_item application_id t with
    | Raise e => (false, VStr ("Failed to retrieve application: " +:+ exn_text e))
    | Ok student =>
        if missing student then (false, VStr "No application found for application")
        else (true, VDict (default ∅ student))
    end.

(** [get_evaluation_flow(data)] against the evaluations table. *)
Definition get_evaluation_flow (data : dict) (t : table) : bool * value :=
  let application_id := default VNone (data !! KStr "application_id") in
  if negb (truthy application_id) then (false, VStr "Missing application_id parameter")
  else
    match dynamodb_get_item application_id t with
    | Raise e => (false, VStr ("Failed to retrieve evaluation: " +:+ exn_text e))
    | Ok student =>
        if missing student then (false, VStr "No evaluation found for application")
        else (true, VDict (default ∅ student))
    end.

(** The item that [submit_application_flow] stores: a copy of the form
    that keeps the form's own [application_id] when it has one, with the
    status set to ["New"]. *)
Definition application_data (application_id : value) (application_form : dict) : dict :=
  let application_data :=
    if bool_decide (is_Some (application_form !! KStr "application_id"))
    then application_form
    else <[KStr "application_id" := application_id]> application_form in
  <[KStr "application_status" := VStr "New"]> application_data.

(** [submit_application_flow(data)] against the application table. *)
Definition submit_application_flow (data : dict) (t : table) : table * (bool * value) :=
  let application_id := default VNone (data !! KStr "application_id") in
  let application_form := default VNone (data !! KStr "application_form") in
  if negb (truthy application_id) then
    (t, (false, VStr "Missing application_id parameter"))
  else if negb (truthy application_form) then
    (t, (false, VStr "Missing application_form parameter"))
  else
    match application_form with
    | VDict application_form =>
        match dynamodb_put_item (application_data application_id application_form) t with
        | Ok t' => (t', (true, VStr "Application submitted successfully"))
        | Raise e => (t, (false, VStr ("Failed to submit application: " +:+ exn_text e)))
        end
    | _ => (t, (false, VStr "application_form must be a valid JSON object"))
    end.

(** [update_wishlist_flow(data)] against the wishlist table. *)
Definition update_wishlist_flow (data : dict) (t : table) : table * (bool * value) :=
  let wishlist_data := default VNone (data !! KStr "wishlist_data") in
  if negb (truthy wishlist_data) then
    (t, (false, VStr "Missing wishlist_data parameter"))
  else
    match wishlist_data with
    | VDict wishlist_data =>
        match dynamodb_put_item wishlist_data t with
        | Ok t' => (t', (true, VStr "Wishlist updated successfully"))
        | Raise e => (t, (false, VStr ("Failed to update wishlist: " +:+ exn_text e)))
        end
    | _ => (t, (false, VStr "wishlist_data must be a valid JSON object"))
    end.

(** [list_wishlist_flow], [list_evaluations_flow] and
    [list_applicants_flow] differ by the table they scan and by the
    message of a failed scan. *)
Definition list_flow (failure : string) (t : table) : bool * value :=
  let '(status, all_items) := dynamodb_get_all_items t in
  if negb status then (false, VStr failure)
  else (true, items_value all_items).

Definition list_wishlist_flow : table -> bool * value :=
  list_flow "Failed to retrieve wishlist items".

Definition list_evaluations_flow : table -> bool * value :=
  list_flow "Failed to retrieve evaluation records".

Definition list_applicants_flow : table -> bool * value :=
  list_flow "Failed to retrieve application records".

(** *** The combined listing [list_applicants_v2_flow] *)

Definition default_app_fields : dict :=
  list_to_map [(KStr "application_id", VStr "application_id");
               (KStr "documents", VStr "documents");
               (KStr "full_name", VStr "personal_information.full_name");
               (KStr "specialization", VStr "program_specific.specialization");
               (KStr "application_status", VStr "application_status");
               (KStr "submitted_date", VStr "submitted_date")].

Definition default_eval_fields : dict :=
  list_to_map [(KStr "composite_score", VStr "level4_Result.composite_score");
               (KStr "confidence_level", VStr "level4_Result.confidence_level");
               (KStr "final_decision", VStr "level4_Result.final_decision");
               (KStr "report", VStr "report")].

(** The loop of [get_nested_value] over the keys of the path. *)
Fixpoint descend (keys : list string) (current : value) : value :=
  match keys with
  | [] => current
  | key :: keys =>
      match current with
      | VDict d =>
          match d !! KStr key with
          | Some v => descend keys v
          | None => VNone
          end
      | _ => VNone
      end
  end.

(** [get_nested_value(obj, path)]: a path that is not a string has no
    [split], and the helper's handler answers [None]. *)
Definition get_nested_value (obj path : value) : value :=
  match path with
  | VStr path => descend (split "." path) obj
  | _ => VNone
  end.

(** [for field_name, field_path in fields.items():
       combined_record[field_name] = get_nested_value(record, field_path)] *)
Definition extract_by_paths (fields record combined_record : dict) : dict :=
  map_fold (fun field_name field_path combined_record =>
              <[field_name := get_nested_value (VDict record) field_path]> combined_record)
           combined_record fields.

(** One iteration of the loop over a list of field names. *)
Definition extract_by_name (defaults record combined_record : dict) (field : value)
  : res dict :=
  match hashable field with
  | None => Raise TypeError
  | Some k =>
      match defaults !! k with
      | Some path => Ok (<[k := get_nested_value (VDict record) path]> combined_record)
      | None => Ok (<[k := default VNone (record !! k)]> combined_record)
      end
  end.

Definition extract_fields (defaults : dict) (fields : value) (record combined_record : dict)
  : res dict :=
  match fields with
  | VDict fields => Ok (extract_by_paths fields record combined_record)
  | _ =>
      names ← iter fields;
      foldM (extract_by_name defaults record) combined_record names
  end.

(** [{r.get("application_id"): r for r in evaluations}] *)
Definition eval_lookup (evaluations : list dict) : res (gmap key dict) :=
  foldM (fun lookup eval_record =>
           match hashable (default VNone (eval_record !! KStr "application_id")) with
           | Some k => Ok (<[k := eval_record]> lookup)
           | None => Raise TypeError
           end) ∅ evaluations.

(** The body of the loop over the applications. *)
Definition combined_record (app_fields eval_fields : value) (lookup : gmap key dict)
    (app : dict) : res dict :=
  let app_id := default VNone (app !! KStr "application_id") in
  combined_record ← extract_fields default_app_fields app_fields app ∅;
  match hashable app_id with
  | None => Raise TypeError
  | Some k =>
      let eval_record := default ∅ (lookup !! k) in
      extract_fields default_eval_fields eval_fields eval_record combined_record
  end.

(** [[f(x) for x in l]] where [f] may raise. *)
Fixpoint for_each {A B} (f : A -> res B) (l : list A) : res (list B) :=
  match l with
  | [] => Ok []
  | x :: l' => y ← f x; ys ← for_each f l'; Ok (y :: ys)
  end.

Definition list_applicants_v2_body (data : value) (applications evaluations : table)
  : res (bool * value) :=
  let input_data := if truthy data then data else VDict ∅ in
  app_fields ← get input_data "application_fields" (VDict default_app_fields);
  eval_fields ← get input_data "evaluation_fields" (VDict default_eval_fields);
  let '(status, applications) := dynamodb_get_all_items applications in
  if negb status then Ok (false, VStr "Failed to retrieve application records")
  else
    let '(status, evaluations) := dynamodb_get_all_items evaluations in
    if negb status then Ok (false, VStr "Failed to retrieve evaluation records")
    else
      lookup ← eval_lookup evaluations;
      combined_records ← for_each (combined_record app_fields eval_fields lookup) applications;
      Ok (true, items_value combined_records).

Definition list_applicants_v2_flow (data : value) (applications evaluations : table)
  : bool * value :=
  match list_applicants_v2_body data applications evaluations with
  | Ok r => r
  | Raise e => (false, VStr ("Failed to list combined applicants: " +:+ exn_text e))
  end.

(** What the listing is expected to give for one application with the
    default fields: the six application fields read from the
    application, the four evaluation fields read from [eval_record]. *)
Definition default_row (app eval_record : dict) : dict :=
  (get_nested_value (VDict eval_record) <$> default_eval_fields) ∪
  (get_nested_value (VDict app) <$> default_app_fields).

(** Every item of the table is stored under its own [application_id]. *)
Definition keyed (t : table) : Prop :=
  forall id item, t !! id = Some item -> item !! KStr "application_id" = Some (VStr id).

End Records.

(** ** Sequential extraction ([document_extraction_flow]) *)

Module SequentialExtraction.

Import ExtractionUnit.

(** A run of steps that stops at the first exception: the state reached
    so far stays, as the steps update the record in place. *)
Inductive progress (S : Type) : Type :=
| Continue (s : S)
| Stopped (s : S).
Global Arguments Continue {S} s.
Global Arguments Stopped {S} s.

Definition state_of {S} (p : progress S) : S :=
  match p with
  | Continue s | Stopped s => s
  end.

Definition attempt {S} (f : S -> res S) (s : S) : progress S :=
  match f s with
  | Ok s' => Continue s'
  | Raise _ => Stopped s
  end.

Definition and_then {S} (p : progress S) (f : S -> progress S) : progress S :=
  match p with
  | Continue s => f s
  | Stopped s => Stopped s
  end.

Definition on_state {S T} (g : S -> T) (p : progress S) : progress T :=
  match p with
  | Continue s => Continue (g s)
  | Stopped s => Stopped (g s)
  end.

(** [for idx, x in enumerate(l)] where the body updates [x] in place. *)
Fixpoint for_entries {A R} (body : nat -> A * R -> progress (A * R)) (idx : nat)
    (l : list A) (r : R) : progress (list A * R) :=
  match l with
  | [] => Continue ([], r)
  | x :: rest =>
      match body idx (x, r) with
      | Continue (x', r') =>
          on_state (fun st : list A * R => (x' :: st.1, st.2))
                   (for_entries body (S idx) rest r')
      | Stopped (x', r') => Stopped (x' :: rest, r')
      end
  end.

Definition names (l : list string) : value := VList (VStr <$> l).

Definition extraction_report (application_id : value) (r : extraction_results) : value :=
  obj [("application_id", application_id);
       ("result", obj [("successful", names (successful r));
                       ("failed", names (failed r));
                       ("skipped", names (skipped r))]);
       ("summary", obj [("successful", VNum (Z.of_nat (length (successful r))));
                        ("failed", VNum (Z.of_nat (length (failed r))));
                        ("skipped", VNum (Z.of_nat (length (skipped r))))])].

Section WithTextractor.

Variable textractor_document_analysis : string -> string -> string * string.

(** What [extract_document] answers for a locator: nothing for an empty
    locator, the empty text for a failed extraction, the extracted text
    otherwise. *)
Definition extracted (s3_uri : value) : option string :=
  if negb (truthy s3_uri) then None
  else
    match parse_s3_uri s3_uri with
    | (Some bucket_name, Some s3_key) =>
        if extraction_fails textractor_document_analysis s3_uri then Some ""
        else Some (textractor_document_analysis bucket_name s3_key).2
    | _ => Some ""
    end.

(** The tallies once [extract_document] has handled a locator. *)
Definition tally (s3_uri : value) (name : string) (r : extraction_results)
  : extraction_results :=
  if negb (truthy s3_uri) then Tallies (successful r) (failed r) (skipped r ++ [name])
  else if extraction_fails textractor_document_analysis s3_uri
       then Tallies (successful r) (failed r ++ [name]) (skipped r)
       else Tallies (successful r ++ [name]) (failed r) (skipped r).

(** A mapping once the content of the locator under [field] is stored in
    it, and the tallies once that locator is handled. *)
Definition filled (field content_key : string) (holder : dict) : dict :=
  match holder !! KStr field with
  | Some s3_uri =>
      match extracted s3_uri with
      | Some text => <[KStr content_key := VStr text]> holder
      | None => holder
      end
  | None => holder
  end.

Definition tallied (field name : string) (holder : dict) (r : extraction_results)
  : extraction_results :=
  match holder !! KStr field with
  | Some s3_uri => tally s3_uri name r
  | None => r
  end.

(** [if field in holder:
       content = extract_document(holder[field], name)
       if content is not None: holder[content_key] = content] *)
Definition extract_nested_document (field name content_key : string)
    (st : value * extraction_results) : res (value * extraction_results) :=
  let '(holder, r) := st in
  present ← str_in field holder;
  if present : bool then
    s3_uri ← getitem holder (VStr field);
    let '(r, content) := extract_document textractor_document_analysis s3_uri name r in
    match content with
    | Some text =>
        holder ← setitem holder (VStr content_key) (VStr text);
        Ok (holder, r)
    | None => Ok (holder, r)
    end
  else Ok (holder, r).

(** The personal-information part: the holder is the record's own
    section when there is one, a fresh empty mapping otherwise. *)
Definition extract_personal (st : dict * extraction_results)
  : res (dict * extraction_results) :=
  let personal_info := default (VDict ∅) (st.1 !! KStr "personal_information") in
  st' ← extract_nested_document "government_id_document"
          "personal_information.government_id" "government_id_content"
          (personal_info, st.2);
  Ok (if bool_decide (is_Some (st.1 !! KStr "personal_information"))
      then <[KStr "personal_information" := st'.1]> st.1 else st.1, st'.2).

Definition extract_project (idx : nat) (st : value * extraction_results)
  : progress (value * extraction_results) :=
  let i := str_of_nat idx in
  and_then
    (attempt (extract_nested_document "publication_document"
                ("research_experience.projects[" +:+ i +:+ "].publication")
                "publication_content") st)
    (attempt (extract_nested_document "report_document"
                ("research_experience.projects[" +:+ i +:+ "].report")
                "report_content")).

Definition extract_work (idx : nat) (st : value * extraction_results)
  : progress (value * extraction_results) :=
  let i := str_of_nat idx in
  and_then
    (attempt (extract_nested_document "certificate_document"
                ("work_experience[" +:+ i +:+ "].certificate")
                "certificate_content") st)
    (attempt (extract_nested_document "recommendation_document"
                ("work_experience[" +:+ i +:+ "].recommendation")
                "recommendation_content")).

(** A loop over the entries of a section. Only the entries of a list can
    be mappings, so only a list is ever updated. *)
Definition extract_section
    (body : nat -> value * extraction_results -> progress (value * extraction_results))
    (entries : value) (r : extraction_results) : progress (value * extraction_results) :=
  match iter entries with
  | Raise _ => Stopped (entries, r)
  | Ok elements =>
      on_state (fun st : list value * extraction_results =>
                  (match entries with VList _ => VList st.1 | _ => entries end, st.2))
               (for_entries body 0 elements r)
  end.

(** The research part: [projects] is the list the record holds under
    [research_experience.projects] when there is one, a fresh empty list
    otherwise. *)
Definition extract_research (st : dict * extraction_results)
  : progress (dict * extraction_results) :=
  let research_exp := default (VDict ∅) (st.1 !! KStr "research_experience") in
  match get research_exp "projects" (VList []) with
  | Raise _ => Stopped st
  | Ok projects =>
      on_state (fun st' : value * extraction_results =>
                  (match st.1 !! KStr "research_experience" with
                   | Some (VDict d) =>
                       if bool_decide (is_Some (d !! KStr "projects")) then
                         <[KStr "research_experience" :=
                             VDict (<[KStr "projects" := st'.1]> d)]> st.1
                       else st.1
                   | _ => st.1
                   end, st'.2))
               (extract_section extract_project projects st.2)
  end.

Definition extract_work_experience (st : dict * extraction_results)
  : progress (dict * extraction_results) :=
  let work_experiences := default (VList []) (st.1 !! KStr "work_experience") in
  on_state (fun st' : value * extraction_results =>
              (if bool_decide (is_Some (st.1 !! KStr "work_experience"))
               then <[KStr "work_experience" := st'.1]> st.1 else st.1, st'.2))
           (extract_section extract_work work_experiences st.2).

(** [_extract_nested_documents(student, extract_document)]: the handler
    swallows the exception that stopped the run. *)
Definition _extract_nested_documents (st : dict * extraction_results)
  : dict * extraction_results :=
  state_of (and_then (and_then (attempt extract_personal st) extract_research)
                     extract_work_experience).

(** The record and the tallies once both extractions have run. *)
Definition extract_all (student : dict) : dict * extraction_results :=
  let st := (student, Tallies [] [] []) in
  let st :=
    if bool_decide (is_Some (student !! KStr "documents"))
    then _extract_main_documents textractor_document_analysis st else st in
  _extract_nested_documents st.

(** [document_extraction_flow(data)] against the application table. *)
Definition document_extraction_flow (data : dict) (t : table) : table * (bool * value) :=
  let application_id := default VNone (data !! KStr "application_id") in
  if negb (truthy application_id) then
    (t, (false, VStr "Missing application_id parameter"))
  else
    match dynamodb_get_item application_id t with
    | Raise e => (t, (false, VStr ("Failed to extract documents: " +:+ exn_text e)))
    | Ok student =>
        if missing student then (t, (false, VStr "Application not found"))
        else
          let st := extract_all (default ∅ student) in
          let student := <[KStr "application_status" := Consolidator.in_progress]> st.1 in
          match dynamodb_put_item student t with
          | Raise e =>
              (t, (false, VStr ("Failed to save extracted content: " +:+ exn_text e)))
          | Ok t' => (t', (true, extraction_report application_id st.2))
          end
    end.

(** *** What sequential extraction is expected to store

    On a record of the expected shape every locator field that is present
    gets its content field, in the mapping that holds the locator, unless
    the locator is empty. *)

Definition main_filled (docs student : dict) (entry : string * string) : dict :=
  match docs !! KStr entry.1 with
  | Some s3_uri =>
      match extracted s3_uri with
      | Some text => <[KStr entry.2 := VStr text]> student
      | None => student
      end
  | None => student
  end.

Definition project_filled (project : value) : value :=
  match project with
  | VDict p =>
      VDict (filled "report_document" "report_content"
               (filled "publication_document" "publication_content" p))
  | _ => project
  end.

Definition work_filled (work : value) : value :=
  match work with
  | VDict w =>
      VDict (filled "recommendation_document" "recommendation_content"
               (filled "certificate_document" "certificate_content" w))
  | _ => work
  end.

Definition documents_filled (student : dict) : dict :=
  match student !! KStr "documents" with
  | Some (VDict docs) => fold_left (main_filled docs) document_mapping student
  | _ => student
  end.

Definition personal_filled (student : dict) : dict :=
  match student !! KStr "personal_information" with
  | Some (VDict personal_info) =>
      <[KStr "personal_information" :=
          VDict (filled "government_id_document" "government_id_content" personal_info)]>
        student
  | _ => student
  end.

Definition research_filled (student : dict) : dict :=
  match student !! KStr "research_experience" with
  | Some (VDict research_exp) =>
      match research_exp !! KStr "projects" with
      | Some (VList projects) =>
          <[KStr "research_experience" :=
              VDict (<[KStr "projects" := VList (project_filled <$> projects)]>
                       research_exp)]> student
      | _ => student
      end
  | _ => student
  end.

Definition work_experience_filled (student : dict) : dict :=
  match student !! KStr "work_experience" with
  | Some (VList work_experiences) =>
      <[KStr "work_experience" := VList (work_filled <$> work_experiences)]> student
  | _ => student
  end.

Definition extraction_expected (student : dict) : dict :=
  work_experience_filled (research_filled (personal_filled (documents_filled student))).

(** The list of projects, resp. of work experiences, that a record
    holds, and the record with another list in its place. *)
Definition holds_projects (student : dict) (l : list value) : Prop :=
  exists research_exp : dict,
    student !! KStr "research_experience" = Some (VDict research_exp) /\
    research_exp !! KStr "projects" = Some (VList l).

Definition with_projects (l : list value) (student : dict) : dict :=
  match student !! KStr "research_experience" with
  | Some (VDict research_exp) =>
      <[KStr "research_experience" := VDict (<[KStr "projects" := VList l]> research_exp)]>
        student
  | _ => student
  end.

Definition holds_work (student : dict) (l : list value) : Prop :=
  student !! KStr "work_experience" = Some (VList l).

Definition with_work (l : list value) (student : dict) : dict :=
  <[KStr "work_experience" := VList l]> student.

(** Number of locators handled, with or without success. *)
Definition attempted (r : extraction_results) : nat :=
  length (successful r) + length (failed r).

(** What the orchestrator asks of [extract_single_document_flow] for
    one task of the resolver. *)
Definition extraction_request (application_id task : value) : dict :=
  <[KStr "application_id" := application_id]> (<[KStr "document" := task]> ∅).

(** The locator of a task. *)
Definition locator (task : value) : value :=
  match task with
  | VDict d => default VNone (d !! KStr "s3_uri")
  | _ => VNone
  end.

End WithTextractor.

(** Number of locator fields that are present but empty: the sequential
    flow skips them, the resolver does not list them. *)
Definition empty_at (holder : value) (field : string) : nat :=
  match Resolver.field_of holder field with
  | Some locator => if truthy locator then 0 else 1
  | None => 0
  end.

Definition empty_count (student : dict) : nat :=
  Resolver.sum_list (List.map (fun entry : string * string =>
                        empty_at (Resolver.section_of student "documents") entry.1)
                     document_mapping) +
  empty_at (Resolver.section_of student "personal_information") "government_id_document" +
  Resolver.sum_list (List.map (fun entry : nat * value =>
                        empty_at entry.2 "publication_document" +
                        empty_at entry.2 "report_document")
                     (Resolver.projects_of student)) +
  Resolver.sum_list (List.map (fun entry : nat * value =>
                        empty_at entry.2 "certificate_document" +
                        empty_at entry.2 "recommendation_document")
                     (Resolver.work_of student)).

End SequentialExtraction.
(** ** What a stage leaves alone *)

Module Stages.

Import Records.

(** Both tables hold every item under the item's own [application_id],
    as the store's key schema has it. *)
Definition keyed_db (d : db) : Prop :=
  keyed (applications d) /\ keyed (evaluations d).

(** What both tables hold under [id] is the same in [d'] as in [d]. *)
Definition same_record (id : string) (d d' : db) : Prop :=
  applications d' !! id = applications d !! id /\
  evaluations d' !! id = evaluations d !! id.

(** What the table holds under [other] is the same in [t'] as in [t],
    and [t'] is keyed by id if [t] is. *)
Definition table_kept (other : string) (t t' : table) : Prop :=
  t' !! other = t !! other /\ (keyed t -> keyed t').


(** Whether an outcome asks for a write of the top-level field [k]. *)
Definition writes_field (k : string) (w : value) : Prop :=
  Consolidator.root (Consolidator.action_of w) = Some (KStr k).

End Stages.

(** ** More sample data *)

Module MoreSamples.

(** A text-extraction service that answers. *)
Definition extracting (bucket key : string) : string * string :=
  ("SUCCEEDED", "text of " +:+ key).

(** What the orchestrator hands to consolidation when every task of
    the sample application has been answered by that service. *)
Definition answered : list value :=
  List.map (fun task =>
              Samples.outcome
                (ExtractionUnit.extract_single_document_flow extracting
                   (SequentialExtraction.extraction_request (VStr "A1") task)).2)
           (Resolver.expected_documents (VStr "A1") Samples.application).

(** A second application, and a store that holds both. *)
Definition second_application : dict :=
  <[KStr "application_id" := VStr "B2"]>
    (<[KStr "application_status" := VStr "New"]> ∅).

Definition two_applications : db :=
  Db (<["B2" := second_application]> Samples.applications_table) ∅.

End MoreSamples.

(** * Properties *)

(** ** Containers *)

Module PyFacts.

Lemma norm_index_lt i n j : norm_index i n = Some j -> (j < n)%nat.
Proof.
  unfold norm_index. repeat case_match; intros [= <-]; lia.
Qed.

Lemma norm_index_nonneg i n j : (0 <= i)%Z -> norm_index i n = Some j -> j = Z.to_nat i.
Proof.
  unfold norm_index. intros H. repeat case_match; intros [= <-]; lia.
Qed.

Lemma slot_of_write x s v i : slot_of (write x s v) i = slot_of x i.
Proof.
  destruct x, s; simpl; try done. by rewrite length_insert.
Qed.

Lemma read_write_eq x s v e : read x s = Some e -> read (write x s v) s = Some v.
Proof.
  destruct x, s; simpl; try done.
  - intros H. apply list_lookup_insert_eq. by eapply lookup_lt_Some.
  - intros _. apply lookup_insert_eq.
Qed.

Lemma read_write_ne x s s' v : s <> s' -> read (write x s v) s' = read x s'.
Proof.
  destruct x, s, s'; simpl; try done.
  - intros H. apply list_lookup_insert_ne. congruence.
  - intros H. apply lookup_insert_ne. congruence.
Qed.

Lemma write_write_eq x s v v' : write (write x s v) s v' = write x s v'.
Proof.
  destruct x, s; simpl; try done.
  - by rewrite list_insert_insert_eq.
  - by rewrite insert_insert_eq.
Qed.

Lemma write_write_ne x s s' v v' :
  s <> s' -> write (write x s v) s' v' = write (write x s' v') s v.
Proof.
  destruct x, s, s'; simpl; try done.
  - intros H. f_equal. apply list_insert_insert_ne. congruence.
  - intros H. f_equal. apply insert_insert_ne. congruence.
Qed.

Lemma write_read x s e : read x s = Some e -> write x s e = x.
Proof.
  destruct x, s; simpl; try done.
  - intros H. f_equal. by apply list_insert_id.
  - intros H. f_equal. by apply insert_id.
Qed.

Lemma len_write x s v e : read x s = Some e -> len (write x s v) = len x.
Proof.
  destruct x, s; simpl; try done.
  - intros _. by rewrite length_insert.
  - intros H. f_equal. apply map_size_insert_Some. by rewrite H.
Qed.

Lemma setitem_Ok x i v x' :
  setitem x i v = Ok x' <-> exists s, slot_of x i = Some s /\ x' = write x s v.
Proof.
  destruct x; simpl; try (split; [done|by intros (? & ? & ?)]).
  - destruct (as_index i) as [z|]; simpl; [|split; [done|by intros (? & ? & ?)]].
    destruct (norm_index z (length l)) as [j|]; simpl;
      [|split; [done|by intros (? & ? & ?)]].
    split; [intros [= <-]; eauto|]. by intros (? & [= <-] & ->).
  - destruct (hashable i) as [k|]; simpl; [|split; [done|by intros (? & ? & ?)]].
    split; [intros [= <-]; eauto|]. by intros (? & [= <-] & ->).
Qed.

Lemma getitem_slot x i s : slot_of x i = Some s ->
  forall e, getitem x i = Ok e <-> read x s = Some e.
Proof.
  destruct x; simpl; try done.
  - destruct (as_index i) as [z|]; simpl; [|done].
    destruct (norm_index z (length l)) as [j|]; simpl; [|done].
    intros [= <-] e. simpl. destruct (l !! j); naive_solver.
  - destruct (hashable i) as [k|]; simpl; [|done].
    intros [= <-] e. simpl. destruct (d !! k); naive_solver.
Qed.

Lemma setitem2_Ok x i k v x' :
  setitem2 x i k v = Ok x' <->
  exists s e e', slot_of x i = Some s /\ read x s = Some e /\
                 setitem e k v = Ok e' /\ x' = write x s e'.
Proof.
  unfold setitem2. split.
  - destruct (getitem x i) as [e|] eqn:Eg; simpl; [|done].
    destruct (setitem e k v) as [e'|] eqn:Es; simpl; [|done].
    intros H. apply setitem_Ok in H as (s & Hs & ->).
    exists s, e, e'. split_and!; try done. by apply (getitem_slot _ _ _ Hs).
  - intros (s & e & e' & Hs & Hr & He & ->).
    apply (getitem_slot _ _ _ Hs) in Hr. rewrite Hr. simpl. rewrite He. simpl.
    apply setitem_Ok. eauto.
Qed.

End PyFacts.

(** ** Cohort statistics *)

Module StatsFacts.
Import Stats.
Open Scope Q_scope.

Lemma valid_values_length (all_values : sample) :
  (length (valid_values all_values) <= length all_values)%nat.
Proof.
  induction all_values as [|[x|] l IH]; simpl; lia.
Qed.

Lemma count_below_le score (a : list Q) : (count_below score a <= length a)%nat.
Proof. unfold count_below. apply List.filter_length_le. Qed.

Lemma of_nat_pos n : (0 < n)%nat -> 0 < of_nat n.
Proof.
  intros H. unfold of_nat. change 0 with (inject_Z 0). rewrite <- Zlt_Qlt. lia.
Qed.

Lemma of_nat_le m n : (m <= n)%nat -> of_nat m <= of_nat n.
Proof. intros H. unfold of_nat. rewrite <- Zle_Qle. lia. Qed.

Lemma Qlt_bool_false a b : Qlt_bool a b = false <-> b <= a.
Proof.
  unfold Qlt_bool. rewrite negb_false_iff. apply Qle_bool_iff.
Qed.

Lemma Qlt_bool_true a b : Qlt_bool a b = true <-> a < b.
Proof.
  unfold Qlt_bool. rewrite negb_true_iff. split.
  - intros H. apply Qnot_le_lt. intros Hle. apply Qle_bool_iff in Hle. congruence.
  - intros H. destruct (Qle_bool b a) eqn:E; [|done].
    apply Qle_bool_iff in E. exfalso. by apply (Qlt_not_le _ _ H).
Qed.

Lemma percentileofscore_strict_range (a : list Q) score :
  (0 < length a)%nat ->
  0 <= percentileofscore_strict a score <= 100.
Proof.
  intros Hn. unfold percentileofscore_strict.
  pose proof (of_nat_pos _ Hn) as Hpos.
  pose proof (of_nat_le _ _ (count_below_le score a)) as Hle.
  assert (H0 : 0 <= of_nat (count_below score a)).
  { unfold of_nat. change 0 with (inject_Z 0). rewrite <- Zle_Qle. lia. }
  set (c := of_nat (count_below score a)) in *.
  set (n := of_nat (length a)) in *.
  assert (Hq : 0 <= 100 / n).
  { apply Qle_shift_div_l; [done|]. lra. }
  split.
  - apply Qmult_le_0_compat; done.
  - assert (Heq : c * (100 / n) == (c * 100) / n) by (field; lra).
    rewrite Heq. apply Qle_shift_div_r; [done|]. lra.
Qed.

Lemma clamp_id p : 0 <= p <= 100 -> py_max 0 (py_min 100 p) == p.
Proof.
  intros [H0 H1]. unfold py_max, py_min.
  destruct (Qlt_bool p 100) eqn:E1.
  - destruct (Qlt_bool 0 p) eqn:E2; [reflexivity|].
    apply Qlt_bool_false in E2. lra.
  - apply Qlt_bool_false in E1.
    assert (E2 : Qlt_bool 0 100 = true) by reflexivity.
    rewrite E2. lra.
Qed.

Lemma count_below_app score (a b : list Q) :
  count_below score (a ++ b) = (count_below score a + count_below score b)%nat.
Proof. unfold count_below. by rewrite List.filter_app, List.length_app. Qed.

Lemma count_below_perm score (a b : list Q) :
  Permutation a b -> count_below score a = count_below score b.
Proof.
  unfold count_below.
  induction 1 as [|x a b _ IH|x y a|a b c _ IH1 _ IH2]; simpl.
  - done.
  - destruct (Qlt_bool x score); simpl; congruence.
  - destruct (Qlt_bool x score), (Qlt_bool y score); simpl; congruence.
  - congruence.
Qed.

Lemma count_below_all score (a : list Q) :
  Forall (fun v => v < score) a -> count_below score a = length a.
Proof.
  unfold count_below. induction 1 as [|x a Hx _ IH]; simpl; [done|].
  apply Qlt_bool_true in Hx. rewrite Hx. simpl. congruence.
Qed.

Lemma count_below_none score (a : list Q) :
  Forall (fun v => score <= v) a -> count_below score a = 0%nat.
Proof.
  unfold count_below. induction 1 as [|x a Hx _ IH]; simpl; [done|].
  apply Qlt_bool_false in Hx. by rewrite Hx.
Qed.

(** However the sample is split into the entries below the score and the
    others, the entries counted are those below the score. *)
Lemma count_below_split score (a below rest : list Q) :
  Permutation a (below ++ rest) ->
  Forall (fun v => v < score) below -> Forall (fun v => score <= v) rest ->
  count_below score a = length below.
Proof.
  intros Hp Hb Hr. rewrite (count_below_perm _ _ _ Hp), count_below_app.
  rewrite (count_below_all _ _ Hb), (count_below_none _ _ Hr). lia.
Qed.

(** C8: for every value and every sample with at least two valid
    (non-null) entries, [calculate_percentile] returns the strict
    percentile rank: a number [p] in [0, 100] that is the percentage of
    the valid entries strictly below the value, that is, [p] times the
    number of valid entries is 100 times the number of those below the
    value, however the valid entries are split into the entries below the
    value and the others. With fewer than two valid entries it returns
    [None]. *)
Theorem calculate_percentile_rank (value : Q) (all_values : sample) :
  ((length (valid_values all_values) < 2)%nat ->
     calculate_percentile (Some value) all_values = None) /\
  ((2 <= length (valid_values all_values))%nat ->
     exists p, calculate_percentile (Some value) all_values = Some p /\
               0 <= p <= 100 /\
               forall below rest : list Q,
                 Permutation (valid_values all_values) (below ++ rest) ->
                 Forall (fun v => v < value) below ->
                 Forall (fun v => value <= v) rest ->
                 p * inject_Z (Z.of_nat (length (valid_values all_values))) ==
                 100 * inject_Z (Z.of_nat (length below))).
Proof.
  pose proof (valid_values_length all_values) as Hlen.
  unfold calculate_percentile. split; intros H.
  - destruct (length all_values <? 2)%nat eqn:E1; [done|].
    destruct (length (valid_values all_values) <? 2)%nat eqn:E2; [done|].
    apply Nat.ltb_ge in E2. lia.
  - assert (E1 : (length all_values <? 2)%nat = false) by (apply Nat.ltb_ge; lia).
    assert (E2 : (length (valid_values all_values) <? 2)%nat = false)
      by (apply Nat.ltb_ge; lia).
    rewrite E1, E2. eexists. split; [reflexivity|].
    assert (Hr := percentileofscore_strict_range (valid_values all_values) value
                    ltac:(lia)).
    pose proof (clamp_id _ Hr) as Hc. split; [by rewrite Hc|].
    intros below rest Hp Hb Hrest. rewrite Hc. unfold percentileofscore_strict.
    rewrite (count_below_split _ _ _ _ Hp Hb Hrest).
    assert (0 < of_nat (length (valid_values all_values))) as Hn
      by (apply of_nat_pos; lia).
    unfold of_nat in *. field. lra.
Qed.

Lemma calculate_percentile_rank_witness :
  exists p, calculate_percentile (Some 7) [Some 5; None; Some 9; Some 7; Some 1] = Some p /\
            p == 50.
Proof.
  destruct (calculate_percentile_rank 7 [Some 5; None; Some 9; Some 7; Some 1])
    as [_ H].
  destruct H as (p & Hp & _ & Hrank); [simpl; lia|].
  exists p. split; [exact Hp|].
  specialize (Hrank [5; 1] [9; 7]). simpl in Hrank.
  assert (p * 4 == 100 * 2) as H; [|lra].
  apply Hrank.
  - apply perm_skip. symmetry. apply (Permutation_cons_app [9; 7] [] 1). reflexivity.
  - repeat constructor.
  - repeat constructor; unfold Qle; simpl; lia.
Defined.

Lemma sum_fold (l : list Q) : sum l = fold_right Qplus 0 l.
Proof. induction l as [|x l IH]; simpl; congruence. Qed.

Lemma sum_map_ext (f g : Q -> Q) (l : list Q) :
  (forall x, f x == g x) -> sum (List.map f l) == sum (List.map g l).
Proof.
  intros H. induction l as [|x l IH]; simpl; [reflexivity|]. by rewrite IH, H.
Qed.

Lemma sum_const (l : list Q) a :
  Forall (fun x => x == a) l -> sum l == of_nat (length l) * a.
Proof.
  induction 1 as [|x l Hx Hl IH]; simpl.
  - unfold of_nat. simpl. ring.
  - rewrite IH, Hx. unfold of_nat.
    rewrite Nat2Z.inj_succ. unfold Z.succ. rewrite inject_Z_plus. ring.
Qed.

Lemma sum_zero (l : list Q) : Forall (fun x => x == 0) l -> sum l == 0.
Proof. intros H. rewrite (sum_const l 0 H). lra. Qed.

Lemma variance_const (l : list Q) a :
  (0 < length l)%nat -> Forall (fun x => x == a) l -> variance l == 0.
Proof.
  intros Hn Hall. unfold variance.
  assert (Hmean : mean l == a).
  { unfold mean. rewrite (sum_const l a Hall).
    pose proof (of_nat_pos _ Hn). field. lra. }
  rewrite sum_zero; [reflexivity|].
  clear Hn. revert Hmean. generalize (mean l). intros c Hc.
  induction Hall as [|x l' Hx _ IH]; simpl; constructor; [|exact IH].
  rewrite Hx, Hc. ring.
Qed.

Lemma square_nonneg (y : Q) : 0 <= y * y.
Proof.
  destruct (Qlt_le_dec y 0) as [H|H].
  - assert (y * y == (- y) * (- y)) as -> by ring.
    apply Qmult_le_0_compat; lra.
  - apply Qmult_le_0_compat; lra.
Qed.

Lemma square_pos (y : Q) : ~ y == 0 -> 0 < y * y.
Proof.
  intros H. destruct (Q_dec y 0) as [[Hlt|Hgt]|Heq]; [| |done].
  - assert (y * y == (- y) * (- y)) as -> by ring.
    apply Qmult_lt_0_compat; lra.
  - apply Qmult_lt_0_compat; lra.
Qed.

Lemma squares_nonneg c (l : list Q) :
  0 <= sum (List.map (fun x => (x - c) * (x - c)) l).
Proof.
  induction l as [|x l IH]; simpl; [lra|].
  pose proof (square_nonneg (x - c)). lra.
Qed.

(** Squared deviations from any centre are positive in sum as soon as two
    entries differ. *)
Lemma squares_pos c (l : list Q) a b :
  In a l -> In b l -> ~ a == b ->
  0 < sum (List.map (fun x => (x - c) * (x - c)) l).
Proof.
  intros Ha Hb Hab.
  assert (exists x, In x l /\ ~ x - c == 0) as (x & Hx & Hxc).
  { destruct (Qeq_dec (a - c) 0) as [Hac|Hac]; [|by exists a].
    exists b. split; [done|]. intros Hbc. apply Hab. lra. }
  clear a b Ha Hb Hab. induction l as [|y l IH]; [done|]. simpl.
  pose proof (squares_nonneg c l). pose proof (square_nonneg (y - c)).
  destruct Hx as [->|Hx].
  - pose proof (square_pos _ Hxc). lra.
  - specialize (IH Hx). lra.
Qed.

Lemma of_nat_pred n : (1 <= n)%nat -> of_nat (n - 1) == of_nat n - 1.
Proof.
  intros H. unfold of_nat. rewrite Nat2Z.inj_sub by done.
  unfold Z.sub. rewrite inject_Z_plus. simpl. unfold Qminus. reflexivity.
Qed.

Lemma two_le_of_nat n : (2 <= n)%nat -> 2 <= inject_Z (Z.of_nat n).
Proof. intros H. change 2 with (inject_Z 2). rewrite <- Zle_Qle. lia. Qed.

(** The mean and the sample variance, as the numbers that the usual
    equations determine. *)
Lemma mean_unique (l : list Q) m :
  (0 < length l)%nat ->
  m * inject_Z (Z.of_nat (length l)) == fold_right Qplus 0 l -> mean l == m.
Proof.
  intros Hn Hm. unfold mean. rewrite sum_fold, <- Hm.
  pose proof (of_nat_pos _ Hn) as Hpos. unfold of_nat in *. field. lra.
Qed.

Lemma variance_unique (l : list Q) m s2 :
  (2 <= length l)%nat ->
  m * inject_Z (Z.of_nat (length l)) == fold_right Qplus 0 l ->
  s2 * (inject_Z (Z.of_nat (length l)) - 1) ==
    fold_right Qplus 0 (List.map (fun x => (x - m) * (x - m)) l) ->
  variance l == s2.
Proof.
  intros Hn Hm Hs. unfold variance. cbv zeta.
  pose proof (mean_unique l m ltac:(lia) Hm) as Hmean.
  rewrite (sum_map_ext _ (fun x => (x - m) * (x - m))).
  2: { intros x. rewrite Hmean. reflexivity. }
  rewrite sum_fold, <- Hs, of_nat_pred by lia.
  pose proof (two_le_of_nat _ Hn) as Hle. unfold of_nat. field. lra.
Qed.

Lemma variance_pos (l : list Q) a b :
  (2 <= length l)%nat -> In a l -> In b l -> ~ a == b -> 0 < variance l.
Proof.
  intros Hn Ha Hb Hab. unfold variance. cbv zeta.
  pose proof (squares_pos (mean l) l a b Ha Hb Hab) as Hpos.
  pose proof (two_le_of_nat _ Hn) as Hle.
  rewrite of_nat_pred by lia. unfold of_nat.
  apply Qlt_shift_div_l; lra.
Qed.

Section ZScoreFacts.

(** The square root that the standard deviation takes: a function of the
    number, not of the way it is written, that maps 0 to 0 and is
    positive on positive numbers. *)
Variable sqrtQ : Q -> Q.
Hypothesis sqrtQ_proper : forall x y, x == y -> sqrtQ x == sqrtQ y.
Hypothesis sqrtQ_zero : sqrtQ 0 == 0.
Hypothesis sqrtQ_pos : forall x, 0 < x -> 0 < sqrtQ x.

(** C9: with fewer than two valid entries [calculate_z_score] returns
    [None]; with at least two valid entries that are all equal it returns
    0, whatever the value; otherwise, that is with at least two valid
    entries two of which differ, the standard deviation is positive and
    the function returns [(value - mean) / stdev], where [mean] is the
    arithmetic mean of the valid entries and [stdev] the square root of
    their sample variance (the sum of the squared deviations from the
    mean over the number of valid entries less one); a null value gives
    [None] there. *)
Theorem calculate_z_score_spec (value : option Q) (all_values : sample) :
  ((length (valid_values all_values) < 2)%nat ->
     calculate_z_score sqrtQ value all_values = None) /\
  ((2 <= length (valid_values all_values))%nat ->
   (forall a b, In a (valid_values all_values) -> In b (valid_values all_values) ->
                a == b) ->
     calculate_z_score sqrtQ value all_values = Some 0) /\
  ((2 <= length (valid_values all_values))%nat ->
   (exists a b, In a (valid_values all_values) /\ In b (valid_values all_values) /\
                ~ a == b) ->
   forall m s2 : Q,
     m * inject_Z (Z.of_nat (length (valid_values all_values))) ==
       fold_right Qplus 0 (valid_values all_values) ->
     s2 * (inject_Z (Z.of_nat (length (valid_values all_values))) - 1) ==
       fold_right Qplus 0
         (List.map (fun x => (x - m) * (x - m)) (valid_values all_values)) ->
     0 < sqrtQ s2 /\
     match value with
     | Some v =>
         exists z, calculate_z_score sqrtQ value all_values = Some z /\
                   z == (v - m) / sqrtQ s2
     | None => calculate_z_score sqrtQ value all_values = None
     end).
Proof.
  pose proof (valid_values_length all_values) as Hlen.
  unfold calculate_z_score. split; [|split].
  - intros H. destruct (length all_values <? 2)%nat eqn:E1; [done|].
    destruct (length (valid_values all_values) <? 2)%nat eqn:E2; [done|].
    apply Nat.ltb_ge in E2. lia.
  - intros H Heq.
    assert (E1 : (length all_values <? 2)%nat = false) by (apply Nat.ltb_ge; lia).
    assert (E2 : (length (valid_values all_values) <? 2)%nat = false)
      by (apply Nat.ltb_ge; lia).
    rewrite E1, E2.
    destruct (valid_values all_values) as [|a l] eqn:Ev; [simpl in H; lia|].
    assert (Hvar : variance (a :: l) == 0).
    { apply (variance_const _ a); [simpl; lia|].
      apply List.Forall_forall. intros x Hx. apply Heq; [done|by left]. }
    assert (Hs : Qeq_bool (stdev sqrtQ (a :: l)) 0 = true).
    { apply Qeq_bool_iff. unfold stdev. by rewrite (sqrtQ_proper _ 0 Hvar). }
    by rewrite Hs.
  - intros H (a & b & Ha & Hb & Hab) m s2 Hm Hs2.
    assert (E1 : (length all_values <? 2)%nat = false) by (apply Nat.ltb_ge; lia).
    assert (E2 : (length (valid_values all_values) <? 2)%nat = false)
      by (apply Nat.ltb_ge; lia).
    rewrite E1, E2.
    pose proof (variance_pos (valid_values all_values) a b H Ha Hb Hab) as Hvar.
    pose proof (sqrtQ_pos _ Hvar) as Hsd.
    assert (0 < length (valid_values all_values))%nat as Hpos by lia.
    pose proof (mean_unique (valid_values all_values) m Hpos Hm) as Hmean.
    pose proof (sqrtQ_proper _ _ (variance_unique (valid_values all_values) m s2 H Hm Hs2))
      as Hsqrt.
    split; [by rewrite <- Hsqrt|].
    destruct (Qeq_bool (stdev sqrtQ (valid_values all_values)) 0) eqn:E.
    { apply Qeq_bool_iff in E. unfold stdev in E. lra. }
    destruct value as [v|]; [|done].
    eexists. split; [reflexivity|]. unfold stdev. by rewrite Hmean, Hsqrt.
Qed.

End ZScoreFacts.

Lemma approx_sqrt_proper x y : x == y -> approx_sqrt x == approx_sqrt y.
Proof. intros H. unfold approx_sqrt. by rewrite (Qred_complete _ _ H). Qed.

Lemma approx_sqrt_zero : approx_sqrt 0 == 0.
Proof. reflexivity. Qed.

Lemma approx_sqrt_pos x : 0 < x -> 0 < approx_sqrt x.
Proof.
  intros H. unfold approx_sqrt. cbv zeta.
  rewrite <- (Qred_correct x) in H. destruct (Qred x) as [n d].
  unfold Qlt in *. simpl in *.
  assert (0 < Z.sqrt (n * Z.pos d))%Z; [|lia].
  apply Z.sqrt_pos. lia.
Qed.

Lemma calculate_z_score_spec_witness :
  calculate_z_score approx_sqrt (Some 9) [Some 4; None] = None /\
  calculate_z_score approx_sqrt (Some 9) [Some 4; None; Some 4; Some 4] = Some 0 /\
  exists z, calculate_z_score approx_sqrt (Some 9) [Some 0; Some 3; None; Some 6] = Some z /\
            z == 2.
Proof.
  pose proof (calculate_z_score_spec approx_sqrt approx_sqrt_proper approx_sqrt_zero
                approx_sqrt_pos) as H.
  split; [|split].
  - apply (H (Some 9) [Some 4; None]). simpl. lia.
  - apply (H (Some 9) [Some 4; None; Some 4; Some 4]); [simpl; lia|].
    simpl. intros a b Ha Hb.
    destruct Ha as [<-|[<-|[<-|[]]]]; destruct Hb as [<-|[<-|[<-|[]]]]; reflexivity.
  - destruct (H (Some 9) [Some 0; Some 3; None; Some 6]) as (_ & _ & H3).
    destruct (H3 ltac:(simpl; lia)
                 ltac:(exists 0, 3; simpl; repeat split; auto; discriminate) 3 9)
      as [_ (z & Hz & Hv)]; [reflexivity|reflexivity|].
    exists z. split; [exact Hz|]. rewrite Hv. reflexivity.
Defined.

End StatsFacts.

(** ** Extraction unit *)

Module ExtractionFacts.
Import ExtractionUnit.

Lemma app_nil (s : string) : "" +:+ s = s.
Proof. reflexivity. Qed.

Lemma app_cons (a : ascii) (p s : string) : String a p +:+ s = String a (p +:+ s).
Proof. reflexivity. Qed.


Lemma prefix_app (p s : string) : String.prefix p (p +:+ s) = true.
Proof.
  induction p as [|a p IH]; [by destruct s|].
  rewrite app_cons. simpl. destruct (ascii_dec a a); [done|congruence].
Qed.

Lemma drop_chars_app (p s : string) : drop_chars (String.length p) (p +:+ s) = s.
Proof. induction p; [by destruct s|by rewrite app_cons]. Qed.


Lemma split1_app c p q :
  has_char c p = false -> split1 c (p +:+ String c q) = (p, Some q).
Proof.
  induction p as [|a p IH]; intros H.
  - rewrite app_nil. simpl. by rewrite Ascii.eqb_refl.
  - simpl in H. apply orb_false_iff in H as [Ha Hp].
    rewrite app_cons. simpl. rewrite Ha, (IH Hp). done.
Qed.

Lemma eqb_empty s : String.eqb s "" = false <-> s <> "".
Proof. rewrite <- String.eqb_neq. done. Qed.

(** A locator is accepted by [parse_s3_uri] exactly when it follows the
    addressing scheme. *)
Lemma parse_s3_uri_addresses s3_uri bucket key :
  addresses s3_uri bucket key ->
  parse_s3_uri s3_uri = (Some bucket, Some key).
Proof.
  intros (-> & Hb & Hk & Hc). unfold parse_s3_uri.
  assert (Ht : truthy (VStr ("s3://" +:+ bucket +:+ "/" +:+ key)) = true) by done.
  rewrite Ht. change ("s3://" +:+ bucket +:+ "/" +:+ key) with
    ("s3://" +:+ (bucket +:+ String "/" key)).
  rewrite prefix_app. simpl negb. simpl orb. cbv iota.
  change 5%nat with (String.length "s3://"). rewrite drop_chars_app.
  rewrite split1_app by done. simpl.
  destruct (String.eqb (bucket +:+ String "/" key) "") eqn:E.
  { apply String.eqb_eq in E. destruct bucket; done. }
  apply eqb_empty in Hb. by rewrite Hb.
Qed.


Section Facts.
Variable textractor_document_analysis : string -> string -> string * string.


End Facts.


End ExtractionFacts.

(** ** Resolver *)

Module ResolverFacts.
Import ExtractionUnit Resolver Samples.

Lemma add_if_present_dict d field task acc :
  add_if_present (VDict d) field task acc =
  Ok (acc ++ task_for (VDict d) field task)%list.
Proof.
  unfold add_if_present, task_for. simpl.
  destruct (d !! KStr field) as [locator|] eqn:E.
  - rewrite bool_decide_eq_true_2 by eauto. simpl.
    destruct (truthy locator); [done|]. by rewrite app_nil_r.
  - rewrite bool_decide_eq_false_2 by (by intros [? ?]). simpl. by rewrite app_nil_r.
Qed.

Lemma foldM_add_main application_id d entries : forall acc,
  foldM (add_main application_id (VDict d)) acc entries =
  Ok (acc ++ flat_map (fun entry : string * string =>
                         task_for (VDict d) entry.1
                           (main_task application_id entry.1 entry.2)) entries)%list.
Proof.
  unfold add_main.
  induction entries as [|e entries IH]; intros acc; cbn [foldM flat_map].
  - by rewrite app_nil_r.
  - rewrite add_if_present_dict. cbn [mbind res_bind].
    rewrite IH. by rewrite <- app_assoc.
Qed.

Lemma add_project_dict application_id idx d acc :
  add_project application_id acc (idx, VDict d) =
  Ok (acc ++ project_tasks application_id (idx, VDict d))%list.
Proof.
  unfold add_project, project_tasks. rewrite add_if_present_dict.
  cbn [mbind res_bind]. rewrite add_if_present_dict. by rewrite <- app_assoc.
Qed.

Lemma add_work_dict application_id idx d acc :
  add_work application_id acc (idx, VDict d) =
  Ok (acc ++ work_tasks application_id (idx, VDict d))%list.
Proof.
  unfold add_work, work_tasks. rewrite add_if_present_dict.
  cbn [mbind res_bind]. rewrite add_if_present_dict. by rewrite <- app_assoc.
Qed.

Lemma foldM_add_project application_id entries : forall acc,
  Forall (fun entry : nat * value => is_dict entry.2 = true) entries ->
  foldM (add_project application_id) acc entries =
  Ok (acc ++ flat_map (project_tasks application_id) entries)%list.
Proof.
  induction entries as [|[idx p] entries IH]; intros acc Hall; cbn [foldM flat_map].
  - by rewrite app_nil_r.
  - inversion Hall as [|? ? Hp Hrest]; subst. destruct p; try done.
    rewrite add_project_dict. cbn [mbind res_bind]. rewrite IH by done.
    by rewrite <- app_assoc.
Qed.

Lemma foldM_add_work application_id entries : forall acc,
  Forall (fun entry : nat * value => is_dict entry.2 = true) entries ->
  foldM (add_work application_id) acc entries =
  Ok (acc ++ flat_map (work_tasks application_id) entries)%list.
Proof.
  induction entries as [|[idx p] entries IH]; intros acc Hall; cbn [foldM flat_map].
  - by rewrite app_nil_r.
  - inversion Hall as [|? ? Hp Hrest]; subst. destruct p; try done.
    rewrite add_work_dict. cbn [mbind res_bind]. rewrite IH by done.
    by rewrite <- app_assoc.
Qed.

Lemma enumerate_from_dicts (l : list value) : forall i,
  forallb is_dict l = true ->
  Forall (fun entry : nat * value => is_dict entry.2 = true) (enumerate_from i l).
Proof.
  induction l as [|x l IH]; intros i H; simpl; [constructor|].
  simpl in H. apply andb_true_iff in H as [Hx Hl]. constructor; [done|by apply IH].
Qed.

Lemma flat_map_nothing {A} (f : A -> list value) (l : list A) :
  (forall x, f x = []) -> flat_map f l = [].
Proof. intros H. induction l; simpl; [done|]. by rewrite H. Qed.

Lemma scan_main_expected application_id student acc :
  from_option is_dict true (student !! KStr "documents") = true ->
  scan_main application_id student acc =
  Ok (acc ++ flat_map (fun entry : string * string =>
                         task_for (section_of student "documents") entry.1
                           (main_task application_id entry.1 entry.2))
                      document_mapping)%list.
Proof.
  unfold scan_main, section_of.
  destruct (student !! KStr "documents") as [[| | | | |d]|]; try done; intros _.
  - apply foldM_add_main.
  - rewrite flat_map_nothing by done. by rewrite app_nil_r.
Qed.

Lemma scan_personal_expected application_id student acc :
  from_option is_dict true (student !! KStr "personal_information") = true ->
  scan_personal application_id student acc =
  Ok (acc ++ task_for (section_of student "personal_information")
               "government_id_document"
               (fun uri => nested_task application_id
                  "personal_information.government_id_document"
                  "government_id_content" uri "personal_information"))%list.
Proof.
  unfold scan_personal, section_of.
  destruct (student !! KStr "personal_information") as [[| | | | |d]|]; try done;
    intros _.
  - apply add_if_present_dict.
  - by rewrite app_nil_r.
Qed.

Lemma scan_projects_expected application_id student acc :
  match student !! KStr "research_experience" with
  | None => true
  | Some (VDict research_exp) =>
      match research_exp !! KStr "projects" with
      | None => true
      | Some (VList projects) => forallb is_dict projects
      | Some _ => false
      end
  | Some _ => false
  end = true ->
  scan_projects application_id student acc =
  Ok (acc ++ flat_map (project_tasks application_id) (projects_of student))%list.
Proof.
  unfold scan_projects, projects_of, section_of.
  destruct (student !! KStr "research_experience") as [[| | | | |re]|]; try done; simpl.
  - destruct (re !! KStr "projects") as [[| | | |ps|]|]; try done; simpl.
    + intros H. apply foldM_add_project. by apply enumerate_from_dicts.
    + intros _. by rewrite app_nil_r.
  - intros _. by rewrite app_nil_r.
Qed.

Lemma scan_work_expected application_id student acc :
  match student !! KStr "work_experience" with
  | None => true
  | Some (VList work_experiences) => forallb is_dict work_experiences
  | Some _ => false
  end = true ->
  scan_work application_id student acc =
  Ok (acc ++ flat_map (work_tasks application_id) (work_of student))%list.
Proof.
  unfold scan_work, work_of, section_of.
  destruct (student !! KStr "work_experience") as [[| | | |ws|]|]; try done; simpl.
  - intros H. apply foldM_add_work. by apply enumerate_from_dicts.
  - intros _. by rewrite app_nil_r.
Qed.

(** The scan yields the expected tasks on every record of the
    expected shape. *)
Lemma collect_documents_expected application_id student :
  well_shaped student = true ->
  collect_documents application_id student =
  Ok (expected_documents application_id student).
Proof.
  unfold well_shaped, collect_documents, expected_documents.
  rewrite !andb_true_iff. intros [[[Hdocs Hpers] Hres] Hwork].
  rewrite scan_main_expected by done. cbn [mbind res_bind].
  rewrite scan_personal_expected by done. cbn [mbind res_bind].
  rewrite scan_projects_expected by done. cbn [mbind res_bind].
  rewrite scan_work_expected by done.
  by rewrite <- !app_assoc.
Qed.

Lemma task_for_length holder field task :
  length (task_for holder field task) = locators_at holder field.
Proof.
  unfold task_for, locators_at. destruct (field_of holder field) as [u|]; [|done].
  by destruct (truthy u).
Qed.

Lemma flat_map_length {A} (f : A -> list value) (g : A -> nat) (l : list A) :
  (forall x, length (f x) = g x) ->
  length (flat_map f l) = sum_list (List.map g l).
Proof.
  intros H. induction l as [|x l IH]; simpl; [done|].
  by rewrite length_app, H, IH.
Qed.

Lemma expected_documents_length application_id student :
  length (expected_documents application_id student) = locator_count student.
Proof.
  unfold expected_documents, locator_count. rewrite !length_app.
  rewrite (flat_map_length _ (fun entry : string * string =>
             locators_at (section_of student "documents") entry.1))
    by (intros; apply task_for_length).
  rewrite task_for_length.
  rewrite (flat_map_length (project_tasks application_id)
             (fun entry : nat * value =>
                locators_at entry.2 "publication_document" +
                locators_at entry.2 "report_document"))
    by (intros; unfold project_tasks; by rewrite length_app, !task_for_length).
  rewrite (flat_map_length (work_tasks application_id)
             (fun entry : nat * value =>
                locators_at entry.2 "certificate_document" +
                locators_at entry.2 "recommendation_document"))
    by (intros; unfold work_tasks; by rewrite length_app, !task_for_length).
  lia.
Qed.

(** C6: for every stored application record of the data model's shape,
    the resolver returns success with exactly the expected tasks: one per
    present, non-empty locator of the registry's keys in [documents] and
    of the nested locations, none for an empty or absent locator; their
    number is the number of such locators, and with none of them the list
    is empty. *)
Theorem resolve_one_task_per_locator (data : dict) (application_id : string)
    (student : dict) (t : table) :
  data !! KStr "application_id" = Some (VStr application_id) ->
  application_id <> "" ->
  t !! application_id = Some student ->
  student <> ∅ ->
  well_shaped student = true ->
  prepare_document_list_flow data t =
    (true, obj [("application_id", VStr application_id);
                ("documents",
                 VList (expected_documents (VStr application_id) student));
                ("total_documents", VNum (Z.of_nat (locator_count student)))]) /\
  length (expected_documents (VStr application_id) student) = locator_count student /\
  (locator_count student = 0 ->
   expected_documents (VStr application_id) student = []).
Proof.
  intros Hid Hne Ht Hs Hw.
  pose proof (expected_documents_length (VStr application_id) student) as Hlen.
  split; [|split; [done|]].
  - unfold prepare_document_list_flow, prepare_document_list_body.
    rewrite Hid. simpl. apply String.eqb_neq in Hne. rewrite Hne. simpl.
    rewrite Ht. simpl. rewrite bool_decide_eq_false_2 by done.
    rewrite collect_documents_expected by done. simpl. by rewrite Hlen.
  - intros H0. rewrite H0 in Hlen. by apply nil_length_inv.
Qed.

Lemma resolve_one_task_per_locator_witness :
  prepare_document_list_flow request applications_table =
    (true, obj [("application_id", VStr "A1");
                ("documents", VList (expected_documents (VStr "A1") application));
                ("total_documents", VNum 2)]) /\
  expected_documents (VStr "A1") application =
    [main_task (VStr "A1") "transcript" "transcript_content" (VStr "s3://bucket/t.pdf");
     nested_task (VStr "A1") "work_experience[0].certificate_document"
       "certificate_content" (VStr "s3://bucket/c0.pdf") "work_experience.0"].
Proof.
  split; [|vm_compute; reflexivity].
  apply (resolve_one_task_per_locator request "A1" application applications_table);
    try reflexivity; done.
Defined.

End ResolverFacts.

(** ** Consolidator: decoding and tallies *)

Module ConsolidatorFacts.
Import Consolidator.

Lemma store_content_decode student document content :
  store_content student document content =
  a ← decode_document document content; apply a student.
Proof.
  unfold store_content, decode_document, store_project, store_work.
  destruct (get document "document_type" VNone) as [ty|]; cbn [mbind res_bind]; [|done].
  destruct (eq_str ty "main").
  { destruct (get document "content_key" VNone) as [ck|]; cbn [mbind res_bind]; [|done].
    destruct (truthy ck); cbn [mbind res_bind]; [|done]. by destruct (hashable ck). }
  destruct (eq_str ty "nested"); [|done].
  destruct (get document "parent_path" (VStr "")) as [pp|]; cbn [mbind res_bind]; [|done].
  destruct (get document "content_key" VNone) as [ck|]; cbn [mbind res_bind]; [|done].
  destruct (str_in "personal_information" pp) as [[]|]; cbn [mbind res_bind]; try done.
  destruct (str_in "research_experience.projects" pp) as [[]|]; cbn [mbind res_bind]; try done.
  { destruct (split_path pp) as [parts|]; cbn [mbind res_bind]; [|done].
    destruct (3 <=? length parts)%nat; cbn [mbind res_bind]; [|done].
    by destruct (int (default "" (parts !! 2%nat))). }
  destruct (str_in "work_experience" pp) as [[]|]; cbn [mbind res_bind]; try done.
  destruct (split_path pp) as [parts|]; cbn [mbind res_bind]; [|done].
  destruct (2 <=? length parts)%nat; cbn [mbind res_bind]; [|done].
  by destruct (int (default "" (parts !! 1%nat))).
Qed.

Lemma process_result_decode student n w :
  process_result (student, n) w =
  ka ← decode w; s' ← apply ka.2 student; Ok (s', bump ka.1 n).
Proof.
  unfold process_result, decode.
  destruct (result_of w) as [result|]; cbn [mbind res_bind]; [|done].
  destruct (get result "status" VNone) as [status|]; cbn [mbind res_bind]; [|done].
  destruct (eq_str status "success").
  { destruct (get result "document" (VDict ∅)) as [document|]; cbn [mbind res_bind]; [|done].
    destruct (get result "content" (VStr "")) as [content|]; cbn [mbind res_bind]; [|done].
    rewrite store_content_decode.
    destruct (decode_document document content) as [a|]; cbn [mbind res_bind]; [|done].
    simpl. by destruct (apply a student). }
  by destruct (eq_str status "failed").
Qed.

Lemma process_result_total student n w student' n' :
  process_result (student, n) w = Ok (student', n') -> total n' = S (total n).
Proof.
  rewrite process_result_decode.
  destruct (decode w) as [[k a]|]; simpl; [|done].
  destruct (apply a student); simpl; [|done].
  intros [= _ <-]. destruct k; unfold total; simpl; lia.
Qed.

Lemma foldM_process_total ws : forall st st',
  foldM process_result st ws = Ok st' -> total st'.2 = (length ws + total st.2)%nat.
Proof.
  induction ws as [|w ws IH]; intros st st'; simpl.
  - by intros [= ->].
  - destruct (process_result st w) as [st1|] eqn:E; simpl; [|done].
    intros H. apply IH in H. destruct st as [s n], st1 as [s1 n1].
    apply process_result_total in E. simpl in *. lia.
Qed.

End ConsolidatorFacts.

(** ** Writes into containers *)

Module WriteFacts.
Import Consolidator LastWriter PyFacts.

Lemma foldM_app {A B} (f : A -> B -> res A) l1 l2 x :
  foldM f x (l1 ++ l2) = (y ← foldM f x l1; foldM f y l2).
Proof.
  revert x. induction l1 as [|b l1 IH]; intros x; simpl; [done|].
  destruct (f x b); simpl; [apply IH|done].
Qed.

(** Replaying a sequence of writes of a last-writer-wins family on its
    own result changes nothing. *)
Section LastWriterFacts.
Context {X I : Type} (f : I -> X -> res X).

Lemma replay_absorb a u :
  idempotent f a -> (forall j, overtaken f a j) ->
  forall t t1 t2 t3,
    f a t = Ok t1 -> replay f u t1 = Ok t2 -> f a t2 = Ok t3 ->
    exists t4, replay f u t = Ok t4 /\ f a t4 = Ok t3.
Proof.
  intros Hi Hd. induction u as [|b u IH]; intros t t1 t2 t3 Ha Hu Ha2.
  - unfold replay in *. simpl in *. injection Hu as <-. exists t. split; [done|].
    rewrite (Hi _ _ Ha) in Ha2. congruence.
  - unfold replay in *. simpl in Hu |- *.
    destruct (f b t1) as [t1'|] eqn:Eb; simpl in Hu; [|done].
    destruct (Hd b _ _ _ Ha Eb) as (s & Hs & [<- | Hc]); rewrite Hs; simpl.
    + eauto.
    + eapply IH; eauto.
Qed.

Lemma replay_idempotent :
  last_writer_wins f ->
  forall u x y z, replay f u x = Ok y -> replay f u y = Ok z -> z = y.
Proof.
  intros Hl u. induction u as [|a u IH] using rev_ind; intros x y z.
  - unfold replay. simpl. congruence.
  - unfold replay in *. rewrite !foldM_app. simpl.
    destruct (foldM _ x u) as [x1|] eqn:E1; simpl; [|done].
    destruct (f a x1) as [y'|] eqn:E2; simpl; [|done]. intros [= ->].
    destruct (foldM _ y u) as [y1|] eqn:E3; simpl; [|done].
    destruct (f a y1) as [z'|] eqn:E4; simpl; [|done]. intros [= ->].
    destruct (Hl a) as [Hc|[Hi Hd]]; [by eapply Hc|].
    destruct (replay_absorb a u Hi Hd _ _ _ _ E2 E3 E4) as (t4 & Ht4 & Hz).
    pose proof (IH _ _ _ E1 Ht4) as ->. congruence.
Qed.

End LastWriterFacts.

(** ** Item assignment *)

Lemma setitem_idempotent x k v x1 :
  setitem x k v = Ok x1 -> setitem x1 k v = Ok x1.
Proof.
  intros (s & Hs & ->)%setitem_Ok. apply setitem_Ok. exists s.
  by rewrite slot_of_write, write_write_eq.
Qed.

Lemma setitem_overtaken x k1 v1 k2 v2 x1 x2 :
  setitem x k1 v1 = Ok x1 -> setitem x1 k2 v2 = Ok x2 ->
  exists x3, setitem x k2 v2 = Ok x3 /\ (x2 = x3 \/ setitem x3 k1 v1 = Ok x2).
Proof.
  intros (s1 & Hs1 & ->)%setitem_Ok (s2 & Hs2 & ->)%setitem_Ok.
  rewrite slot_of_write in Hs2.
  exists (write x s2 v2). split; [apply setitem_Ok; eauto|].
  destruct (decide (s1 = s2)) as [->|Hne].
  - left. by rewrite write_write_eq.
  - right. apply setitem_Ok. exists s1. rewrite slot_of_write.
    split; [done|]. by apply write_write_ne.
Qed.

Lemma slot_of_str_inj x k1 k2 s :
  slot_of x (VStr k1) = Some s -> slot_of x (VStr k2) = Some s -> k1 = k2.
Proof.
  destruct x; simpl; try done. by intros [= <-] [= ->].
Qed.

Lemma setitem_commute x k1 v1 k2 v2 x1 x2 :
  distinct_fields k1 k2 = true ->
  setitem x k1 v1 = Ok x1 -> setitem x1 k2 v2 = Ok x2 ->
  exists x3, setitem x k2 v2 = Ok x3 /\ setitem x3 k1 v1 = Ok x2.
Proof.
  intros Hd (s1 & Hs1 & ->)%setitem_Ok (s2 & Hs2 & ->)%setitem_Ok.
  rewrite slot_of_write in Hs2.
  destruct k1 as [| | |k1| |], k2 as [| | |k2| |]; try done.
  simpl in Hd. apply negb_true_iff, String.eqb_neq in Hd.
  assert (s1 <> s2) by (intros ->; by eapply Hd, slot_of_str_inj).
  exists (write x s2 v2). split; [apply setitem_Ok; eauto|].
  apply setitem_Ok. exists s1. rewrite slot_of_write.
  split; [done|]. by apply write_write_ne.
Qed.

(** ** Writes into a list of entries *)

Lemma store_in_list_Ok w idx k v w1 :
  store_in_list w idx k v = Ok w1 <->
  exists n, len w = Ok n /\
    (((idx <? Z.of_nat n)%Z = true /\ setitem2 w (VNum idx) k v = Ok w1) \/
     ((idx <? Z.of_nat n)%Z = false /\ w1 = w)).
Proof.
  unfold store_in_list. destruct (len w) as [n|]; cbn [mbind res_bind].
  - destruct (idx <? Z.of_nat n)%Z eqn:E; split.
    + intros H. exists n. naive_solver.
    + intros (? & [= <-] & [[_ ?]|[? _]]); [done|]. by rewrite E in *.
    + intros [= <-]. exists n. naive_solver.
    + intros (? & [= <-] & [[? _]|[_ ->]]); [|done]. by rewrite E in *.
  - split; [done|]. by intros (? & ? & _).
Qed.

Lemma store_in_list_idempotent w idx k v w1 :
  store_in_list w idx k v = Ok w1 -> store_in_list w1 idx k v = Ok w1.
Proof.
  intros (n & Hn & [[Hlt H]|[Hge ->]])%store_in_list_Ok.
  - apply setitem2_Ok in H as (s & e & e' & Hs & Hr & He & ->).
    apply store_in_list_Ok. exists n. split; [by rewrite (len_write _ _ _ _ Hr)|].
    left. split; [done|]. apply setitem2_Ok. exists s, e', e'.
    rewrite slot_of_write, (read_write_eq _ _ _ _ Hr), write_write_eq.
    split_and!; try done. by eapply setitem_idempotent.
  - apply store_in_list_Ok. eauto.
Qed.

Lemma store_in_list_overtaken w i1 k1 v1 i2 k2 v2 w1 w2 :
  store_in_list w i1 k1 v1 = Ok w1 -> store_in_list w1 i2 k2 v2 = Ok w2 ->
  exists w3, store_in_list w i2 k2 v2 = Ok w3 /\
             (w2 = w3 \/ store_in_list w3 i1 k1 v1 = Ok w2).
Proof.
  intros (n & Hn & [[Hlt1 H1]|[Hge1 ->]])%store_in_list_Ok H2; [|eauto].
  apply setitem2_Ok in H1 as (s1 & e1 & e1' & Hs1 & Hr1 & He1 & ->).
  apply store_in_list_Ok in H2 as (n' & Hn' & H2).
  rewrite (len_write _ _ _ _ Hr1), Hn in Hn'. injection Hn' as <-.
  destruct H2 as [[Hlt2 H2]|[Hge2 ->]].
  - apply setitem2_Ok in H2 as (s2 & e2 & e2' & Hs2 & Hr2 & He2 & ->).
    rewrite slot_of_write in Hs2.
    destruct (decide (s1 = s2)) as [<-|Hne].
    + rewrite (read_write_eq _ _ _ _ Hr1) in Hr2. injection Hr2 as <-.
      destruct (setitem_overtaken _ _ _ _ _ _ _ He1 He2) as (e3 & He3 & Hor).
      exists (write w s1 e3). split.
      { apply store_in_list_Ok. exists n. split; [done|]. left. split; [done|].
        apply setitem2_Ok. exists s1, e1, e3. eauto. }
      rewrite write_write_eq. destruct Hor as [-> | Hc]; [by left|right].
      apply store_in_list_Ok. exists n.
      split; [by rewrite (len_write _ _ _ _ Hr1)|]. left. split; [done|].
      apply setitem2_Ok. exists s1, e3, e2'.
      rewrite slot_of_write, (read_write_eq _ _ _ _ Hr1), write_write_eq. eauto.
    + rewrite read_write_ne in Hr2 by done.
      exists (write w s2 e2'). split.
      { apply store_in_list_Ok. exists n. split; [done|]. left. split; [done|].
        apply setitem2_Ok. exists s2, e2, e2'. eauto. }
      right. apply store_in_list_Ok. exists n.
      split; [by rewrite (len_write _ _ _ _ Hr2)|]. left. split; [done|].
      apply setitem2_Ok. exists s1, e1, e1'.
      rewrite slot_of_write, read_write_ne by done.
      split_and!; try done. by apply write_write_ne.
  - exists w. split; [apply store_in_list_Ok; eauto|]. right.
    apply store_in_list_Ok. exists n. split; [done|]. left. split; [done|].
    apply setitem2_Ok. exists s1, e1, e1'. eauto.
Qed.

Lemma slot_of_entry_inj x i j s :
  distinct_entries i j = true ->
  slot_of x (VNum i) = Some s -> slot_of x (VNum j) = Some s -> False.
Proof.
  unfold distinct_entries. intros Hd.
  apply andb_true_iff in Hd as [Hd Hne]. apply andb_true_iff in Hd as [Hi Hj].
  apply Z.leb_le in Hi, Hj. apply negb_true_iff, Z.eqb_neq in Hne.
  destruct x; simpl; try done.
  - destruct (norm_index i (length l)) as [a|] eqn:Ea; simpl; [|done].
    destruct (norm_index j (length l)) as [b|] eqn:Eb; simpl; [|done].
    apply norm_index_nonneg in Ea, Eb; try done. intros [= <-] [= ?]. lia.
  - intros [= <-] [= ?]. congruence.
Qed.

Lemma store_in_list_commute w i1 k1 v1 i2 k2 v2 w1 w2 :
  distinct_entries i1 i2 || distinct_fields k1 k2 = true ->
  store_in_list w i1 k1 v1 = Ok w1 -> store_in_list w1 i2 k2 v2 = Ok w2 ->
  exists w3, store_in_list w i2 k2 v2 = Ok w3 /\ store_in_list w3 i1 k1 v1 = Ok w2.
Proof.
  intros Hind (n & Hn & [[Hlt1 H1]|[Hge1 ->]])%store_in_list_Ok H2.
  2: { exists w2. split; [done|].
       apply store_in_list_Ok in H2 as (n' & Hn' & H2).
       assert (n' = n) as -> by congruence.
       destruct H2 as [[_ H2]|[_ ->]].
       - apply setitem2_Ok in H2 as (s2 & e2 & e2' & Hs2 & Hr2 & He2 & ->).
         apply store_in_list_Ok. exists n.
         split; [by rewrite (len_write _ _ _ _ Hr2)|]. eauto.
       - apply store_in_list_Ok. eauto. }
  apply setitem2_Ok in H1 as (s1 & e1 & e1' & Hs1 & Hr1 & He1 & ->).
  apply store_in_list_Ok in H2 as (n' & Hn' & H2).
  rewrite (len_write _ _ _ _ Hr1), Hn in Hn'. injection Hn' as <-.
  destruct H2 as [[Hlt2 H2]|[Hge2 ->]].
  - apply setitem2_Ok in H2 as (s2 & e2 & e2' & Hs2 & Hr2 & He2 & ->).
    rewrite slot_of_write in Hs2.
    destruct (decide (s1 = s2)) as [<-|Hne].
    + rewrite (read_write_eq _ _ _ _ Hr1) in Hr2. injection Hr2 as <-.
      apply orb_true_iff in Hind as [Hind|Hind];
        [by destruct (slot_of_entry_inj _ _ _ _ Hind Hs1 Hs2)|].
      destruct (setitem_commute _ _ _ _ _ _ _ Hind He1 He2) as (e3 & He3 & Hc).
      exists (write w s1 e3). split.
      { apply store_in_list_Ok. exists n. split; [done|]. left. split; [done|].
        apply setitem2_Ok. exists s1, e1, e3. eauto. }
      rewrite write_write_eq.
      apply store_in_list_Ok. exists n.
      split; [by rewrite (len_write _ _ _ _ Hr1)|]. left. split; [done|].
      apply setitem2_Ok. exists s1, e3, e2'.
      rewrite slot_of_write, (read_write_eq _ _ _ _ Hr1), write_write_eq. eauto.
    + rewrite read_write_ne in Hr2 by done.
      exists (write w s2 e2'). split.
      { apply store_in_list_Ok. exists n. split; [done|]. left. split; [done|].
        apply setitem2_Ok. exists s2, e2, e2'. eauto. }
      apply store_in_list_Ok. exists n.
      split; [by rewrite (len_write _ _ _ _ Hr2)|]. left. split; [done|].
      apply setitem2_Ok. exists s1, e1, e1'.
      rewrite slot_of_write, read_write_ne by done.
      split_and!; try done. by apply write_write_ne.
  - exists w. split; [apply store_in_list_Ok; eauto|].
    apply store_in_list_Ok. exists n. split; [done|]. left. split; [done|].
    apply setitem2_Ok. exists s1, e1, e1'. eauto.
Qed.

End WriteFacts.

(** ** Writes into the record *)

Module LocalFacts.
Import Consolidator LastWriter PyFacts WriteFacts.

Abbreviation personal := (KStr "personal_information").
Abbreviation research := (KStr "research_experience").
Abbreviation work := (KStr "work_experience").
Abbreviation projects := (KStr "projects").

(** ** An action touches the record under its root only *)

Lemma local_None a o : root a <> None -> local a o = Ok None -> o = None.
Proof.
  destruct a; simpl; try done.
  - by destruct (setitem _ _ _).
  - destruct o as [r|]; [|done].
    destruct (str_in "projects" r) as [[]|]; simpl; try done.
    destruct (getitem r (VStr "projects")); simpl; [|done].
    destruct (store_in_list _ _ _ _); simpl; [|done].
    by destruct (setitem r _ _).
  - destruct o as [w|]; [|done]. by destruct (store_in_list _ _ _ _).
Qed.

Lemma apply_local a s :
  apply a s = match root a with
              | None => Ok s
              | Some r => o ← local a (s !! r); Ok (put r o s)
              end.
Proof.
  destruct a as [|k c|ck c|idx ck c|idx ck c]; simpl; try done.
  - unfold store_personal. case_bool_decide as Hp.
    + destruct Hp as [v Hv]. simpl. rewrite !Hv. simpl.
      by destruct (setitem v ck c).
    + apply eq_None_not_Some in Hp. simpl. rewrite Hp. simpl.
      rewrite lookup_insert_eq. simpl.
      destruct (hashable ck); simpl; [|done].
      by rewrite insert_insert_eq.
  - unfold write_project. destruct (s !! research) as [r|] eqn:Er; [|done].
    destruct (str_in "projects" r) as [[]|]; simpl; try done.
    + destruct (getitem r (VStr "projects")); simpl; [|done].
      destruct (store_in_list _ _ _ _); simpl; [|done].
      by destruct (setitem r _ _).
    + by rewrite insert_id.
  - unfold write_work. destruct (s !! work) as [w|] eqn:Ew; [|done].
    by destruct (store_in_list _ _ _ _).
Qed.

Lemma lookup_put r a s o :
  root a = Some r -> local a (s !! r) = Ok o -> put r o s !! r = o.
Proof.
  intros Hr Hl. destruct o as [v|]; simpl; [apply lookup_insert_eq|].
  apply local_None in Hl; [done|congruence].
Qed.

Lemma lookup_put_ne r r' o s : r <> r' -> put r o s !! r' = s !! r'.
Proof. intros H. destruct o; simpl; [by apply lookup_insert_ne|done]. Qed.

Lemma apply_step r a s s1 :
  apply a s = Ok s1 -> step r a (s !! r) = Ok (s1 !! r).
Proof.
  rewrite apply_local. unfold step. destruct (root a) as [ra|] eqn:Era.
  - destruct (local a (s !! ra)) as [o|] eqn:El; simpl; [|done]. intros [= <-].
    case_bool_decide as Hr.
    + injection Hr as ->. rewrite El. f_equal. symmetry. by eapply lookup_put.
    + f_equal. symmetry. apply lookup_put_ne. congruence.
  - intros [= <-]. by case_bool_decide.
Qed.

Lemma run_chain r acts : forall s s',
  run acts s = Ok s' -> chain r acts (s !! r) = Ok (s' !! r).
Proof.
  unfold run, chain. induction acts as [|a acts IH]; intros s s'; simpl.
  - by intros [= ->].
  - destruct (apply a s) as [s1|] eqn:Ea; simpl; [|done].
    rewrite (apply_step r _ _ _ Ea). simpl. apply IH.
Qed.

(** ** The writes under one root: the last writer wins *)

Lemma local_project_Ok i k v o o' :
  local (SetProject i k v) o = Ok o' <->
  (o = None /\ o' = None) \/
  (exists r, o = Some r /\ str_in "projects" r = Ok false /\ o' = Some r) \/
  (exists d p p', o = Some (VDict d) /\ d !! projects = Some p /\
                  store_in_list p i k v = Ok p' /\
                  o' = Some (VDict (<[projects := p']> d))).
Proof.
  split.
  - simpl. destruct o as [r|]; [|intros [= <-]; by left].
    destruct (str_in "projects" r) as [[]|] eqn:Ei; simpl; [| |done].
    + destruct (getitem r (VStr "projects")) as [p|] eqn:Eg; simpl; [|done].
      destruct (store_in_list p i k v) as [p'|] eqn:Es; simpl; [|done].
      destruct r as [| | |s|l|d]; simpl in *; try done.
      intros [= <-]. right; right. exists d, p, p'. split_and!; try done.
      destruct (d !! projects); congruence.
    + intros [= <-]. right; left. eauto.
  - intros [[-> ->]|[(r & -> & Hr & ->)|(d & p & p' & -> & Hp & Hs & ->)]].
    + done.
    + simpl. by rewrite Hr.
    + simpl. rewrite Hp. rewrite bool_decide_eq_true_2 by eauto. simpl.
      by rewrite Hs.
Qed.

Lemma local_project_write d p i k v p' :
  d !! projects = Some p -> store_in_list p i k v = Ok p' ->
  local (SetProject i k v) (Some (VDict d)) = Ok (Some (VDict (<[projects := p']> d))).
Proof. intros. apply local_project_Ok. right; right. eauto 10. Qed.

Lemma local_idempotent a x x1 : local a x = Ok x1 -> local a x1 = Ok x1.
Proof.
  destruct a as [|k c|ck c|idx ck c|idx ck c].
  - done.
  - by intros [= <-].
  - simpl. destruct (setitem (default (VDict ∅) x) ck c) as [v|] eqn:E; simpl; [|done].
    intros [= <-]. simpl. by rewrite (setitem_idempotent _ _ _ _ E).
  - intros [[-> ->]|[(r & -> & Hr & ->)|(d & p & p' & -> & Hp & Hs & ->)]]%local_project_Ok.
    + done.
    + apply local_project_Ok. right; left. eauto.
    + rewrite (local_project_write _ p' idx ck c p').
      * by rewrite insert_insert_eq.
      * apply lookup_insert_eq.
      * by eapply store_in_list_idempotent.
  - simpl. destruct x as [w|]; [|by intros [= <-]].
    destruct (store_in_list w idx ck c) as [w1|] eqn:E; simpl; [|done].
    intros [= <-]. by rewrite (store_in_list_idempotent _ _ _ _ _ E).
Qed.

Lemma local_overtaken a b x x1 x2 :
  same_section a b = true ->
  local a x = Ok x1 -> local b x1 = Ok x2 ->
  exists x3, local b x = Ok x3 /\ (x2 = x3 \/ local a x3 = Ok x2).
Proof.
  destruct a as [|k c|k1 c1|i1 k1 c1|i1 k1 c1], b as [|k' c'|k2 c2|i2 k2 c2|i2 k2 c2];
    try done; intros _.
  - simpl. destruct (setitem (default (VDict ∅) x) k1 c1) as [v1|] eqn:E1; simpl; [|done].
    intros [= <-]. simpl.
    destruct (setitem v1 k2 c2) as [v2|] eqn:E2; simpl; [|done]. intros [= <-].
    destruct (setitem_overtaken _ _ _ _ _ _ _ E1 E2) as (v3 & -> & Hor). simpl.
    exists (Some v3). split; [done|].
    destruct Hor as [-> | Hc]; [by left|right]. simpl. by rewrite Hc.
  - intros [[-> ->]|[(r & -> & Hr & ->)|(d & p & p' & -> & Hp & Hs & ->)]]%local_project_Ok.
    + intros H. exists x2. split; [done|]. right.
      apply local_project_Ok in H as [[_ ->]|[(? & ? & _)|(? & ? & ? & ? & _)]]; done.
    + intros H. exists x2. split; [done|]. right.
      apply local_project_Ok in H
        as [[? _]|[(? & [= <-] & _ & ->)|(? & ? & ? & [= ->] & Hp & _)]]; try done.
      * apply local_project_Ok. right; left. eauto.
      * simpl in Hr. injection Hr as Hr. apply bool_decide_eq_false in Hr.
        destruct Hr. by rewrite Hp.
    + intros H. apply local_project_Ok in H
        as [[? _]|[(? & [= <-] & Hr & _)|(? & q & q' & [= <-] & Hq & Hs2 & ->)]]; try done.
      { simpl in Hr. injection Hr as Hr. apply bool_decide_eq_false in Hr.
        destruct Hr. by rewrite lookup_insert_eq. }
      rewrite lookup_insert_eq in Hq. injection Hq as <-.
      destruct (store_in_list_overtaken _ _ _ _ _ _ _ _ _ Hs Hs2) as (p3 & Hp3 & Hor).
      exists (Some (VDict (<[projects := p3]> d))).
      split; [by apply (local_project_write _ p)|].
      rewrite insert_insert_eq. destruct Hor as [-> | Hc]; [by left|right].
      rewrite (local_project_write _ p3 i1 k1 c1 q').
      * by rewrite insert_insert_eq.
      * apply lookup_insert_eq.
      * done.
  - simpl. destruct x as [w|].
    2: { intros [= <-] [= <-]. eauto. }
    destruct (store_in_list w i1 k1 c1) as [w1|] eqn:E1; simpl; [|done].
    intros [= <-].
    destruct (store_in_list w1 i2 k2 c2) as [w2|] eqn:E2; simpl; [|done].
    intros [= <-].
    destruct (store_in_list_overtaken _ _ _ _ _ _ _ _ _ E1 E2) as (w3 & -> & Hor).
    simpl. exists (Some w3). split; [done|].
    destruct Hor as [-> | Hc]; [by left|right]. simpl. by rewrite Hc.
Qed.

Lemma same_root_section r a b :
  root a = Some r -> root b = Some r -> is_set r a = false -> is_set r b = false ->
  same_section a b = true.
Proof.
  destruct a, b; simpl; try done; intros [= <-] [= ?]; try done;
    intros; repeat case_bool_decide; congruence.
Qed.

Lemma step_last_writer_wins r : last_writer_wins (step r).
Proof.
  intros a. unfold step. destruct (is_set r a) eqn:Eset.
  { left. destruct a; try done. simpl in *. apply bool_decide_eq_true in Eset as ->.
    intros x y x' y'. rewrite bool_decide_eq_true_2 by done. simpl. congruence. }
  right. split.
  - intros x x1. case_bool_decide; [apply local_idempotent|by intros [= <-]].
  - intros b x x1 x2. case_bool_decide as Ha; [|intros [= <-] H; eauto].
    case_bool_decide as Hb; [|intros H [= <-]; eauto].
    destruct (is_set r b) eqn:Esetb.
    { destruct b; try done. simpl. intros _ [= <-]. eauto. }
    apply local_overtaken. by eapply same_root_section.
Qed.

Lemma chain_idempotent r acts x y z :
  chain r acts x = Ok y -> chain r acts y = Ok z -> z = y.
Proof. apply (replay_idempotent (step r)), step_last_writer_wins. Qed.

(** Replaying a sequence of writes on the record it produced changes
    nothing. *)
Lemma run_idempotent acts s s1 s2 :
  run acts s = Ok s1 -> run acts s1 = Ok s2 -> s2 = s1.
Proof.
  intros H1 H2. apply map_eq. intros r.
  apply (run_chain r) in H1, H2.
  assert (Heq := chain_idempotent _ _ _ _ _ H1 H2). done.
Qed.

End LocalFacts.

(** ** Order of the outcomes *)

Module OrderFacts.
Import Consolidator PyFacts WriteFacts LocalFacts ConsolidatorFacts.

Lemma distinct_fields_sym k1 k2 : distinct_fields k1 k2 = distinct_fields k2 k1.
Proof.
  destruct k1, k2; simpl; try done. f_equal. apply String.eqb_sym.
Qed.

Lemma distinct_entries_sym i j : distinct_entries i j = distinct_entries j i.
Proof.
  unfold distinct_entries. rewrite (Z.eqb_sym i j).
  by destruct (0 <=? i)%Z, (0 <=? j)%Z.
Qed.

Lemma independent_sym a b : independent a b = independent b a.
Proof.
  destruct a as [|k c|k1 c1|i1 k1 c1|i1 k1 c1], b as [|k' c'|k2 c2|i2 k2 c2|i2 k2 c2];
    simpl; try done;
    rewrite ?(distinct_fields_sym k1), ?(distinct_entries_sym i1); try done;
    f_equal; apply bool_decide_ext; naive_solver.
Qed.

Lemma independent_outcomes_sym w1 w2 :
  independent_outcomes w1 w2 = independent_outcomes w2 w1.
Proof.
  unfold independent_outcomes.
  destruct (decode w1) as [[? a]|], (decode w2) as [[? b]|]; try done.
  apply independent_sym.
Qed.

Lemma local_commute a b x x1 x2 :
  same_section a b = true -> independent a b = true ->
  local a x = Ok x1 -> local b x1 = Ok x2 ->
  exists x3, local b x = Ok x3 /\ local a x3 = Ok x2.
Proof.
  destruct a as [|k c|k1 c1|i1 k1 c1|i1 k1 c1], b as [|k' c'|k2 c2|i2 k2 c2|i2 k2 c2];
    try done; intros _ Hind; simpl in Hind.
  - simpl. destruct (setitem (default (VDict ∅) x) k1 c1) as [v1|] eqn:E1; simpl; [|done].
    intros [= <-]. simpl.
    destruct (setitem v1 k2 c2) as [v2|] eqn:E2; simpl; [|done]. intros [= <-].
    destruct (setitem_commute _ _ _ _ _ _ _ Hind E1 E2) as (v3 & -> & Hc). simpl.
    exists (Some v3). split; [done|]. simpl. by rewrite Hc.
  - intros [[-> ->]|[(r & -> & Hr & ->)|(d & p & p' & -> & Hp & Hs & ->)]]%local_project_Ok.
    + intros H. exists x2. split; [done|].
      apply local_project_Ok in H as [[_ ->]|[(? & ? & _)|(? & ? & ? & ? & _)]]; done.
    + intros H. exists x2. split; [done|].
      apply local_project_Ok in H
        as [[? _]|[(? & [= <-] & _ & ->)|(? & ? & ? & [= ->] & Hp & _)]]; try done.
      * apply local_project_Ok. right; left. eauto.
      * simpl in Hr. injection Hr as Hr. apply bool_decide_eq_false in Hr.
        destruct Hr. by rewrite Hp.
    + intros H. apply local_project_Ok in H
        as [[? _]|[(? & [= <-] & Hr & _)|(? & q & q' & [= <-] & Hq & Hs2 & ->)]]; try done.
      { simpl in Hr. injection Hr as Hr. apply bool_decide_eq_false in Hr.
        destruct Hr. by rewrite lookup_insert_eq. }
      rewrite lookup_insert_eq in Hq. injection Hq as <-.
      destruct (store_in_list_commute _ _ _ _ _ _ _ _ _ Hind Hs Hs2) as (p3 & Hp3 & Hc).
      exists (Some (VDict (<[projects := p3]> d))).
      split; [by apply (local_project_write _ p)|].
      rewrite insert_insert_eq.
      rewrite (local_project_write _ p3 i1 k1 c1 q').
      * by rewrite insert_insert_eq.
      * apply lookup_insert_eq.
      * done.
  - simpl. destruct x as [w|].
    2: { intros [= <-] [= <-]. eauto. }
    destruct (store_in_list w i1 k1 c1) as [w1|] eqn:E1; simpl; [|done].
    intros [= <-].
    destruct (store_in_list w1 i2 k2 c2) as [w2|] eqn:E2; simpl; [|done].
    intros [= <-].
    destruct (store_in_list_commute _ _ _ _ _ _ _ _ _ Hind E1 E2) as (w3 & -> & Hc).
    simpl. exists (Some w3). split; [done|]. simpl. by rewrite Hc.
Qed.

Lemma put_put r o1 o2 s :
  (o2 = None -> o1 = None) -> put r o2 (put r o1 s) = put r o2 s.
Proof.
  destruct o2 as [v2|], o1 as [v1|]; simpl; try done.
  - intros _. apply insert_insert_eq.
  - intros H. by specialize (H eq_refl).
Qed.

Lemma put_commute r1 r2 o1 o2 s :
  r1 <> r2 -> put r1 o1 (put r2 o2 s) = put r2 o2 (put r1 o1 s).
Proof.
  intros H. destruct o1, o2; simpl; try done. by apply insert_insert_ne.
Qed.

Lemma independent_same_root a b r :
  root a = Some r -> root b = Some r -> independent a b = true ->
  same_section a b = true.
Proof.
  destruct a, b; simpl; try done; intros [= <-] [= Hr] Hi; try done;
    apply negb_true_iff, bool_decide_eq_false in Hi; congruence.
Qed.

(** Independent writes can be applied in either order. *)
Lemma apply_commute a b s s1 s2 :
  independent a b = true ->
  apply a s = Ok s1 -> apply b s1 = Ok s2 ->
  exists s3, apply b s = Ok s3 /\ apply a s3 = Ok s2.
Proof.
  intros Hind. rewrite !apply_local.
  destruct (root a) as [ra|] eqn:Era.
  2: { intros [= <-] H. exists s2. split; [done|]. by rewrite apply_local, Era. }
  destruct (local a (s !! ra)) as [o1|] eqn:E1; simpl; [|done]. intros [= <-].
  destruct (root b) as [rb|] eqn:Erb.
  2: { intros [= <-]. exists s. split; [done|].
       rewrite apply_local, Era, E1. done. }
  destruct (decide (ra = rb)) as [<-|Hne].
  - rewrite (lookup_put _ _ _ _ Era E1).
    destruct (local b o1) as [o2|] eqn:E2; simpl; [|done]. intros [= <-].
    pose proof (independent_same_root _ _ _ Era Erb Hind) as Hsec.
    destruct (local_commute _ _ _ _ _ Hsec Hind E1 E2) as (o3 & E3 & E4).
    exists (put ra o3 s). rewrite E3. split; [done|].
    rewrite apply_local, Era, (lookup_put _ _ _ _ Erb E3), E4. simpl.
    f_equal. rewrite (put_put ra o3 o2), (put_put ra o1 o2); [done| |].
    + intros ->. apply (local_None b); [congruence|done].
    + intros ->. apply (local_None a); [congruence|done].
  - rewrite lookup_put_ne by done.
    destruct (local b (s !! rb)) as [o2|] eqn:E2; simpl; [|done]. intros [= <-].
    exists (put rb o2 s). split; [done|].
    rewrite apply_local, Era, lookup_put_ne by done. rewrite E1. simpl.
    f_equal. by apply put_commute.
Qed.

Lemma bump_commute k1 k2 n : bump k1 (bump k2 n) = bump k2 (bump k1 n).
Proof. by destruct k1, k2. Qed.

Lemma process_result_commute w1 w2 st st1 st2 :
  independent_outcomes w1 w2 = true ->
  process_result st w1 = Ok st1 -> process_result st1 w2 = Ok st2 ->
  exists st3, process_result st w2 = Ok st3 /\ process_result st3 w1 = Ok st2.
Proof.
  unfold independent_outcomes. destruct st as [s n], st1 as [s1 n1].
  rewrite !process_result_decode.
  destruct (decode w1) as [[k1 a]|] eqn:Ed1; simpl; [|done].
  destruct (decode w2) as [[k2 b]|] eqn:Ed2; simpl.
  2: { by intros _ _ [=]. }
  intros Hind.
  destruct (apply a s) as [s1'|] eqn:E1; simpl; [|intros [=]]. intros [= <- <-].
  destruct (apply b s1') as [s2|] eqn:E2; simpl; [|intros [=]]. intros [= <-].
  destruct (apply_commute _ _ _ _ _ Hind E1 E2) as (s3 & -> & E4). simpl.
  eexists. split; [done|]. rewrite process_result_decode, Ed1. simpl.
  rewrite E4. simpl. by rewrite bump_commute.
Qed.

Lemma pairwise_independent_perm ws ws' :
  Permutation ws ws' -> pairwise_independent ws = true ->
  pairwise_independent ws' = true.
Proof.
  induction 1 as [|x l l' Hp IH|x y l|l l' l'' _ IH1 _ IH2]; simpl; try done.
  - rewrite !andb_true_iff. intros [Hx Hl]. split; [|by apply IH].
    rewrite forallb_forall in *. intros w Hw. apply Hx.
    by apply (Permutation_in _ (Permutation_sym Hp)).
  - rewrite !andb_true_iff. intros [[Hyx Hy] [Hx Hl]].
    by rewrite independent_outcomes_sym, Hyx.
  - auto.
Qed.

Lemma foldM_process_perm ws ws' :
  Permutation ws ws' -> pairwise_independent ws = true ->
  forall st st', foldM process_result st ws = Ok st' ->
                 foldM process_result st ws' = Ok st'.
Proof.
  induction 1 as [|x l l' Hp IH|x y l|l l' l'' Hp1 IH1 Hp2 IH2]; simpl; try done.
  - rewrite andb_true_iff. intros [_ Hl] st st'.
    destruct (process_result st x); simpl; [by apply IH|done].
  - rewrite !andb_true_iff. intros [[Hyx _] _] st st'.
    destruct (process_result st y) as [st1|] eqn:E1; simpl; [|done].
    destruct (process_result st1 x) as [st2|] eqn:E2; simpl; [|done].
    destruct (process_result_commute _ _ _ _ _ Hyx E1 E2) as (st3 & E3 & E4).
    rewrite E3. simpl. by rewrite E4.
  - intros Hl st st' H. apply IH2; [by eapply pairwise_independent_perm|].
    by apply IH1.
Qed.

Lemma consolidate_perm student ws ws' :
  Permutation ws ws' -> pairwise_independent ws = true ->
  succeeded (consolidate student ws) = succeeded (consolidate student ws').
Proof.
  intros Hp Hi. unfold consolidate.
  destruct (foldM process_result (student, Summary 0 0 0) ws) as [st|] eqn:E.
  - by rewrite (foldM_process_perm _ _ Hp Hi _ _ E).
  - destruct (foldM process_result (student, Summary 0 0 0) ws') as [st|] eqn:E';
      [|done].
    apply (foldM_process_perm _ _ (Permutation_sym Hp)) in E';
      [congruence|by eapply pairwise_independent_perm].
Qed.

End OrderFacts.

(** ** The consolidation flow *)

Module ConsolidationClaims.
Import Consolidator Samples.
Import PyFacts WriteFacts LocalFacts ConsolidatorFacts OrderFacts.

Lemma foldM_process_run ws : forall st st',
  foldM process_result st ws = Ok st' -> run (List.map action_of ws) st.1 = Ok st'.1.
Proof.
  unfold run. induction ws as [|w ws IH]; intros [s n] st'; cbn [foldM List.map].
  - by intros [= <-].
  - rewrite process_result_decode. unfold action_of.
    destruct (decode w) as [[k a]|]; simpl; [|done].
    destruct (apply a s) as [s1|]; simpl; [|done]. apply IH.
Qed.

Lemma consolidate_run student ws s1 n :
  consolidate student ws = Ok (s1, n) ->
  run (List.map action_of ws ++ [set_status]) student = Ok s1.
Proof.
  unfold consolidate.
  destruct (foldM process_result (student, Summary 0 0 0) ws) as [st|] eqn:E;
    simpl; [|done].
  intros [= <- <-]. apply foldM_process_run in E.
  unfold run in *. rewrite foldM_app. simpl in E. rewrite E. done.
Qed.

Lemma consolidate_idempotent student ws s1 n s2 n' :
  consolidate student ws = Ok (s1, n) -> consolidate s1 ws = Ok (s2, n') -> s2 = s1.
Proof.
  intros H1%consolidate_run H2%consolidate_run. by eapply run_idempotent.
Qed.

Lemma consolidate_flow_unfold id ws t :
  consolidate_extraction_results_flow (consolidation_input id ws) t =
  if String.eqb id "" then (t, (false, VStr "Missing application_id parameter"))
  else match t !! id with
       | None => (t, not_found)
       | Some student =>
           if bool_decide (student = ∅) then (t, not_found)
           else match st ← consolidate student ws;
                      t' ← dynamodb_put_item st.1 t;
                      Ok (t', (true, summary_value (VStr id) st.2 (length ws))) with
                | Ok r => r
                | Raise e =>
                    (t, (false, VStr ("Failed to consolidate results: " +:+ exn_text e)))
                end
       end.
Proof.
  unfold consolidate_extraction_results_flow, consolidate_body, consolidation_input.
  rewrite lookup_insert_eq, lookup_insert_ne, lookup_insert_eq by done. simpl.
  destruct (String.eqb id ""); simpl; [done|].
  destruct (t !! id) as [student|]; simpl; [|done].
  case_bool_decide; [done|].
  destruct (consolidate student ws) as [st|]; simpl; [|done].
  by destruct (dynamodb_put_item st.1 t).
Qed.

Lemma dynamodb_put_item_Ok item t t' :
  dynamodb_put_item item t = Ok t' ->
  exists id, item !! KStr "application_id" = Some (VStr id) /\ item <> ∅ /\
             t' = <[id := item]> t.
Proof.
  unfold dynamodb_put_item. case_bool_decide; [done|].
  destruct (item !! KStr "application_id") as [[| | |id| |]|]; try done.
  destruct (String.eqb id ""); [done|].
  destruct (storable (VDict item)); [|done]. intros [= <-]. eauto.
Qed.

Lemma dynamodb_put_item_again item t t' :
  dynamodb_put_item item t = Ok t' -> dynamodb_put_item item t' = Ok t'.
Proof.
  intros H. destruct (dynamodb_put_item_Ok _ _ _ H) as (id & Hid & _ & ->).
  revert H. unfold dynamodb_put_item. case_bool_decide; [done|]. rewrite Hid.
  destruct (String.eqb id ""); [done|].
  destruct (storable (VDict item)); [|done]. intros _.
  by rewrite insert_insert_eq.
Qed.

(** C2: consolidation is idempotent: for every table of application
    records, every application id and every list of outcomes, running the
    flow a second time on the table the first run left gives the same
    table. *)
Theorem consolidation_idempotent (application_id : string) (outcomes : list value)
    (t : table) :
  let data := consolidation_input application_id outcomes in
  (consolidate_extraction_results_flow data
     (consolidate_extraction_results_flow data t).1).1 =
  (consolidate_extraction_results_flow data t).1.
Proof.
  intros data. unfold data. rewrite (consolidate_flow_unfold _ _ t).
  destruct (String.eqb application_id "") eqn:Eid.
  { simpl. by rewrite consolidate_flow_unfold, Eid. }
  destruct (t !! application_id) as [student|] eqn:Et.
  2: { simpl. by rewrite consolidate_flow_unfold, Eid, Et. }
  case_bool_decide as Hempty.
  { simpl. rewrite consolidate_flow_unfold, Eid, Et. by rewrite bool_decide_eq_true_2. }
  destruct (consolidate student outcomes) as [[s1 n]|] eqn:Ec; simpl.
  2: { rewrite consolidate_flow_unfold, Eid, Et, bool_decide_eq_false_2 by done.
       by rewrite Ec. }
  destruct (dynamodb_put_item s1 t) as [t1|] eqn:Ep; simpl.
  2: { rewrite consolidate_flow_unfold, Eid, Et, bool_decide_eq_false_2 by done.
       rewrite Ec. simpl. by rewrite Ep. }
  destruct (dynamodb_put_item_Ok _ _ _ Ep) as (id' & Hid' & Hne & Ht1).
  rewrite consolidate_flow_unfold, Eid.
  destruct (decide (id' = application_id)) as [->|Hdiff].
  - rewrite Ht1 at 1. rewrite lookup_insert_eq, bool_decide_eq_false_2 by done.
    destruct (consolidate s1 outcomes) as [[s2 n2]|] eqn:Ec2; simpl; [|done].
    rewrite (consolidate_idempotent _ _ _ _ _ _ Ec Ec2).
    by rewrite (dynamodb_put_item_again _ _ _ Ep).
  - rewrite Ht1 at 1. rewrite lookup_insert_ne, Et, bool_decide_eq_false_2 by done.
    rewrite Ec. simpl. by rewrite (dynamodb_put_item_again _ _ _ Ep).
Qed.

(** C1, as stated, fails: two successful outcomes for the same content
    field leave the text of whichever comes last. *)
Lemma consolidation_order_matters :
  let first := main_success "transcript" "transcript_content" "first reading" in
  let second := main_success "transcript" "transcript_content" "second reading" in
  Permutation [first; second] [second; first] /\
  (consolidate_extraction_results_flow
     (consolidation_input "A1" [first; second]) applications_table).1 <>
  (consolidate_extraction_results_flow
     (consolidation_input "A1" [second; first]) applications_table).1.
Proof.
  split; [apply perm_swap|].
  intros H.
  apply (f_equal (fun t : table => t !! "A1" ≫= fun s => s !! KStr "transcript_content")) in H.
  vm_compute in H. discriminate.
Qed.

(** C1: for every stored record and every list of outcomes whose writes
    are pairwise independent, consolidating any permutation of the list
    leaves the same table and returns the same success flag and, on
    success, the same summary. *)
Theorem consolidation_order_independent (application_id : string)
    (outcomes outcomes' : list value) (t : table) :
  Permutation outcomes outcomes' ->
  pairwise_independent outcomes = true ->
  let r := consolidate_extraction_results_flow
             (consolidation_input application_id outcomes) t in
  let r' := consolidate_extraction_results_flow
              (consolidation_input application_id outcomes') t in
  r.1 = r'.1 /\ r.2.1 = r'.2.1 /\ (r.2.1 = true -> r.2.2 = r'.2.2).
Proof.
  intros Hp Hi r r'. unfold r, r'. rewrite !consolidate_flow_unfold.
  destruct (String.eqb application_id ""); [done|].
  destruct (t !! application_id) as [student|]; [|done].
  case_bool_decide; [done|].
  pose proof (consolidate_perm student _ _ Hp Hi) as Hs.
  rewrite <- (Permutation_length Hp).
  destruct (consolidate student outcomes) as [st|],
    (consolidate student outcomes') as [st'|]; simpl in *; try done.
  injection Hs as <-. by destruct (dynamodb_put_item st.1 t).
Qed.

Lemma consolidation_order_independent_witness :
  let a := main_success "transcript" "transcript_content" "transcript text" in
  let b := nested_success "work_experience.0" "certificate_content" "certificate" in
  let c := nested_success "work_experience.1" "certificate_content" "other" in
  let r := consolidate_extraction_results_flow
             (consolidation_input "A1" [a; b; c]) applications_table in
  let r' := consolidate_extraction_results_flow
              (consolidation_input "A1" [c; a; b]) applications_table in
  pairwise_independent [a; b; c] = true /\
  r.1 = r'.1 /\ r.2.1 = r'.2.1 /\ (r.2.1 = true -> r.2.2 = r'.2.2).
Proof.
  intros a b c. split; [vm_compute; reflexivity|].
  apply (consolidation_order_independent "A1" [a; b; c] [c; a; b] applications_table).
  - apply (Permutation_app_comm [a; b] [c]).
  - vm_compute. reflexivity.
Defined.

(** C10, as stated, fails: the payload of an extraction call that
    reported an error carries a text where the result is expected, and the
    loop raises on it. *)
Lemma malformed_payload_fails :
  let w := obj [("StatusCode", VNum 200);
                ("Payload", obj [("status_code", VNum 400);
                                 ("result", VStr "Missing required parameters");
                                 ("version", VStr "0.2")])] in
  succeeded (consolidate application [w]) = None /\
  consolidate_extraction_results_flow (consolidation_input "A1" [w]) applications_table =
    (applications_table,
     (false, VStr "Failed to consolidate results: AttributeError")).
Proof. split; vm_compute; reflexivity. Qed.

(** C10: whenever the flow returns a summary, successful + failed +
    skipped = total = the number of outcomes; an outcome whose result is an
    object with a status other than "success" and "failed" is tallied as
    skipped and leaves the record alone; and an outcome without a payload,
    or with a payload object without a result, has the empty result. *)
Theorem consolidation_summary_total :
  (forall application_id outcomes t t' v,
      consolidate_extraction_results_flow
        (consolidation_input application_id outcomes) t = (t', (true, v)) ->
      exists n, v = summary_value (VStr application_id) n (length outcomes) /\
                total n = length outcomes) /\
  (forall student n w r,
      result_of w = Ok (VDict r) ->
      eq_str (default VNone (r !! KStr "status")) "success" = false ->
      eq_str (default VNone (r !! KStr "status")) "failed" = false ->
      process_result (student, n) w = Ok (student, bump Skip n)) /\
  (forall d,
      d !! KStr "Payload" = None \/
      (exists p, d !! KStr "Payload" = Some (VDict p) /\ p !! KStr "result" = None) ->
      result_of (VDict d) = Ok (VDict ∅)).
Proof.
  split_and!.
  - intros id ws t t' v. rewrite consolidate_flow_unfold.
    destruct (String.eqb id ""); [done|].
    destruct (t !! id) as [student|]; [|done].
    case_bool_decide; [done|].
    destruct (consolidate student ws) as [[s1 n]|] eqn:Ec; simpl; [|done].
    destruct (dynamodb_put_item s1 t); simpl; [|done].
    intros [= <- <-]. exists n. split; [done|].
    unfold consolidate in Ec.
    destruct (foldM process_result _ ws) as [st|] eqn:E; simpl in Ec; [|done].
    injection Ec as <- <-. apply foldM_process_total in E. simpl in E.
    unfold total in *. simpl in E. lia.
  - intros student n w r Hr Hs Hf. unfold process_result. rewrite Hr. simpl.
    by rewrite Hs, Hf.
  - intros d [Hp|(p & Hp & Hr)]; unfold result_of; simpl; rewrite Hp; simpl.
    + done.
    + by rewrite Hr.
Qed.

Lemma consolidation_summary_total_witness :
  process_result (application, Summary 0 0 0) (outcome (obj [("status", VStr "skipped")]))
  = Ok (application, Summary 0 0 1).
Proof.
  apply (proj1 (proj2 consolidation_summary_total) application (Summary 0 0 0) _
           (<[KStr "status" := VStr "skipped"]> ∅)); reflexivity.
Defined.

End ConsolidationClaims.

(** ** Single outcomes *)

Module OutcomeClaims.
Import Consolidator Samples ExtractionUnit.

(** The sample outcomes are consolidated successfully. *)
Example flows_succeed :
  let a := main_success "transcript" "transcript_content" "transcript text" in
  let b := nested_success "work_experience.0" "certificate_content" "certificate" in
  let c := nested_success "work_experience.1" "certificate_content" "other" in
  (consolidate_extraction_results_flow
     (consolidation_input "A1" [a; b; c]) applications_table).2.1 = true.
Proof. vm_compute. reflexivity. Qed.

Lemma store_in_list_beyond (l : list value) idx content_key content :
  (Z.of_nat (length l) <= idx)%Z ->
  store_in_list (VList l) idx content_key content = Ok (VList l).
Proof.
  intros H. unfold store_in_list. simpl.
  destruct (idx <? Z.of_nat (length l))%Z eqn:E; [|done].
  apply Z.ltb_lt in E. lia.
Qed.

(** C3, as stated, fails: nothing counts the dropped write as an
    inconsistency; the summary is the one of a write that was applied. *)
Lemma dropped_write_tallied_as_success :
  let dropped := nested_success "work_experience.2" "certificate_content" "certificate" in
  let applied := nested_success "work_experience.1" "certificate_content" "certificate" in
  (consolidate_extraction_results_flow
     (consolidation_input "A1" [dropped]) applications_table).2 =
    (true, summary_value (VStr "A1") (Summary 1 0 0) 1) /\
  (consolidate_extraction_results_flow
     (consolidation_input "A1" [applied]) applications_table).2 =
    (true, summary_value (VStr "A1") (Summary 1 0 0) 1).
Proof. split; vm_compute; reflexivity. Qed.

(** C3: a successful nested outcome whose parent path designates an
    index at or beyond the current length of the target list (the projects
    of the research experience, or the work experience) raises nothing and
    leaves the record, hence the list and its length, as it was; the
    outcome is tallied as successful, not as failed. *)
Theorem shrunk_list_write_dropped (student : dict) (n : summary) (w : value)
    (r doc : dict) (pp part : string) (idx : Z) (l : list value) :
  result_of w = Ok (VDict r) ->
  r !! KStr "status" = Some (VStr "success") ->
  r !! KStr "document" = Some (VDict doc) ->
  doc !! KStr "document_type" = Some (VStr "nested") ->
  doc !! KStr "parent_path" = Some (VStr pp) ->
  contains "personal_information" pp = false ->
  int part = Ok idx ->
  (Z.of_nat (length l) <= idx)%Z ->
  (contains "research_experience.projects" pp = true /\
   split "." pp !! 2%nat = Some part /\
   exists research_exp,
     student !! KStr "research_experience" = Some (VDict research_exp) /\
     research_exp !! KStr "projects" = Some (VList l)) \/
  (contains "research_experience.projects" pp = false /\
   contains "work_experience" pp = true /\
   split "." pp !! 1%nat = Some part /\
   student !! KStr "work_experience" = Some (VList l)) ->
  process_result (student, n) w = Ok (student, bump Success n).
Proof.
  intros Hr Hs Hd Ht Hp Hper Hint Hlen Hcase.
  unfold process_result. rewrite Hr. simpl. rewrite Hs, Hd. simpl.
  unfold store_content. simpl. rewrite Ht, Hp. simpl. rewrite Hper. simpl.
  destruct Hcase as [(Hres & Hpart & re & Hre & Hprj)|(Hres & Hwork & Hpart & Hwe)];
    rewrite Hres; simpl.
  - unfold store_project.
    assert (Hl : (3 <=? length (split "." pp))%nat = true).
    { apply Nat.leb_le. apply lookup_lt_Some in Hpart. lia. }
    rewrite Hl, Hpart. simpl. rewrite Hint. simpl.
    unfold write_project. rewrite Hre. simpl. rewrite Hprj.
    rewrite bool_decide_eq_true_2 by eauto. simpl.
    rewrite store_in_list_beyond by done. simpl.
    rewrite (insert_id re) by done. by rewrite insert_id.
  - rewrite Hwork. simpl. unfold store_work.
    assert (Hl : (2 <=? length (split "." pp))%nat = true).
    { apply Nat.leb_le. apply lookup_lt_Some in Hpart. lia. }
    rewrite Hl, Hpart. simpl. rewrite Hint. simpl.
    unfold write_work. rewrite Hwe. simpl.
    rewrite store_in_list_beyond by done. simpl.
    by rewrite insert_id.
Qed.

Lemma shrunk_list_write_dropped_witness :
  process_result (application, Summary 0 0 0)
    (nested_success "work_experience.2" "certificate_content" "certificate")
  = Ok (application, Summary 1 0 0).
Proof.
  eapply (shrunk_list_write_dropped application (Summary 0 0 0) _ _ _
            "work_experience.2" "2" 2);
    [reflexivity|reflexivity|reflexivity|reflexivity|reflexivity|reflexivity
    |reflexivity| |right; split_and!; reflexivity].
  simpl. lia.
Defined.


Section Sequential.
Variable textractor_document_analysis : string -> string -> string * string.


End Sequential.


End OutcomeClaims.

(** ** Lifecycle status *)

Module LifecycleFacts.
Import Lifecycle Samples.

Lemma storable_dict (d : dict) :
  storable (VDict d) = true <->
  map_Forall (fun k v => (exists s, k = KStr s) /\ storable v = true) d.
Proof.
  simpl.
  apply (map_fold_weak_ind (fun (r : bool) (m : dict) =>
    r = true <->
    map_Forall (fun k v => (exists s, k = KStr s) /\ storable v = true) m)).
  - split; [intros _; apply map_Forall_empty|done].
  - intros k v m r Hk IH. rewrite map_Forall_insert by done.
    destruct k as [|z|s]; simpl.
    + split; [done|]. by intros [[[? [=]] _] _].
    + split; [done|]. by intros [[[? [=]] _] _].
    + rewrite andb_true_iff, IH. naive_solver.
Qed.

Lemma storable_insert (d : dict) k v :
  storable (VDict d) = true -> storable v = true ->
  storable (VDict (<[KStr k := v]> d)) = true.
Proof.
  rewrite !storable_dict. intros Hd Hv. apply map_Forall_insert_2; eauto.
Qed.


Lemma dynamodb_put_item_at (item : dict) id t t' :
  item !! KStr "application_id" = Some (VStr id) ->
  dynamodb_put_item item t = Ok t' -> t' = <[id := item]> t.
Proof.
  intros Hkey. unfold dynamodb_put_item. case_bool_decide; [done|]. rewrite Hkey.
  destruct (String.eqb id ""); [done|].
  destruct (storable (VDict item)); [|done]. by intros [= <-].
Qed.

Section Stages.

Variable start_state_machine : value -> bool * string.
Variable invoke_agentcore_runtime : dict -> bool * value.
Variable generate_html_report : dict -> list dict -> string -> value.
Variables s3_bucket s3_prefix : string.

Variables (data : dict) (application_id : string) (student : dict) (d : db).
Hypothesis Hdata : data !! KStr "application_id" = Some (VStr application_id).
Hypothesis Hid : application_id <> "".
Hypothesis Hrecord : applications d !! application_id = Some student.
Hypothesis Hkey : student !! KStr "application_id" = Some (VStr application_id).

Lemma student_not_empty : student <> ∅.
Proof using Hkey.
  intros E. pose proof Hkey as H. rewrite E, lookup_empty in H. done.
Qed.


Lemma evaluate_application_flow_unfold :
  evaluate_application_flow invoke_agentcore_runtime data d =
  let '(status, response) := invoke_agentcore_runtime (delete status_key student) in
  if negb status then (d, (false, VStr "Evaluation service failed"))
  else
    match response with
    | VDict response =>
        if negb (truthy (VDict response)) then
          (d, (false, VStr "Invalid evaluation response from AI service"))
        else
          match dynamodb_put_item (<[status_key := VStr "Generating report"]> student)
                  (applications d) with
          | Raise e =>
              (d, (false, VStr ("Failed to evaluate application: " +:+ exn_text e)))
          | Ok t =>
              match dynamodb_put_item
                      (<[KStr "application_id" := VStr application_id]> response)
                      (evaluations d) with
              | Raise e =>
                  (Db t (evaluations d),
                   (false, VStr ("Failed to evaluate application: " +:+ exn_text e)))
              | Ok t' => (Db t t', (true, obj [("application_id", VStr application_id)]))
              end
          end
    | _ => (d, (false, VStr "Invalid evaluation response from AI service"))
    end.
Proof using Hdata Hid Hrecord Hkey.
  unfold evaluate_application_flow. rewrite Hdata. simpl.
  pose proof Hid as Hne. apply String.eqb_neq in Hne. rewrite Hne. simpl.
  rewrite Hrecord. simpl.
  rewrite bool_decide_eq_false_2 by apply student_not_empty. done.
Qed.




End Stages.

End LifecycleFacts.

(** ** Text of indices and dotted paths *)

Module PathFacts.
Import ExtractionUnit ExtractionFacts.

Lemma has_char_app c (p s : string) :
  has_char c (p +:+ s) = has_char c p || has_char c s.
Proof.
  induction p as [|a p IH]; [by rewrite app_nil|].
  rewrite app_cons. simpl. rewrite IH. by rewrite orb_assoc.
Qed.

Lemma prefix_has_char c needle : forall hay,
  String.prefix needle hay = true -> has_char c needle = true -> has_char c hay = true.
Proof.
  induction needle as [|a needle IH]; intros hay Hp Hc; [done|].
  destruct hay as [|b hay]; [done|]. cbn [String.prefix] in Hp.
  destruct (ascii_dec a b) as [->|]; [|done]. cbn [has_char] in *.
  apply orb_true_iff in Hc as [Hc|Hc]; [by rewrite Hc|].
  rewrite (IH hay) by done. by rewrite orb_true_r.
Qed.

(** A text that lacks one character of the needle does not contain it. *)
Lemma contains_has_char c needle hay :
  contains needle hay = true -> has_char c needle = true -> has_char c hay = true.
Proof.
  intros H Hc. induction hay as [|a hay IH].
  - cbn [contains] in H. rewrite orb_false_r in H. by eapply prefix_has_char.
  - cbn [contains] in H. apply orb_true_iff in H as [H|H].
    + by eapply prefix_has_char.
    + cbn [has_char]. rewrite IH by done. by rewrite orb_true_r.
Qed.

Lemma not_contains c needle hay :
  has_char c needle = true -> has_char c hay = false -> contains needle hay = false.
Proof.
  intros Hn Hh. destruct (contains needle hay) eqn:E; [|done].
  pose proof (contains_has_char c _ _ E Hn). congruence.
Qed.

Lemma contains_prefix needle hay :
  String.prefix needle hay = true -> contains needle hay = true.
Proof. intros H. destruct hay; cbn [contains]; by rewrite H. Qed.

Lemma split_no_char c s : has_char c s = false -> split c s = [s].
Proof.
  induction s as [|a s IH]; [done|]. simpl.
  intros [Ha Hs]%orb_false_iff. rewrite Ha, IH by done. done.
Qed.

Lemma split_app c p s :
  has_char c p = false -> split c (p +:+ String c s) = p :: split c s.
Proof.
  induction p as [|a p IH]; intros H.
  - rewrite app_nil. simpl. by rewrite Ascii.eqb_refl.
  - rewrite app_cons. simpl in *. apply orb_false_iff in H as [Ha Hp].
    rewrite Ha, IH by done. done.
Qed.

(** The decimal text of a natural number. *)
Lemma digit_of_char a c : digit_of a <> None -> digit_of c = None -> Ascii.eqb a c = false.
Proof.
  intros Ha Hc. destruct (Ascii.eqb a c) eqn:E; [|done].
  apply Ascii.eqb_eq in E as ->. done.
Qed.

Lemma has_char_string_of_uint c d :
  digit_of c = None -> has_char c (NilEmpty.string_of_uint d) = false.
Proof.
  intros Hc. induction d; cbn [NilEmpty.string_of_uint has_char]; [done|..];
    rewrite IHd, orb_false_r; by apply digit_of_char.
Qed.

Lemma to_uint_not_nil n : Nat.to_uint n <> Decimal.Nil.
Proof.
  rewrite <- (Unsigned.of_to n) at 1. rewrite Unsigned.to_of.
  unfold Decimal.unorm. destruct (Decimal.nzhead (Nat.to_uint n)); done.
Qed.

Lemma str_of_nat_unfold n : str_of_nat n = NilEmpty.string_of_uint (Nat.to_uint n).
Proof.
  unfold str_of_nat, NilZero.string_of_uint.
  pose proof (to_uint_not_nil n). by destruct (Nat.to_uint n).
Qed.

Lemma has_char_str_of_nat c n : digit_of c = None -> has_char c (str_of_nat n) = false.
Proof. intros. rewrite str_of_nat_unfold. by apply has_char_string_of_uint. Qed.

Lemma digits_string_of_uint d : forall acc b,
  (0 <= acc)%Z -> d <> Decimal.Nil \/ b = true ->
  digits acc b (NilEmpty.string_of_uint d) =
  Some (Z.of_nat (Nat.of_uint_acc d (Z.to_nat acc))).
Proof.
  induction d; intros acc b Hacc Hb;
    [destruct Hb as [?| ->]; [done|]; simpl; f_equal; lia|..];
    cbn [NilEmpty.string_of_uint digits Nat.of_uint_acc];
    (match goal with
     | |- context [digit_of ?a] =>
         let v := eval vm_compute in (digit_of a) in
         change (digit_of a) with v
     end);
    cbv iota beta; rewrite IHd by (try lia; by right);
    rewrite Nat.tail_mul_spec;
    (match goal with
     | |- Some (Z.of_nat (Nat.of_uint_acc _ ?x)) = Some (Z.of_nat (Nat.of_uint_acc _ ?y)) =>
         replace x with y by lia
     end); reflexivity.
Qed.

Lemma lstrip_string_of_uint d :
  lstrip (NilEmpty.string_of_uint d) = NilEmpty.string_of_uint d.
Proof. by destruct d. Qed.

Lemma rstrip_string_of_uint d :
  rstrip (NilEmpty.string_of_uint d) = NilEmpty.string_of_uint d.
Proof.
  induction d; [done|..]; cbn [NilEmpty.string_of_uint rstrip]; rewrite IHd;
    by destruct (NilEmpty.string_of_uint d).
Qed.

(** [int(str(n)) == n] *)
Lemma int_str_of_nat n : int (str_of_nat n) = Ok (Z.of_nat n).
Proof.
  rewrite str_of_nat_unfold. unfold int.
  rewrite lstrip_string_of_uint, rstrip_string_of_uint.
  pose proof (to_uint_not_nil n) as Hn.
  assert (digits 0 false (NilEmpty.string_of_uint (Nat.to_uint n)) = Some (Z.of_nat n))
    as Hd.
  { rewrite digits_string_of_uint by (try lia; by left).
    change (Z.to_nat 0) with 0%nat.
    change (Nat.of_uint_acc (Nat.to_uint n) 0) with (Nat.of_uint (Nat.to_uint n)).
    by rewrite Unsigned.of_to. }
  destruct (Nat.to_uint n); try done; cbn [NilEmpty.string_of_uint] in *;
    by rewrite Hd.
Qed.

End PathFacts.

(** ** From the resolver's tasks to the consolidator's writes *)

Module WriteBackFacts.
Import ExtractionUnit ExtractionFacts Resolver Consolidator PathFacts Samples.

Lemma work_path idx :
  let pp := "work_experience." +:+ str_of_nat idx in
  contains "personal_information" pp = false /\
  contains "research_experience.projects" pp = false /\
  contains "work_experience" pp = true /\
  split "." pp = ["work_experience"; str_of_nat idx].
Proof.
  intros pp. split_and!.
  - apply (not_contains "l"); [done|].
    unfold pp. rewrite has_char_app, has_char_str_of_nat by done. done.
  - apply (not_contains "h"); [done|].
    unfold pp. rewrite has_char_app, has_char_str_of_nat by done. done.
  - apply contains_prefix. apply (prefix_app "work_experience" ("." +:+ str_of_nat idx)).
  - change pp with ("work_experience" +:+ String "." (str_of_nat idx)).
    rewrite split_app by done. by rewrite split_no_char by (by apply has_char_str_of_nat).
Qed.

Lemma project_path idx :
  let pp := "research_experience.projects." +:+ str_of_nat idx in
  contains "personal_information" pp = false /\
  contains "research_experience.projects" pp = true /\
  split "." pp = ["research_experience"; "projects"; str_of_nat idx].
Proof.
  intros pp. split_and!.
  - apply (not_contains "l"); [done|].
    unfold pp. rewrite has_char_app, has_char_str_of_nat by done. done.
  - apply contains_prefix.
    apply (prefix_app "research_experience.projects" ("." +:+ str_of_nat idx)).
  - change pp with ("research_experience" +:+ String "." ("projects" +:+ String "." (str_of_nat idx))).
    rewrite split_app by done. rewrite split_app by done.
    by rewrite split_no_char by (by apply has_char_str_of_nat).
Qed.

Lemma decode_main_task application_id doc_key content_key s3_uri content :
  content_key <> "" ->
  decode_document (main_task application_id doc_key content_key s3_uri) content =
  Ok (SetField (KStr content_key) content).
Proof.
  intros H%eqb_empty. unfold decode_document.
  change (get (main_task application_id doc_key content_key s3_uri) "document_type" VNone)
    with (Ok (VStr "main")).
  cbn [mbind res_bind]. change (eq_str (VStr "main") "main") with true. cbv iota.
  change (get (main_task application_id doc_key content_key s3_uri) "content_key" VNone)
    with (Ok (VStr content_key)).
  cbn [mbind res_bind truthy hashable]. by rewrite H.
Qed.

Lemma decode_nested_task application_id document_key content_key s3_uri parent_path content :
  decode_document
    (nested_task application_id document_key content_key s3_uri parent_path) content =
  (personal ← str_in "personal_information" (VStr parent_path);
   if personal : bool then Ok (SetPersonal (VStr content_key) content)
   else
     research ← str_in "research_experience.projects" (VStr parent_path);
     if research : bool then
       path_parts ← split_path (VStr parent_path);
       if (3 <=? length path_parts)%nat then
         idx ← int (default "" (path_parts !! 2%nat));
         Ok (SetProject idx (VStr content_key) content)
       else Ok NoWrite
     else
       work ← str_in "work_experience" (VStr parent_path);
       if work : bool then
         path_parts ← split_path (VStr parent_path);
         if (2 <=? length path_parts)%nat then
           idx ← int (default "" (path_parts !! 1%nat));
           Ok (SetWork idx (VStr content_key) content)
         else Ok NoWrite
       else Ok NoWrite).
Proof. reflexivity. Qed.

Lemma decode_success w application_id document content :
  result_of w = Ok (success_outcome application_id document content) ->
  decode w = (a ← decode_document document (VStr content); Ok (Success, a)).
Proof. intros H. unfold decode. rewrite H. reflexivity. Qed.

Lemma decode_failed w application_id document error :
  result_of w = Ok (failed_outcome application_id document error) ->
  decode w = Ok (Failure, NoWrite).
Proof. intros H. unfold decode. rewrite H. reflexivity. Qed.

Lemma decode_personal_task application_id document_key content_key s3_uri content :
  decode_document
    (nested_task application_id document_key content_key s3_uri "personal_information")
    content = Ok (SetPersonal (VStr content_key) content).
Proof. reflexivity. Qed.

Lemma decode_project_task application_id document_key content_key s3_uri content idx :
  decode_document
    (nested_task application_id document_key content_key s3_uri
       ("research_experience.projects." +:+ str_of_nat idx)) content =
  Ok (SetProject (Z.of_nat idx) (VStr content_key) content).
Proof.
  rewrite decode_nested_task. destruct (project_path idx) as (Hp & Hr & Hs).
  cbn [str_in mbind res_bind split_path]. rewrite Hp, Hr, Hs.
  simpl. by rewrite int_str_of_nat.
Qed.

Lemma decode_work_task application_id document_key content_key s3_uri content idx :
  decode_document
    (nested_task application_id document_key content_key s3_uri
       ("work_experience." +:+ str_of_nat idx)) content =
  Ok (SetWork (Z.of_nat idx) (VStr content_key) content).
Proof.
  rewrite decode_nested_task. destruct (work_path idx) as (Hp & Hr & Hw & Hs).
  cbn [str_in mbind res_bind split_path]. rewrite Hp, Hr, Hw, Hs.
  simpl. by rewrite int_str_of_nat.
Qed.

Lemma norm_index_of_nat i n : (i < n)%nat -> norm_index (Z.of_nat i) n = Some i.
Proof.
  intros H. unfold norm_index.
  rewrite (proj2 (Z.leb_le 0 (Z.of_nat i))) by lia.
  rewrite (proj2 (Z.ltb_lt (Z.of_nat i) (Z.of_nat n))) by lia.
  by rewrite Nat2Z.id.
Qed.

(** The guarded write into the entry [idx] of a list of mappings. *)
Lemma store_in_list_entry (l : list value) idx (entry : dict) content_key content :
  l !! idx = Some (VDict entry) ->
  store_in_list (VList l) (Z.of_nat idx) (VStr content_key) content =
  Ok (VList (<[idx := VDict (<[KStr content_key := content]> entry)]> l)).
Proof.
  intros H. pose proof (lookup_lt_Some _ _ _ H) as Hlt.
  unfold store_in_list. cbn [len mbind res_bind].
  rewrite (proj2 (Z.ltb_lt (Z.of_nat idx) (Z.of_nat (length l)))) by lia.
  unfold setitem2. cbn [getitem setitem as_index mbind res_bind].
  rewrite !(norm_index_of_nat idx (length l) Hlt). by rewrite H.
Qed.

Lemma apply_SetWork student idx (l : list value) (entry : dict) content_key content :
  student !! KStr "work_experience" = Some (VList l) ->
  l !! idx = Some (VDict entry) ->
  apply (SetWork (Z.of_nat idx) (VStr content_key) content) student =
  Ok (<[KStr "work_experience" :=
          VList (<[idx := VDict (<[KStr content_key := content]> entry)]> l)]> student).
Proof.
  intros Hs Hl. cbn [apply]. unfold write_work. rewrite Hs.
  by rewrite (store_in_list_entry _ _ _ _ _ Hl).
Qed.

Lemma apply_SetProject student idx (research_exp : dict) (l : list value) (entry : dict)
    content_key content :
  student !! KStr "research_experience" = Some (VDict research_exp) ->
  research_exp !! KStr "projects" = Some (VList l) ->
  l !! idx = Some (VDict entry) ->
  apply (SetProject (Z.of_nat idx) (VStr content_key) content) student =
  Ok (<[KStr "research_experience" :=
          VDict (<[KStr "projects" :=
                     VList (<[idx := VDict (<[KStr content_key := content]> entry)]> l)]>
                   research_exp)]> student).
Proof.
  intros Hs Hr Hl. cbn [apply]. unfold write_project. rewrite Hs.
  cbn [str_in mbind res_bind]. rewrite bool_decide_eq_true_2 by eauto.
  cbn [getitem hashable]. rewrite Hr. cbn [mbind res_bind].
  by rewrite (store_in_list_entry _ _ _ _ _ Hl).
Qed.

Lemma apply_SetPersonal student (personal_info : dict) content_key content :
  student !! KStr "personal_information" = Some (VDict personal_info) ->
  apply (SetPersonal (VStr content_key) content) student =
  Ok (<[KStr "personal_information" :=
          VDict (<[KStr content_key := content]> personal_info)]> student).
Proof.
  intros Hs. cbn [apply]. unfold store_personal.
  rewrite bool_decide_eq_true_2 by eauto. cbn [getitem hashable]. by rewrite Hs.
Qed.

(** X1: the outcome of a task that the resolver emitted, once reported
    as a success, is written by the consolidator into the place the
    locator came from: the content field of a main document at the top of
    the record, that of the identity document in the personal
    information, and those of the documents of a project or of a work
    experience in the entry whose index the task's parent path carries. *)
Theorem content_written_at_source (student : dict) (n : summary) (w : value)
    (application_id s3_uri : value) (document_key content_key text : string) :
  (content_key <> "" ->
   result_of w = Ok (success_outcome application_id
                       (main_task application_id document_key content_key s3_uri) text) ->
   process_result (student, n) w =
   Ok (<[KStr content_key := VStr text]> student, bump Success n)) /\
  (forall personal_info : dict,
   result_of w = Ok (success_outcome application_id
                       (nested_task application_id document_key content_key s3_uri
                          "personal_information") text) ->
   student !! KStr "personal_information" = Some (VDict personal_info) ->
   process_result (student, n) w =
   Ok (<[KStr "personal_information" :=
           VDict (<[KStr content_key := VStr text]> personal_info)]> student,
       bump Success n)) /\
  (forall (idx : nat) (research_exp : dict) (l : list value) (project : dict),
   result_of w = Ok (success_outcome application_id
                       (nested_task application_id document_key content_key s3_uri
                          ("research_experience.projects." +:+ str_of_nat idx)) text) ->
   student !! KStr "research_experience" = Some (VDict research_exp) ->
   research_exp !! KStr "projects" = Some (VList l) ->
   l !! idx = Some (VDict project) ->
   process_result (student, n) w =
   Ok (<[KStr "research_experience" :=
           VDict (<[KStr "projects" :=
                      VList (<[idx := VDict (<[KStr content_key := VStr text]> project)]> l)]>
                    research_exp)]> student,
       bump Success n)) /\
  (forall (idx : nat) (l : list value) (work : dict),
   result_of w = Ok (success_outcome application_id
                       (nested_task application_id document_key content_key s3_uri
                          ("work_experience." +:+ str_of_nat idx)) text) ->
   student !! KStr "work_experience" = Some (VList l) ->
   l !! idx = Some (VDict work) ->
   process_result (student, n) w =
   Ok (<[KStr "work_experience" :=
           VList (<[idx := VDict (<[KStr content_key := VStr text]> work)]> l)]> student,
       bump Success n)).
Proof.
  split_and!.
  - intros Hk Hw. rewrite ConsolidatorFacts.process_result_decode.
    rewrite (decode_success _ _ _ _ Hw), decode_main_task by done. reflexivity.
  - intros p Hw Hs. rewrite ConsolidatorFacts.process_result_decode.
    rewrite (decode_success _ _ _ _ Hw), decode_personal_task.
    cbn [mbind res_bind fst snd]. by rewrite (apply_SetPersonal _ _ _ _ Hs).
  - intros idx re l p Hw Hs Hr Hl. rewrite ConsolidatorFacts.process_result_decode.
    rewrite (decode_success _ _ _ _ Hw), decode_project_task.
    cbn [mbind res_bind fst snd]. by rewrite (apply_SetProject _ _ _ _ _ _ _ Hs Hr Hl).
  - intros idx l p Hw Hs Hl. rewrite ConsolidatorFacts.process_result_decode.
    rewrite (decode_success _ _ _ _ Hw), decode_work_task.
    cbn [mbind res_bind fst snd]. by rewrite (apply_SetWork _ _ _ _ _ _ Hs Hl).
Qed.

Lemma content_written_at_source_witness :
  process_result (application, Summary 0 0 0)
    (outcome (success_outcome (VStr "A1")
                (nested_task (VStr "A1") "work_experience[0].certificate_document"
                   "certificate_content" (VStr "s3://bucket/c0.pdf") "work_experience.0")
                "certificate text")) =
  Ok (<[KStr "work_experience" :=
          VList [obj [("certificate_document", VStr "s3://bucket/c0.pdf");
                      ("certificate_content", VStr "certificate text")];
                 obj [("employer", VStr "ACME")]]]> application,
      Summary 1 0 0).
Proof.
  etransitivity;
    [apply (proj2 (proj2 (proj2 (content_written_at_source application (Summary 0 0 0) _
              (VStr "A1") (VStr "s3://bucket/c0.pdf")
              "work_experience[0].certificate_document" "certificate_content"
              "certificate text"))) 0%nat
              [obj [("certificate_document", VStr "s3://bucket/c0.pdf")];
               obj [("employer", VStr "ACME")]]
              (<[KStr "certificate_document" := VStr "s3://bucket/c0.pdf"]> ∅));
       reflexivity
    |vm_compute; reflexivity].
Defined.

End WriteBackFacts.

(** ** Sequential extraction *)

Module SequentialFacts.
Import ExtractionUnit ExtractionFacts Resolver SequentialExtraction.

Section Facts.

Variable textractor_document_analysis : string -> string -> string * string.

Local Abbreviation tx := textractor_document_analysis.

Lemma truthy_not_empty_text s3_uri : truthy s3_uri = true -> eq_str s3_uri "" = false.
Proof. destruct s3_uri; try done. simpl. by destruct (String.eqb s ""). Qed.

Lemma extract_document_spec s3_uri name r :
  extract_document tx s3_uri name r = (tally tx s3_uri name r, extracted tx s3_uri).
Proof.
  unfold extract_document, tally, extracted, extraction_fails.
  destruct (truthy s3_uri) eqn:Ht; [|done]. rewrite truthy_not_empty_text by done.
  cbn [negb orb].
  destruct (parse_s3_uri s3_uri) as [[b|] [k|]]; try done.
  destruct (blank (Some b) || blank (Some k)); [done|]. cbn [orb].
  destruct (tx b k) as [status result]. cbn [fst snd].
  by destruct (String.eqb status "SUCCEEDED").
Qed.

Lemma extract_nested_document_dict field name content_key (holder : dict) r :
  extract_nested_document tx field name content_key (VDict holder, r) =
  Ok (VDict (filled tx field content_key holder), tallied tx field name holder r).
Proof.
  unfold extract_nested_document, filled, tallied. cbn [str_in mbind res_bind].
  destruct (holder !! KStr field) as [s3_uri|] eqn:E.
  - rewrite bool_decide_eq_true_2 by eauto. cbn [getitem hashable]. rewrite E.
    cbn [mbind res_bind]. rewrite extract_document_spec.
    by destruct (extracted tx s3_uri).
  - by rewrite bool_decide_eq_false_2 by (by intros [? ?]).
Qed.

Lemma extract_main_document_dict (docs : dict) doc_key content_key student r :
  extract_main_document tx (VDict docs) doc_key content_key (student, r) =
  Ok (match docs !! KStr doc_key with
      | Some s3_uri =>
          match extracted tx s3_uri with
          | Some text => <[KStr content_key := VStr text]> student
          | None => student
          end
      | None => student
      end, tallied tx doc_key doc_key docs r).
Proof.
  unfold extract_main_document, tallied. cbn [str_in mbind res_bind].
  destruct (docs !! KStr doc_key) as [s3_uri|] eqn:E.
  - rewrite bool_decide_eq_true_2 by eauto. cbn [getitem hashable]. rewrite E.
    cbn [mbind res_bind fst snd]. rewrite extract_document_spec.
    by destruct (extracted tx s3_uri).
  - by rewrite bool_decide_eq_false_2 by (by intros [? ?]).
Qed.

(** *** The steps on mappings *)

Lemma tallied_counts field name (holder : dict) r :
  attempted (tallied tx field name holder r) =
    attempted r + locators_at (VDict holder) field /\
  length (skipped (tallied tx field name holder r)) =
    length (skipped r) + empty_at (VDict holder) field.
Proof.
  unfold tallied, locators_at, empty_at, field_of, tally, attempted.
  destruct (holder !! KStr field) as [u|]; [|simpl; lia].
  destruct (truthy u); cbn [negb]; [destruct (extraction_fails tx u)|];
    simpl; rewrite ?length_app; simpl; lia.
Qed.

Lemma filled_lookup_ne field content_key (holder : dict) k :
  k <> KStr content_key -> filled tx field content_key holder !! k = holder !! k.
Proof.
  intros H. unfold filled. destruct (holder !! KStr field) as [u|]; [|done].
  destruct (extracted tx u); [|done]. by rewrite lookup_insert_ne.
Qed.

Lemma locators_at_filled field content_key (holder : dict) f :
  f <> content_key ->
  locators_at (VDict (filled tx field content_key holder)) f = locators_at (VDict holder) f.
Proof.
  intros H. unfold locators_at, field_of. by rewrite filled_lookup_ne by congruence.
Qed.

Lemma empty_at_filled field content_key (holder : dict) f :
  f <> content_key ->
  empty_at (VDict (filled tx field content_key holder)) f = empty_at (VDict holder) f.
Proof.
  intros H. unfold empty_at, field_of. by rewrite filled_lookup_ne by congruence.
Qed.

(** *** Main documents *)

Lemma extract_main_loop_dict (docs : dict) mapping : forall student r,
  exists r',
    extract_main_loop tx (VDict docs) mapping (student, r) =
      (fold_left (main_filled tx docs) mapping student, r') /\
    attempted r' =
      attempted r +
      sum_list (List.map (fun e : string * string => locators_at (VDict docs) e.1) mapping) /\
    length (skipped r') =
      length (skipped r) +
      sum_list (List.map (fun e : string * string => empty_at (VDict docs) e.1) mapping).
Proof.
  induction mapping as [|[doc_key content_key] mapping IH]; intros student r.
  - exists r. simpl. split_and!; [done|lia|lia].
  - cbn [extract_main_loop]. rewrite extract_main_document_dict.
    destruct (IH (main_filled tx docs student (doc_key, content_key))
                 (tallied tx doc_key doc_key docs r)) as (r' & E & Ha & Hs).
    exists r'. split_and!.
    + exact E.
    + rewrite Ha. destruct (tallied_counts doc_key doc_key docs r) as [-> _].
      simpl. lia.
    + rewrite Hs. destruct (tallied_counts doc_key doc_key docs r) as [_ ->].
      simpl. lia.
Qed.

Lemma fold_main_filled_empty mapping student :
  fold_left (main_filled tx ∅) mapping student = student.
Proof.
  induction mapping as [|e mapping IH]; [done|]. cbn [fold_left].
  unfold main_filled at 2. by rewrite lookup_empty.
Qed.

Lemma sum_list_zero {A} (f : A -> nat) (l : list A) :
  (forall x, f x = 0%nat) -> sum_list (List.map f l) = 0%nat.
Proof. intros H. induction l; simpl; [done|]. rewrite H. done. Qed.

Lemma main_documents_expected student r :
  from_option is_dict true (student !! KStr "documents") = true ->
  exists r',
    (if bool_decide (is_Some (student !! KStr "documents"))
     then _extract_main_documents tx (student, r) else (student, r)) =
      (documents_filled tx student, r') /\
    attempted r' =
      attempted r +
      sum_list (List.map (fun e : string * string =>
                            locators_at (section_of student "documents") e.1)
                         document_mapping) /\
    length (skipped r') =
      length (skipped r) +
      sum_list (List.map (fun e : string * string =>
                            empty_at (section_of student "documents") e.1)
                         document_mapping).
Proof.
  unfold _extract_main_documents, documents_filled, section_of. cbn [fst].
  destruct (student !! KStr "documents") as [[| | | | |docs]|] eqn:E; try done; intros _.
  - rewrite bool_decide_eq_true_2 by eauto. cbn [from_option id truthy].
    case_bool_decide as Hd; cbn [negb].
    + subst docs. exists r. rewrite fold_main_filled_empty.
      rewrite !sum_list_zero by done. split_and!; [done|lia|lia].
    + apply extract_main_loop_dict.
  - rewrite bool_decide_eq_false_2 by (by intros [? ?]). exists r.
    rewrite !sum_list_zero by done. split_and!; [done|lia|lia].
Qed.

(** *** Nested documents *)

Lemma personal_expected student r :
  from_option is_dict true (student !! KStr "personal_information") = true ->
  exists r',
    attempt (extract_personal tx) (student, r) = Continue (personal_filled tx student, r') /\
    attempted r' =
      attempted r +
      locators_at (section_of student "personal_information") "government_id_document" /\
    length (skipped r') =
      length (skipped r) +
      empty_at (section_of student "personal_information") "government_id_document".
Proof.
  unfold attempt, extract_personal, personal_filled, section_of. cbn [fst snd].
  destruct (student !! KStr "personal_information") as [[| | | | |p]|] eqn:E; try done;
    intros _; cbn [from_option id].
  - rewrite extract_nested_document_dict. cbn [mbind res_bind fst snd].
    rewrite bool_decide_eq_true_2 by eauto. eexists. split; [done|].
    apply tallied_counts.
  - rewrite extract_nested_document_dict. cbn [mbind res_bind fst snd].
    rewrite bool_decide_eq_false_2 by (by intros [? ?]). eexists. split; [done|].
    pose proof (tallied_counts "government_id_document"
                  "personal_information.government_id" ∅ r) as H.
    unfold locators_at, empty_at, field_of in H. rewrite lookup_empty in H. exact H.
Qed.

Lemma extract_project_dict idx (p : dict) r :
  exists r',
    extract_project tx idx (VDict p, r) = Continue (project_filled tx (VDict p), r') /\
    attempted r' =
      attempted r + (locators_at (VDict p) "publication_document" +
                     locators_at (VDict p) "report_document") /\
    length (skipped r') =
      length (skipped r) + (empty_at (VDict p) "publication_document" +
                            empty_at (VDict p) "report_document").
Proof.
  unfold extract_project, attempt. rewrite extract_nested_document_dict.
  cbn [and_then]. rewrite extract_nested_document_dict. eexists. split; [done|].
  match goal with
  | |- context [tallied tx ?f2 ?n2 ?h2 (tallied tx ?f1 ?n1 ?h1 r)] =>
      destruct (tallied_counts f2 n2 h2 (tallied tx f1 n1 h1 r)) as [-> ->];
      destruct (tallied_counts f1 n1 h1 r) as [-> ->]
  end.
  rewrite locators_at_filled, empty_at_filled by done. lia.
Qed.

Lemma extract_work_dict idx (w : dict) r :
  exists r',
    extract_work tx idx (VDict w, r) = Continue (work_filled tx (VDict w), r') /\
    attempted r' =
      attempted r + (locators_at (VDict w) "certificate_document" +
                     locators_at (VDict w) "recommendation_document") /\
    length (skipped r') =
      length (skipped r) + (empty_at (VDict w) "certificate_document" +
                            empty_at (VDict w) "recommendation_document").
Proof.
  unfold extract_work, attempt. rewrite extract_nested_document_dict.
  cbn [and_then]. rewrite extract_nested_document_dict. eexists. split; [done|].
  match goal with
  | |- context [tallied tx ?f2 ?n2 ?h2 (tallied tx ?f1 ?n1 ?h1 r)] =>
      destruct (tallied_counts f2 n2 h2 (tallied tx f1 n1 h1 r)) as [-> ->];
      destruct (tallied_counts f1 n1 h1 r) as [-> ->]
  end.
  rewrite locators_at_filled, empty_at_filled by done. lia.
Qed.

(** A loop whose body succeeds on every mapping runs to its end on a
    list of mappings. *)
Lemma for_entries_dicts
    (body : nat -> value * extraction_results -> progress (value * extraction_results))
    (done_ : value -> value) (a e : value -> nat) (l : list value) :
  (forall idx (d : dict) r, exists r',
      body idx (VDict d, r) = Continue (done_ (VDict d), r') /\
      attempted r' = attempted r + a (VDict d) /\
      length (skipped r') = length (skipped r) + e (VDict d)) ->
  forallb is_dict l = true ->
  forall idx r, exists r',
    for_entries body idx l r = Continue (done_ <$> l, r') /\
    attempted r' =
      attempted r + sum_list (List.map (fun x : nat * value => a x.2) (enumerate_from idx l)) /\
    length (skipped r') =
      length (skipped r) +
      sum_list (List.map (fun x : nat * value => e x.2) (enumerate_from idx l)).
Proof.
  intros Hbody. induction l as [|x l IH]; intros Hl idx r.
  - exists r. simpl. split_and!; [done|lia|lia].
  - simpl in Hl. apply andb_true_iff in Hl as [Hx Hl]. destruct x; try done.
    destruct (Hbody idx d r) as (r1 & E1 & Ha1 & Hs1).
    destruct (IH Hl (S idx) r1) as (r2 & E2 & Ha2 & Hs2).
    exists r2. cbn [for_entries]. rewrite E1, E2. cbn [on_state fst snd].
    split_and!; [done|simpl; lia|simpl; lia].
Qed.

Lemma research_expected student r :
  match student !! KStr "research_experience" with
  | None => true
  | Some (VDict research_exp) =>
      match research_exp !! KStr "projects" with
      | None => true
      | Some (VList projects) => forallb is_dict projects
      | Some _ => false
      end
  | Some _ => false
  end = true ->
  exists r',
    extract_research tx (student, r) = Continue (research_filled tx student, r') /\
    attempted r' =
      attempted r +
      sum_list (List.map (fun x : nat * value =>
                            locators_at x.2 "publication_document" +
                            locators_at x.2 "report_document") (projects_of student)) /\
    length (skipped r') =
      length (skipped r) +
      sum_list (List.map (fun x : nat * value =>
                            empty_at x.2 "publication_document" +
                            empty_at x.2 "report_document") (projects_of student)).
Proof.
  unfold extract_research, research_filled, projects_of, section_of, field_of.
  cbn [fst snd].
  destruct (student !! KStr "research_experience") as [[| | | | |re]|] eqn:E; try done;
    cbn [from_option id get].
  - destruct (re !! KStr "projects") as [[| | | |ps|]|] eqn:Ep; try done;
      cbn [from_option id]; intros Hps.
    + unfold extract_section. cbn [iter].
      destruct (for_entries_dicts (extract_project tx) (project_filled tx)
                  (fun x => locators_at x "publication_document" +
                            locators_at x "report_document")
                  (fun x => empty_at x "publication_document" +
                            empty_at x "report_document") ps
                  (fun idx d r => extract_project_dict idx d r) Hps 0%nat r)
        as (r' & Ef & Ha & Hs).
      rewrite Ef. cbn [on_state fst snd]. rewrite bool_decide_eq_true_2 by eauto.
      exists r'. done.
    + unfold extract_section. cbn [iter for_entries on_state fst snd entries_of].
      rewrite bool_decide_eq_false_2 by (by intros [? ?]).
      exists r. simpl. split_and!; [done|lia|lia].
  - intros _. rewrite lookup_empty. cbn [from_option id].
    unfold extract_section. cbn [iter for_entries on_state fst snd entries_of].
    exists r. simpl. split_and!; [done|lia|lia].
Qed.

Lemma work_experience_expected student r :
  match student !! KStr "work_experience" with
  | None => true
  | Some (VList work_experiences) => forallb is_dict work_experiences
  | Some _ => false
  end = true ->
  exists r',
    extract_work_experience tx (student, r) =
      Continue (work_experience_filled tx student, r') /\
    attempted r' =
      attempted r +
      sum_list (List.map (fun x : nat * value =>
                            locators_at x.2 "certificate_document" +
                            locators_at x.2 "recommendation_document") (work_of student)) /\
    length (skipped r') =
      length (skipped r) +
      sum_list (List.map (fun x : nat * value =>
                            empty_at x.2 "certificate_document" +
                            empty_at x.2 "recommendation_document") (work_of student)).
Proof.
  unfold extract_work_experience, work_experience_filled, work_of, section_of.
  cbn [fst snd].
  destruct (student !! KStr "work_experience") as [[| | | |ws|]|] eqn:E; try done;
    cbn [from_option id]; intros Hws.
  - unfold extract_section. cbn [iter].
    destruct (for_entries_dicts (extract_work tx) (work_filled tx)
                (fun x => locators_at x "certificate_document" +
                          locators_at x "recommendation_document")
                (fun x => empty_at x "certificate_document" +
                          empty_at x "recommendation_document") ws
                (fun idx d r => extract_work_dict idx d r) Hws 0%nat r)
      as (r' & Ef & Ha & Hs).
    rewrite Ef. cbn [on_state fst snd]. rewrite bool_decide_eq_true_2 by eauto.
    exists r'. done.
  - unfold extract_section. cbn [iter for_entries on_state fst snd entries_of].
    rewrite bool_decide_eq_false_2 by (by intros [? ?]).
    exists r. simpl. split_and!; [done|lia|lia].
Qed.

(** *** The whole extraction *)

Lemma fold_main_filled_lookup (docs : dict) mapping k :
  forallb (fun e : string * string => negb (String.eqb e.2 k)) mapping = true ->
  forall student, fold_left (main_filled tx docs) mapping student !! KStr k =
                  student !! KStr k.
Proof.
  induction mapping as [|e mapping IH]; intros H student; [done|].
  cbn [forallb] in H. apply andb_true_iff in H as [He H]. cbn [fold_left].
  rewrite IH by done. unfold main_filled.
  destruct (docs !! KStr e.1) as [u|]; [|done]. destruct (extracted tx u); [|done].
  apply lookup_insert_ne. intros [= Hk]. by rewrite Hk, String.eqb_refl in He.
Qed.

Lemma documents_filled_lookup student k :
  forallb (fun e : string * string => negb (String.eqb e.2 k)) document_mapping = true ->
  documents_filled tx student !! KStr k = student !! KStr k.
Proof.
  intros H. unfold documents_filled.
  destruct (student !! KStr "documents") as [[| | | | |docs]|]; try done.
  by apply fold_main_filled_lookup.
Qed.

Lemma personal_filled_lookup student k :
  k <> KStr "personal_information" -> personal_filled tx student !! k = student !! k.
Proof.
  intros H. unfold personal_filled.
  destruct (student !! KStr "personal_information") as [[| | | | |p]|]; try done.
  by rewrite lookup_insert_ne.
Qed.

Lemma research_filled_lookup student k :
  k <> KStr "research_experience" -> research_filled tx student !! k = student !! k.
Proof.
  intros H. unfold research_filled.
  destruct (student !! KStr "research_experience") as [[| | | | |re]|]; try done.
  destruct (re !! KStr "projects") as [[| | | |ps|]|]; try done.
  by rewrite lookup_insert_ne.
Qed.

(** On a record of the expected shape the extraction runs to its end,
    stores what is expected and handles every locator field once. *)
Lemma extract_all_expected student :
  well_shaped student = true ->
  exists r,
    extract_all tx student = (extraction_expected tx student, r) /\
    attempted r = locator_count student /\
    length (skipped r) = empty_count student.
Proof.
  unfold well_shaped. rewrite !andb_true_iff. intros [[[Hdocs Hpers] Hres] Hwork].
  unfold extract_all, _extract_nested_documents, extraction_expected.
  destruct (main_documents_expected student (Tallies [] [] []) Hdocs)
    as (r1 & -> & Ha1 & Hs1).
  set (s1 := documents_filled tx student).
  assert (Hp1 : s1 !! KStr "personal_information" = student !! KStr "personal_information")
    by (by apply documents_filled_lookup).
  assert (Hr1 : s1 !! KStr "research_experience" = student !! KStr "research_experience")
    by (by apply documents_filled_lookup).
  assert (Hw1 : s1 !! KStr "work_experience" = student !! KStr "work_experience")
    by (by apply documents_filled_lookup).
  destruct (personal_expected s1 r1) as (r2 & -> & Ha2 & Hs2); [by rewrite Hp1|].
  cbn [and_then]. set (s2 := personal_filled tx s1).
  assert (Hr2 : s2 !! KStr "research_experience" = student !! KStr "research_experience")
    by (unfold s2; by rewrite personal_filled_lookup).
  assert (Hw2 : s2 !! KStr "work_experience" = student !! KStr "work_experience")
    by (unfold s2; by rewrite personal_filled_lookup).
  destruct (research_expected s2 r2) as (r3 & -> & Ha3 & Hs3); [by rewrite Hr2|].
  cbn [and_then]. set (s3 := research_filled tx s2).
  assert (Hw3 : s3 !! KStr "work_experience" = student !! KStr "work_experience")
    by (unfold s3; by rewrite research_filled_lookup).
  destruct (work_experience_expected s3 r3) as (r4 & -> & Ha4 & Hs4); [by rewrite Hw3|].
  cbn [state_of]. exists r4. split; [done|].
  unfold locator_count, empty_count.
  unfold projects_of, work_of, section_of in *.
  rewrite Hp1 in Ha2, Hs2. rewrite Hr2 in Ha3, Hs3. rewrite Hw3 in Ha4, Hs4.
  change (attempted (Tallies [] [] [])) with 0%nat in Ha1.
  change (length (skipped (Tallies [] [] []))) with 0%nat in Hs1.
  unfold attempted in *. lia.
Qed.

(** X2: on a record of the data model's shape the sequential extraction
    handles every locator field exactly once: the documents it reports
    as extracted or failed are as many as the present, non-empty
    locators, which are the documents the resolver lists, and those it
    reports as skipped are as many as the locator fields that are
    present but empty. *)
Theorem sequential_tallies_every_locator (student : dict) :
  well_shaped student = true ->
  let r := (extract_all tx student).2 in
  length (successful r) + length (failed r) = locator_count student /\
  length (successful r) + length (failed r) =
    length (expected_documents (VStr "") student) /\
  length (skipped r) = empty_count student.
Proof.
  intros H r. destruct (extract_all_expected student H) as (r' & E & Ha & Hs).
  unfold r. rewrite E. cbn [snd]. rewrite ResolverFacts.expected_documents_length.
  unfold attempted in Ha. done.
Qed.

End Facts.

Lemma sequential_tallies_every_locator_witness :
  let r := (extract_all Samples.unavailable Samples.application).2 in
  well_shaped Samples.application = true /\
  length (successful r) + length (failed r) = 2%nat /\
  length (skipped r) = 1%nat.
Proof.
  intros r. split; [reflexivity|].
  destruct (sequential_tallies_every_locator Samples.unavailable Samples.application)
    as (H1 & _ & H2); [reflexivity|].
  split; [exact H1|exact H2].
Defined.

End SequentialFacts.

(** ** Submitting, reading and listing records *)

Module RecordsFacts.
Import ExtractionUnit ExtractionFacts PathFacts Records.

Lemma get_application_flow_found (data : dict) id (student : dict) (t : table) :
  data !! KStr "application_id" = Some (VStr id) ->
  id <> "" -> t !! id = Some student -> student <> ∅ ->
  get_application_flow data t = (true, VDict student).
Proof.
  intros Hd Hid%eqb_empty Ht Hs. unfold get_application_flow. rewrite Hd.
  cbn [from_option Datatypes.id truthy dynamodb_get_item]. rewrite Hid. cbn [negb].
  rewrite Ht. cbn [missing]. by rewrite bool_decide_eq_false_2.
Qed.

Lemma application_data_id (application_id : value) (form : dict) :
  application_data application_id form !! KStr "application_id" =
  Some (default application_id (form !! KStr "application_id")).
Proof.
  unfold application_data. rewrite lookup_insert_ne by done.
  case_bool_decide as H.
  - destruct H as [v Hv]. by rewrite Hv.
  - rewrite lookup_insert_eq. destruct (form !! KStr "application_id"); [|done].
    exfalso. eauto.
Qed.

Lemma application_data_storable (id : string) (form : dict) :
  storable (VDict form) = true -> storable (VDict (application_data (VStr id) form)) = true.
Proof.
  intros H. unfold application_data. apply LifecycleFacts.storable_insert; [|done].
  case_bool_decide; [done|]. by apply LifecycleFacts.storable_insert.
Qed.

Lemma submit_application_flow_stored (data : dict) (id key : string) (form : dict)
    (t : table) :
  data !! KStr "application_id" = Some (VStr id) ->
  data !! KStr "application_form" = Some (VDict form) ->
  id <> "" -> form <> ∅ ->
  default (VStr id) (form !! KStr "application_id") = VStr key -> key <> "" ->
  storable (VDict form) = true ->
  submit_application_flow data t =
  (<[key := application_data (VStr id) form]> t,
   (true, VStr "Application submitted successfully")).
Proof.
  intros Hd Hf Hid%eqb_empty Hform Hkey Hk%eqb_empty Hst.
  unfold submit_application_flow. rewrite Hd, Hf.
  cbn [from_option Datatypes.id truthy]. rewrite Hid. cbn [negb].
  rewrite bool_decide_eq_false_2 by done. cbn [negb].
  unfold dynamodb_put_item.
  rewrite bool_decide_eq_false_2 by (unfold application_data; apply insert_non_empty).
  rewrite application_data_id, Hkey, Hk.
  by rewrite application_data_storable.
Qed.

(** X3: an application submitted with a form that carries no
    [application_id] of its own is stored under the requested id with the
    status New and the requested id added, whatever was stored there
    before; reading that id back returns exactly this record, and no other
    record of the table changes. *)
Theorem submit_then_get (data data' : dict) (id : string) (form : dict) (t : table) :
  data !! KStr "application_id" = Some (VStr id) ->
  data !! KStr "application_form" = Some (VDict form) ->
  data' !! KStr "application_id" = Some (VStr id) ->
  id <> "" -> form <> ∅ ->
  form !! KStr "application_id" = None ->
  storable (VDict form) = true ->
  let r := submit_application_flow data t in
  r.2.1 = true /\
  get_application_flow data' r.1 =
    (true, VDict (<[KStr "application_status" := VStr "New"]>
                    (<[KStr "application_id" := VStr id]> form))) /\
  (forall id', id' <> id -> r.1 !! id' = t !! id').
Proof.
  intros Hd Hf Hd' Hid Hform Hnone Hst r. unfold r.
  rewrite (submit_application_flow_stored data id id form t) by (by rewrite ?Hnone).
  cbn [fst snd]. split_and!; [done| |].
  - rewrite (get_application_flow_found data' id (application_data (VStr id) form));
      [|done|done|by rewrite lookup_insert_eq|apply insert_non_empty].
    unfold application_data. rewrite bool_decide_eq_false_2; [done|].
    rewrite Hnone. by intros [? ?].
  - intros id' Hne. by rewrite lookup_insert_ne.
Qed.

Lemma submit_then_get_witness :
  let form : dict := <[KStr "documents" := obj [("sop", VStr "s3://bucket/sop.pdf")]]> ∅ in
  let data : dict := <[KStr "application_id" := VStr "A1"]>
                       (<[KStr "application_form" := VDict form]> ∅) in
  get_application_flow Samples.request
    (submit_application_flow data Samples.applications_table).1 =
    (true, VDict (<[KStr "application_status" := VStr "New"]>
                    (<[KStr "application_id" := VStr "A1"]> form))).
Proof.
  intros form data.
  apply (submit_then_get data Samples.request "A1" form Samples.applications_table);
    try reflexivity; [done|apply insert_non_empty].
Defined.

(** X4: a form that carries an [application_id] of its own is stored
    under that id, not under the requested one: the flow reports success,
    the record is found under the form's id with the status New, and
    what the table holds under the requested id is as it was. *)
Theorem submit_keeps_form_id (data : dict) (id own : string) (form : dict) (t : table) :
  data !! KStr "application_id" = Some (VStr id) ->
  data !! KStr "application_form" = Some (VDict form) ->
  id <> "" ->
  form !! KStr "application_id" = Some (VStr own) ->
  own <> "" -> own <> id ->
  storable (VDict form) = true ->
  let r := submit_application_flow data t in
  r.2.1 = true /\
  r.1 !! own = Some (<[KStr "application_status" := VStr "New"]> form) /\
  r.1 !! id = t !! id.
Proof.
  intros Hd Hf Hid Hown Hne Hdiff Hst r. unfold r.
  assert (form <> ∅) as Hform by (intros ->; by rewrite lookup_empty in Hown).
  rewrite (submit_application_flow_stored data id own form t) by (by rewrite ?Hown).
  cbn [fst snd]. split_and!; [done| |].
  - rewrite lookup_insert_eq. unfold application_data.
    by rewrite bool_decide_eq_true_2 by eauto.
  - by rewrite lookup_insert_ne.
Qed.

Lemma submit_keeps_form_id_witness :
  let form : dict := <[KStr "application_id" := VStr "B7"]> ∅ in
  let data : dict := <[KStr "application_id" := VStr "A9"]>
                       (<[KStr "application_form" := VDict form]> ∅) in
  let r := submit_application_flow data ∅ in
  r.2.1 = true /\
  r.1 !! "B7" = Some (<[KStr "application_status" := VStr "New"]> form) /\
  r.1 !! "A9" = (∅ : table) !! "A9".
Proof.
  intros form data r.
  apply (submit_keeps_form_id data "A9" "B7" form ∅); try reflexivity; done.
Defined.

(** *** Dotted paths *)

Lemma split_not_nil c s : split c s <> [].
Proof.
  destruct s as [|a s]; [done|]. simpl. destruct (Ascii.eqb a c); [done|].
  by destruct (split c s).
Qed.

Lemma split_concat c p q : split c (p +:+ String c q) = (split c p ++ split c q)%list.
Proof.
  induction p as [|a p IH].
  - rewrite app_nil. simpl. by rewrite Ascii.eqb_refl.
  - rewrite app_cons. cbn [split]. rewrite IH. destruct (Ascii.eqb a c); [done|].
    pose proof (split_not_nil c p). by destruct (split c p).
Qed.

Lemma descend_none keys : keys <> [] -> descend keys VNone = VNone.
Proof. by destruct keys. Qed.

Lemma descend_app keys1 keys2 : keys2 <> [] ->
  forall v, descend (keys1 ++ keys2) v = descend keys2 (descend keys1 v).
Proof.
  intros H. induction keys1 as [|k keys1 IH]; intros v; [done|].
  cbn [app descend]. destruct v; try (by rewrite descend_none).
  destruct (d !! KStr k); [apply IH|by rewrite descend_none].
Qed.

(** X5: the lookup by dotted path of the combined listing composes:
    following [p.q] is following [p] and then [q] from what was found; a
    path without a dot is a plain lookup in a mapping; and from anything
    that is not a mapping every path leads to None. *)
Theorem get_nested_value_compose (obj : value) (p q : string) :
  get_nested_value obj (VStr (p +:+ "." +:+ q)) =
    get_nested_value (get_nested_value obj (VStr p)) (VStr q) /\
  (forall d : dict, has_char "." p = false ->
     get_nested_value (VDict d) (VStr p) = default VNone (d !! KStr p)) /\
  (Resolver.is_dict obj = false -> get_nested_value obj (VStr p) = VNone).
Proof.
  split_and!.
  - unfold get_nested_value. change ("." +:+ q) with (String "." q).
    rewrite split_concat. apply descend_app, split_not_nil.
  - intros d H. unfold get_nested_value. rewrite split_no_char by done.
    cbn [descend]. by destruct (d !! KStr p).
  - intros H. unfold get_nested_value. pose proof (split_not_nil "." p).
    destruct (split "." p); [done|]. by destruct obj.
Qed.

Lemma get_nested_value_compose_witness :
  get_nested_value (VDict Samples.application) (VStr "documents.transcript") =
  VStr "s3://bucket/t.pdf".
Proof.
  etransitivity;
    [apply (proj1 (get_nested_value_compose (VDict Samples.application)
                     "documents" "transcript"))
    |vm_compute; reflexivity].
Defined.

(** *** The combined listing *)

Lemma extract_by_paths_union (fields record combined_record : dict) :
  extract_by_paths fields record combined_record =
  (get_nested_value (VDict record) <$> fields) ∪ combined_record.
Proof.
  unfold extract_by_paths.
  apply (map_fold_weak_ind
           (fun r (m : dict) => r = (get_nested_value (VDict record) <$> m) ∪ combined_record)).
  - by rewrite fmap_empty, (left_id_L ∅ (∪)).
  - intros k x m r _ ->. by rewrite fmap_insert, insert_union_l.
Qed.

Lemma eval_lookup_keyed (l : list (string * dict)) :
  Forall (fun kv : string * dict => kv.2 !! KStr "application_id" = Some (VStr kv.1)) l ->
  NoDup (List.map fst l) ->
  forall acc : gmap key dict,
  exists m,
    foldM (fun lookup eval_record =>
             match hashable (default VNone (eval_record !! KStr "application_id")) with
             | Some k => Ok (<[k := eval_record]> lookup)
             | None => Raise TypeError
             end) acc (List.map snd l) = Ok m /\
    forall id, m !! KStr id =
               match (list_to_map l : table) !! id with
               | Some x => Some x
               | None => acc !! KStr id
               end.
Proof.
  induction l as [|[i x] l IH]; intros Hk Hnd acc.
  - exists acc. split; [done|]. intros id. cbn [list_to_map foldr].
    by rewrite lookup_empty.
  - inversion Hk as [|? ? Hx Hl]; subst. inversion Hnd as [|? ? Hi Hnd']; subst.
    cbn [List.map foldM fst snd] in *. rewrite Hx. cbn [from_option Datatypes.id hashable mbind res_bind].
    destruct (IH Hl Hnd' (<[KStr i := x]> acc)) as (m & -> & Hm).
    exists m. split; [done|]. intros id. rewrite Hm. cbn [list_to_map foldr].
    destruct (decide (id = i)) as [->|Hne].
    + rewrite !lookup_insert_eq.
      by rewrite (not_elem_of_list_to_map_1 (M := gmap string)) by exact Hi.
    + rewrite lookup_insert_ne by (simpl; congruence).
      by rewrite lookup_insert_ne by (simpl; congruence).
Qed.

Lemma for_each_map {A B C} (f : B -> res C) (g : A -> C) (h : A -> B) (l : list A) :
  Forall (fun x => f (h x) = Ok (g x)) l ->
  for_each f (List.map h l) = Ok (List.map g l).
Proof.
  induction 1 as [|x l Hx _ IH]; [done|]. cbn [List.map for_each].
  rewrite Hx. cbn [mbind res_bind]. by rewrite IH.
Qed.

Lemma get_nested_value_empty path : get_nested_value (VDict ∅) path = VNone.
Proof.
  destruct path; try done. unfold get_nested_value.
  pose proof (split_not_nil "." s). destruct (split "." s); [done|].
  cbn [descend]. by rewrite lookup_empty.
Qed.

(** X6: with the default fields, the combined listing gives one row
    per application, in scan order: the six application fields read from
    the application and the four evaluation fields read from the
    evaluation stored under the same id; for an application without
    evaluation the four evaluation fields are None. *)
Theorem list_applicants_v2_joins (data : value) (applications evaluations : table) :
  keyed applications -> keyed evaluations ->
  data = VNone \/
  (exists d : dict, data = VDict d /\ d !! KStr "application_fields" = None /\
                    d !! KStr "evaluation_fields" = None) ->
  let rows := List.map (fun kv : string * dict =>
                          default_row kv.2 (default ∅ (evaluations !! kv.1)))
                       (map_to_list applications) in
  list_applicants_v2_flow data applications evaluations = (true, items_value rows) /\
  length rows = size applications /\
  (forall (app : dict) k, is_Some (default_eval_fields !! k) ->
     default_row app ∅ !! k = Some VNone).
Proof.
  intros Happs Hevals Hdata rows. split_and!.
  - unfold list_applicants_v2_flow, list_applicants_v2_body.
    assert (get (if truthy data then data else VDict ∅) "application_fields"
              (VDict default_app_fields) = Ok (VDict default_app_fields) /\
            get (if truthy data then data else VDict ∅) "evaluation_fields"
              (VDict default_eval_fields) = Ok (VDict default_eval_fields))
      as [-> ->].
    { destruct Hdata as [->|(d & -> & Ha & He)]; [done|].
      cbn [truthy]. case_bool_decide as Hd; cbn [negb get].
      - by rewrite !lookup_empty.
      - by rewrite Ha, He. }
    cbn [mbind res_bind]. unfold dynamodb_get_all_items. cbn [negb].
    unfold eval_lookup.
    destruct (eval_lookup_keyed (map_to_list evaluations)) with (acc := (∅ : gmap key dict))
      as (m & -> & Hm).
    { apply Forall_forall. intros [i x] Hin%elem_of_map_to_list. by apply Hevals. }
    { exact (NoDup_fst_map_to_list evaluations). }
    cbn [mbind res_bind].
    rewrite (for_each_map _ (fun kv : string * dict =>
                               default_row kv.2 (default ∅ (evaluations !! kv.1))) snd).
    { done. }
    apply Forall_forall. intros [i app] Hin%elem_of_map_to_list.
    unfold combined_record. cbn [extract_fields mbind res_bind fst snd].
    rewrite (Happs _ _ Hin). cbn [from_option Datatypes.id hashable].
    rewrite Hm, list_to_map_to_list, lookup_empty. f_equal.
    rewrite !extract_by_paths_union. unfold default_row.
    rewrite (right_id_L ∅ (∪)).
    by destruct (evaluations !! i).
  - unfold rows. by rewrite length_map, length_map_to_list.
  - intros app k [path Hk]. unfold default_row.
    apply lookup_union_Some_l. rewrite lookup_fmap, Hk. cbn [fmap option_fmap option_map].
    by rewrite get_nested_value_empty.
Qed.

Lemma list_applicants_v2_joins_witness :
  list_applicants_v2_flow VNone Samples.applications_table ∅ =
  (true, items_value [default_row Samples.application ∅]).
Proof.
  etransitivity;
    [apply (list_applicants_v2_joins VNone Samples.applications_table ∅)|].
  - intros i x. unfold Samples.applications_table.
    intros [[<- <-]|[_ H]]%lookup_insert_Some; [reflexivity|by rewrite lookup_empty in H].
  - intros i x H. by rewrite lookup_empty in H.
  - by left.
  - unfold Samples.applications_table. by rewrite insert_empty, map_to_list_singleton.
Defined.

End RecordsFacts.

(** ** The parallel pipeline against the sequential flow *)

Module ParallelFacts.
Import ExtractionUnit ExtractionFacts Resolver Consolidator SequentialExtraction.
Import PathFacts WriteBackFacts SequentialFacts.

Section Facts.

Variable textractor_document_analysis : string -> string -> string * string.
Variable application_id : value.
Hypothesis Hid : truthy application_id = true.

Local Abbreviation tx := textractor_document_analysis.

(** The wrapper [w] carries what the extraction unit answers for [task]. *)
Local Abbreviation answers := (fun w task =>
  result_of w =
  Ok (extract_single_document_flow tx (extraction_request application_id task)).2).

Local Abbreviation extractable := (fun task => extraction_fails tx (locator task) = false).

Local Abbreviation tallied_up := (fun (k : nat) (n : summary) =>
  Summary (k + successful n) (failed n) (skipped n)).

Lemma extracted_text s3_uri :
  truthy s3_uri = true -> extraction_fails tx s3_uri = false ->
  exists bucket key,
    parse_s3_uri s3_uri = (Some bucket, Some key) /\
    blank (Some bucket) || blank (Some key) = false /\
    (tx bucket key).1 = "SUCCEEDED" /\
    extracted tx s3_uri = Some (tx bucket key).2.
Proof.
  intros Ht Hf. unfold extracted. rewrite Ht, Hf. cbn [negb].
  unfold extraction_fails in Hf.
  destruct (parse_s3_uri s3_uri) as [[b|] [k|]]; try done.
  apply orb_false_iff in Hf as [Hb Hs]. exists b, k. split_and!; try done.
  apply negb_false_iff in Hs. by apply String.eqb_eq.
Qed.

Lemma answer_of_task (task : dict) s3_uri :
  task <> ∅ -> task !! KStr "s3_uri" = Some s3_uri ->
  truthy s3_uri = true -> extraction_fails tx s3_uri = false ->
  exists text,
    extracted tx s3_uri = Some text /\
    extract_single_document_flow tx (extraction_request application_id (VDict task)) =
    (true, success_outcome application_id (VDict task) text).
Proof.
  intros Hne Hu Ht Hf.
  destruct (extracted_text s3_uri Ht Hf) as (b & k & Hp & Hb & Hs & He).
  exists (tx b k).2. split; [done|].
  unfold extract_single_document_flow, extraction_request.
  rewrite lookup_insert_eq, lookup_insert_ne, lookup_insert_eq by done.
  cbn [from_option Datatypes.id]. unfold extract_single_document_body.
  rewrite Hid. cbn [truthy negb orb]. rewrite bool_decide_eq_false_2 by done.
  cbn [negb get mbind res_bind]. rewrite Hu. cbn [from_option Datatypes.id].
  rewrite Hp, Hb. destruct (tx b k) as [status result]. cbn [fst snd] in *.
  by rewrite Hs.
Qed.

Lemma process_success student n w document text :
  result_of w = Ok (success_outcome application_id document text) ->
  process_result (student, n) w =
  (student ← store_content student document (VStr text);
   Ok (student, tallied_up 1 n)).
Proof. intros H. unfold process_result. rewrite H. reflexivity. Qed.

(** One answered task, when its extraction succeeds. *)
Lemma process_answer student n w (task : dict) s3_uri :
  answers w (VDict task) ->
  task <> ∅ -> task !! KStr "s3_uri" = Some s3_uri ->
  truthy s3_uri = true -> extraction_fails tx s3_uri = false ->
  exists text,
    extracted tx s3_uri = Some text /\
    process_result (student, n) w =
    (student ← store_content student (VDict task) (VStr text);
     Ok (student, tallied_up 1 n)).
Proof.
  intros Hw Hne Hu Ht Hf.
  destruct (answer_of_task task s3_uri Hne Hu Ht Hf) as (text & He & Ha).
  exists text. split; [done|]. apply process_success. by rewrite Hw, Ha.
Qed.

Lemma tallied_up_add a b n : tallied_up a (tallied_up b n) = tallied_up (b + a) n.
Proof. cbn [successful failed skipped]. f_equal. lia. Qed.

Lemma tallied_up_zero n : tallied_up 0 n = n.
Proof. by destruct n. Qed.

(** The task of one locator field, when there is one and it is
    answered: [store] is what the consolidator does with its content. *)
Lemma process_task_for student n ws (holder : dict) field (task : value -> value)
    (store : string -> dict) :
  (forall s3_uri, exists d : dict,
      task s3_uri = VDict d /\ d <> ∅ /\ d !! KStr "s3_uri" = Some s3_uri) ->
  (forall s3_uri text,
      store_content student (task s3_uri) (VStr text) = Ok (store text)) ->
  Forall2 answers ws (task_for (VDict holder) field task) ->
  Forall extractable (task_for (VDict holder) field task) ->
  foldM process_result (student, n) ws =
  Ok (match holder !! KStr field with
      | Some s3_uri =>
          match extracted tx s3_uri with
          | Some text => store text
          | None => student
          end
      | None => student
      end, tallied_up (length ws) n).
Proof.
  intros Htask Hstore Hws Hok. unfold task_for, field_of in *.
  destruct (holder !! KStr field) as [u|].
  - destruct (truthy u) eqn:Ht.
    + inversion Hws as [|w ? ws' ? Hw Hnil]; subst. inversion Hnil; subst.
      inversion Hok as [|? ? Hu _]; subst.
      destruct (Htask u) as (d & Ed & Hne & Hd). rewrite Ed in Hw, Hu.
      cbn [locator] in Hu. rewrite Hd in Hu. cbn [from_option Datatypes.id] in Hu.
      destruct (process_answer student n w d u Hw Hne Hd Ht Hu) as (text & He & Hp).
      cbn [foldM]. rewrite Hp, <- Ed, Hstore, He. reflexivity.
    + inversion Hws; subst. unfold extracted. rewrite Ht. cbn [negb foldM length].
      by rewrite tallied_up_zero.
  - inversion Hws; subst. cbn [foldM length]. by rewrite tallied_up_zero.
Qed.

Lemma main_task_dict doc_key content_key s3_uri :
  exists d : dict,
    main_task application_id doc_key content_key s3_uri = VDict d /\ d <> ∅ /\
    d !! KStr "s3_uri" = Some s3_uri.
Proof. eexists. split; [reflexivity|]. split; [apply insert_non_empty|reflexivity]. Qed.

Lemma nested_task_dict document_key content_key parent_path s3_uri :
  exists d : dict,
    nested_task application_id document_key content_key s3_uri parent_path = VDict d /\
    d <> ∅ /\ d !! KStr "s3_uri" = Some s3_uri.
Proof. eexists. split; [reflexivity|]. split; [apply insert_non_empty|reflexivity]. Qed.

(** *** Main documents *)

Lemma main_parallel (docs : dict) mapping :
  Forall (fun e : string * string => e.2 <> "") mapping ->
  forall student n ws,
  Forall2 answers ws
    (flat_map (fun e : string * string =>
                 task_for (VDict docs) e.1 (main_task application_id e.1 e.2)) mapping) ->
  Forall extractable
    (flat_map (fun e : string * string =>
                 task_for (VDict docs) e.1 (main_task application_id e.1 e.2)) mapping) ->
  foldM process_result (student, n) ws =
  Ok (fold_left (main_filled tx docs) mapping student, tallied_up (length ws) n).
Proof.
  induction 1 as [|[dk ck] mapping Hck _ IH]; intros student n ws Hws Hok.
  - inversion Hws; subst. cbn [foldM fold_left length]. by rewrite tallied_up_zero.
  - cbn [flat_map fst snd] in *.
    apply Forall2_app_inv_r in Hws as (ws1 & ws2 & H1 & H2 & ->).
    apply Forall_app in Hok as [Hok1 Hok2].
    rewrite WriteFacts.foldM_app.
    rewrite (process_task_for student n ws1 docs dk
               (main_task application_id dk ck)
               (fun text => <[KStr ck := VStr text]> student));
      [|intros; apply main_task_dict| |done|done].
    2: { intros u text. rewrite ConsolidatorFacts.store_content_decode.
         by rewrite decode_main_task. }
    cbn [mbind res_bind fold_left]. rewrite (IH _ _ _ H2 Hok2).
    rewrite tallied_up_add, length_app. reflexivity.
Qed.

(** *** The entries of a section *)

Section Entries.

(** The list that the record holds in the section, and the record with
    another list in its place. *)
Variable holds : dict -> list value -> Prop.
Variable put_list : list value -> dict -> dict.
Variable path : nat -> string.
Variables field1 content_key1 field2 content_key2 : string.
Variables document_key1 document_key2 : nat -> string.

Hypothesis holds_put : forall l l0 s, holds s l0 -> holds (put_list l s) l.
Hypothesis put_put : forall l l' s, put_list l' (put_list l s) = put_list l' s.
Hypothesis put_held : forall l s, holds s l -> put_list l s = s.
Hypothesis store_entry :
  forall s l idx (entry : dict) document_key content_key s3_uri content,
    holds s l -> l !! idx = Some (VDict entry) ->
    store_content s
      (nested_task application_id document_key content_key s3_uri (path idx)) content =
    Ok (put_list (<[idx := VDict (<[KStr content_key := content]> entry)]> l) s).
Hypothesis fields_apart : field2 <> content_key1.

Local Abbreviation entry_tasks := (fun (x : nat * value) =>
  (task_for x.2 field1
     (fun uri => nested_task application_id (document_key1 x.1) content_key1 uri
                   (path x.1)) ++
   task_for x.2 field2
     (fun uri => nested_task application_id (document_key2 x.1) content_key2 uri
                   (path x.1)))%list).

Local Abbreviation entry_filled := (fun x : value =>
  match x with
  | VDict d => VDict (filled tx field2 content_key2 (filled tx field1 content_key1 d))
  | _ => x
  end).

Lemma field_parallel s l idx (entry : dict) field document_key content_key n ws :
  holds s l -> l !! idx = Some (VDict entry) ->
  Forall2 answers ws
    (task_for (VDict entry) field
       (fun uri => nested_task application_id document_key content_key uri (path idx))) ->
  Forall extractable
    (task_for (VDict entry) field
       (fun uri => nested_task application_id document_key content_key uri (path idx))) ->
  foldM process_result (s, n) ws =
  Ok (put_list (<[idx := VDict (filled tx field content_key entry)]> l) s,
      tallied_up (length ws) n).
Proof.
  intros Hs Hl Hws Hok.
  rewrite (process_task_for s n ws entry field
             (fun uri => nested_task application_id document_key content_key uri (path idx))
             (fun text => put_list (<[idx := VDict (<[KStr content_key := VStr text]> entry)]> l) s));
    [|intros; apply nested_task_dict| |done|done].
  2: { intros u text. by apply store_entry. }
  f_equal. f_equal. unfold filled.
  destruct (entry !! KStr field) as [u|];
    [destruct (extracted tx u)|]; try done;
    by rewrite list_insert_id, put_held.
Qed.

Lemma entry_parallel s l idx (entry : dict) n ws :
  holds s l -> l !! idx = Some (VDict entry) ->
  Forall2 answers ws (entry_tasks (idx, VDict entry)) ->
  Forall extractable (entry_tasks (idx, VDict entry)) ->
  foldM process_result (s, n) ws =
  Ok (put_list (<[idx := entry_filled (VDict entry)]> l) s, tallied_up (length ws) n).
Proof.
  intros Hs Hl Hws Hok. cbn [fst snd] in *.
  apply Forall2_app_inv_r in Hws as (ws1 & ws2 & H1 & H2 & ->).
  apply Forall_app in Hok as [Hok1 Hok2].
  rewrite WriteFacts.foldM_app.
  rewrite (field_parallel s l idx entry field1 _ content_key1 n ws1 Hs Hl H1 Hok1).
  cbn [mbind res_bind].
  set (e1 := filled tx field1 content_key1 entry).
  assert (Hlt : (idx < length l)%nat) by (by eapply lookup_lt_Some).
  assert (He : e1 !! KStr field2 = entry !! KStr field2).
  { apply filled_lookup_ne. congruence. }
  assert (Htasks : forall task,
             task_for (VDict e1) field2 task = task_for (VDict entry) field2 task).
  { intros task. unfold task_for, field_of. by rewrite He. }
  rewrite (field_parallel _ (<[idx := VDict e1]> l) idx e1 field2
             (document_key2 idx) content_key2 _ ws2).
  - rewrite put_put, list_insert_insert_eq, tallied_up_add, length_app. reflexivity.
  - by eapply holds_put.
  - by apply list_lookup_insert_eq.
  - by rewrite Htasks.
  - by rewrite Htasks.
Qed.

Lemma entries_parallel todo : forall done_ s n ws,
  forallb is_dict todo = true ->
  holds s (done_ ++ todo) ->
  Forall2 answers ws (flat_map entry_tasks (enumerate_from (length done_) todo)) ->
  Forall extractable (flat_map entry_tasks (enumerate_from (length done_) todo)) ->
  foldM process_result (s, n) ws =
  Ok (put_list (done_ ++ (entry_filled <$> todo)) s, tallied_up (length ws) n).
Proof.
  induction todo as [|x todo IH]; intros done_ s n ws Hd Hs Hws Hok.
  - inversion Hws; subst. cbn [foldM fmap list_fmap length].
    rewrite tallied_up_zero. rewrite app_nil_r in *. by rewrite put_held.
  - cbn [forallb] in Hd. apply andb_true_iff in Hd as [Hx Hd]. destruct x; try done.
    cbn [enumerate_from flat_map] in Hws, Hok.
    apply Forall2_app_inv_r in Hws as (ws1 & ws2 & H1 & H2 & ->).
    apply Forall_app in Hok as [Hok1 Hok2].
    rewrite WriteFacts.foldM_app.
    rewrite (entry_parallel s (done_ ++ VDict d :: todo) (length done_) d n ws1);
      [|done|by apply list_lookup_middle|done|done].
    cbn [mbind res_bind].
    rewrite insert_app_r_alt by lia. rewrite Nat.sub_diag. cbn [insert list_insert].
    set (x' := VDict (filled tx field2 content_key2 (filled tx field1 content_key1 d))).
    rewrite (IH (done_ ++ [x'])%list _ _ ws2 Hd).
    + rewrite put_put, tallied_up_add, length_app, <- app_assoc. reflexivity.
    + rewrite <- app_assoc. by eapply holds_put.
    + rewrite length_app. cbn [length]. by rewrite Nat.add_1_r.
    + rewrite length_app. cbn [length]. by rewrite Nat.add_1_r.
Qed.

End Entries.

(** *** Projects and work experiences *)

Lemma with_projects_held l s : holds_projects s l -> with_projects l s = s.
Proof.
  intros (re & Hs & Hr). unfold with_projects. rewrite Hs.
  rewrite (insert_id re) by done. by rewrite insert_id.
Qed.

Lemma projects_parallel s (ps : list value) n ws :
  forallb is_dict ps = true ->
  holds_projects s ps ->
  Forall2 answers ws (flat_map (project_tasks application_id) (enumerate ps)) ->
  Forall extractable (flat_map (project_tasks application_id) (enumerate ps)) ->
  foldM process_result (s, n) ws =
  Ok (with_projects (project_filled tx <$> ps) s, tallied_up (length ws) n).
Proof.
  intros Hd Hs Hws Hok.
  apply (entries_parallel holds_projects with_projects
           (fun idx => "research_experience.projects." +:+ str_of_nat idx)
           "publication_document" "publication_content"
           "report_document" "report_content"
           (fun idx => "research_experience.projects[" +:+ str_of_nat idx +:+
                       "].publication_document")
           (fun idx => "research_experience.projects[" +:+ str_of_nat idx +:+
                       "].report_document")) with (done_ := []); try done.
  - intros l l0 s' (re & Hs' & Hr). unfold with_projects. rewrite Hs'.
    eexists. split; [apply lookup_insert_eq|apply lookup_insert_eq].
  - intros l l' s'. unfold with_projects.
    destruct (s' !! KStr "research_experience") as [[| | | | |re]|] eqn:E;
      rewrite ?E; try done.
    rewrite lookup_insert_eq. by rewrite insert_insert_eq, insert_insert_eq.
  - apply with_projects_held.
  - intros s' l idx entry dk ck u content (re & Hs' & Hr) Hl.
    rewrite ConsolidatorFacts.store_content_decode, decode_project_task.
    cbn [mbind res_bind]. rewrite (apply_SetProject _ _ _ _ _ _ _ Hs' Hr Hl).
    unfold with_projects. by rewrite Hs'.
Qed.

Lemma work_parallel s (l : list value) n ws :
  forallb is_dict l = true ->
  holds_work s l ->
  Forall2 answers ws (flat_map (work_tasks application_id) (enumerate l)) ->
  Forall extractable (flat_map (work_tasks application_id) (enumerate l)) ->
  foldM process_result (s, n) ws =
  Ok (with_work (work_filled tx <$> l) s, tallied_up (length ws) n).
Proof.
  intros Hd Hs Hws Hok.
  apply (entries_parallel holds_work with_work
           (fun idx => "work_experience." +:+ str_of_nat idx)
           "certificate_document" "certificate_content"
           "recommendation_document" "recommendation_content"
           (fun idx => "work_experience[" +:+ str_of_nat idx +:+ "].certificate_document")
           (fun idx => "work_experience[" +:+ str_of_nat idx +:+
                       "].recommendation_document")) with (done_ := []); try done.
  - intros l1 l0 s' _. apply lookup_insert_eq.
  - intros l1 l' s'. unfold with_work. by rewrite insert_insert_eq.
  - intros l1 s' H. unfold with_work. by apply insert_id.
  - intros s' l1 idx entry dk ck u content Hs' Hl.
    rewrite ConsolidatorFacts.store_content_decode, decode_work_task.
    cbn [mbind res_bind]. by rewrite (apply_SetWork _ _ _ _ _ _ Hs' Hl).
Qed.

(** *** The four stages on a record of the expected shape *)

Lemma content_keys_not_empty :
  Forall (fun e : string * string => e.2 <> "") document_mapping.
Proof. unfold document_mapping. repeat (constructor; [done|]). constructor. Qed.

Lemma nothing_answered (ws : list value) n s :
  Forall2 answers ws [] ->
  foldM process_result (s, n) ws = Ok (s, tallied_up (length ws) n).
Proof. intros H. inversion H; subst. cbn [foldM length]. by rewrite tallied_up_zero. Qed.

Lemma main_stage s n ws :
  from_option is_dict true (s !! KStr "documents") = true ->
  Forall2 answers ws
    (flat_map (fun e : string * string =>
                 task_for (section_of s "documents") e.1
                   (main_task application_id e.1 e.2)) document_mapping) ->
  Forall extractable
    (flat_map (fun e : string * string =>
                 task_for (section_of s "documents") e.1
                   (main_task application_id e.1 e.2)) document_mapping) ->
  foldM process_result (s, n) ws = Ok (documents_filled tx s, tallied_up (length ws) n).
Proof.
  unfold section_of, documents_filled.
  destruct (s !! KStr "documents") as [[| | | | |docs]|]; try done; intros _ Hws Hok.
  - by apply main_parallel; [apply content_keys_not_empty| |].
  - cbn [from_option Datatypes.id] in Hws.
    rewrite ResolverFacts.flat_map_nothing in Hws by done. by apply nothing_answered.
Qed.

Lemma personal_stage s n ws :
  from_option is_dict true (s !! KStr "personal_information") = true ->
  Forall2 answers ws
    (task_for (section_of s "personal_information") "government_id_document"
       (fun uri => nested_task application_id
          "personal_information.government_id_document"
          "government_id_content" uri "personal_information")) ->
  Forall extractable
    (task_for (section_of s "personal_information") "government_id_document"
       (fun uri => nested_task application_id
          "personal_information.government_id_document"
          "government_id_content" uri "personal_information")) ->
  foldM process_result (s, n) ws = Ok (personal_filled tx s, tallied_up (length ws) n).
Proof.
  unfold section_of, personal_filled.
  destruct (s !! KStr "personal_information") as [[| | | | |p]|] eqn:E; try done;
    intros _ Hws Hok; cbn [from_option Datatypes.id] in Hws, Hok.
  - rewrite (process_task_for s n ws p "government_id_document"
               (fun uri => nested_task application_id
                  "personal_information.government_id_document"
                  "government_id_content" uri "personal_information")
               (fun text => <[KStr "personal_information" :=
                                VDict (<[KStr "government_id_content" := VStr text]> p)]> s));
      [|intros; apply nested_task_dict| |done|done].
    2: { intros u text. rewrite ConsolidatorFacts.store_content_decode.
         rewrite decode_personal_task. cbn [mbind res_bind].
         by rewrite (apply_SetPersonal _ _ _ _ E). }
    f_equal. f_equal. unfold filled.
    destruct (p !! KStr "government_id_document") as [u|];
      [destruct (extracted tx u)|]; try done; by rewrite insert_id.
  - by apply nothing_answered.
Qed.

Lemma research_stage s n ws :
  match s !! KStr "research_experience" with
  | None => true
  | Some (VDict research_exp) =>
      match research_exp !! KStr "projects" with
      | None => true
      | Some (VList projects) => forallb is_dict projects
      | Some _ => false
      end
  | Some _ => false
  end = true ->
  Forall2 answers ws (flat_map (project_tasks application_id) (projects_of s)) ->
  Forall extractable (flat_map (project_tasks application_id) (projects_of s)) ->
  foldM process_result (s, n) ws = Ok (research_filled tx s, tallied_up (length ws) n).
Proof.
  unfold projects_of, section_of, field_of, research_filled.
  destruct (s !! KStr "research_experience") as [[| | | | |re]|] eqn:E; try done;
    cbn [from_option Datatypes.id].
  - destruct (re !! KStr "projects") as [[| | | |ps|]|] eqn:Ep; try done;
      cbn [from_option Datatypes.id entries_of]; intros Hd Hws Hok.
    + rewrite (projects_parallel s ps n ws Hd) by (try done; by exists re).
      unfold with_projects. by rewrite E.
    + by apply nothing_answered.
  - intros _ Hws Hok. by apply nothing_answered.
Qed.

Lemma work_stage s n ws :
  match s !! KStr "work_experience" with
  | None => true
  | Some (VList work_experiences) => forallb is_dict work_experiences
  | Some _ => false
  end = true ->
  Forall2 answers ws (flat_map (work_tasks application_id) (work_of s)) ->
  Forall extractable (flat_map (work_tasks application_id) (work_of s)) ->
  foldM process_result (s, n) ws =
  Ok (work_experience_filled tx s, tallied_up (length ws) n).
Proof.
  unfold work_of, section_of, work_experience_filled.
  destruct (s !! KStr "work_experience") as [[| | | |l|]|] eqn:E; try done;
    cbn [from_option Datatypes.id entries_of]; intros Hd Hws Hok.
  - by rewrite (work_parallel s l n ws Hd).
  - by apply nothing_answered.
Qed.

(** When every listed document is extracted with success, the loop of
    the consolidator over the answers leaves what the sequential
    extraction leaves. *)
Lemma parallel_expected student ws :
  well_shaped student = true ->
  Forall2 answers ws (expected_documents application_id student) ->
  Forall extractable (expected_documents application_id student) ->
  foldM process_result (student, Summary 0 0 0) ws =
  Ok (extraction_expected tx student, Summary (length ws) 0 0).
Proof.
  unfold well_shaped. rewrite !andb_true_iff. intros [[[Hdocs Hpers] Hres] Hwork].
  unfold expected_documents, extraction_expected. intros Hws Hok.
  apply Forall2_app_inv_r in Hws as (ws1 & ws' & H1 & Hws & ->).
  apply Forall2_app_inv_r in Hws as (ws2 & ws'' & H2 & Hws & ->).
  apply Forall2_app_inv_r in Hws as (ws3 & ws4 & H3 & H4 & ->).
  apply Forall_app in Hok as [Hok1 Hok]. apply Forall_app in Hok as [Hok2 Hok].
  apply Forall_app in Hok as [Hok3 Hok4].
  set (s1 := documents_filled tx student).
  assert (Hp1 : s1 !! KStr "personal_information" = student !! KStr "personal_information")
    by (by apply documents_filled_lookup).
  assert (Hr1 : s1 !! KStr "research_experience" = student !! KStr "research_experience")
    by (by apply documents_filled_lookup).
  assert (Hw1 : s1 !! KStr "work_experience" = student !! KStr "work_experience")
    by (by apply documents_filled_lookup).
  set (s2 := personal_filled tx s1).
  assert (Hr2 : s2 !! KStr "research_experience" = student !! KStr "research_experience")
    by (unfold s2; by rewrite personal_filled_lookup).
  assert (Hw2 : s2 !! KStr "work_experience" = student !! KStr "work_experience")
    by (unfold s2; by rewrite personal_filled_lookup).
  set (s3 := research_filled tx s2).
  assert (Hw3 : s3 !! KStr "work_experience" = student !! KStr "work_experience")
    by (unfold s3; by rewrite research_filled_lookup).
  rewrite WriteFacts.foldM_app.
  rewrite (main_stage student _ ws1 Hdocs H1 Hok1). cbn [mbind res_bind]. fold s1.
  rewrite WriteFacts.foldM_app.
  rewrite (personal_stage s1 _ ws2); cycle 1.
  { by rewrite Hp1. }
  { unfold section_of in *. by rewrite Hp1. }
  { unfold section_of in *. by rewrite Hp1. }
  cbn [mbind res_bind]. fold s2.
  rewrite WriteFacts.foldM_app.
  rewrite (research_stage s2 _ ws3); cycle 1.
  { by rewrite Hr2. }
  { unfold projects_of, section_of in *. by rewrite Hr2. }
  { unfold projects_of, section_of in *. by rewrite Hr2. }
  cbn [mbind res_bind]. fold s3.
  rewrite (work_stage s3 _ ws4); cycle 1.
  { by rewrite Hw3. }
  { unfold work_of, section_of in *. by rewrite Hw3. }
  { unfold work_of, section_of in *. by rewrite Hw3. }
  rewrite !tallied_up_add. cbn [successful failed skipped].
  rewrite !length_app. f_equal. f_equal. f_equal. lia.
Qed.

End Facts.

Section Flows.

Variable textractor_document_analysis : string -> string -> string * string.

(** X7: on a stored record of the data model's shape, when every
    document that the resolver lists is extracted with success, the
    parallel pipeline stores what the sequential flow stores:
    consolidating the answers of the extraction unit to the resolver's
    tasks leaves the same table and the same success flag as
    [document_extraction_flow], and the consolidated record is the record
    of the sequential extraction with the status set. *)
Theorem parallel_matches_sequential (data : dict) (id : string) (student : dict)
    (t : table) (ws : list value) :
  data !! KStr "application_id" = Some (VStr id) ->
  id <> "" ->
  t !! id = Some student ->
  student <> ∅ ->
  well_shaped student = true ->
  Forall2 (fun w task =>
             result_of w =
             Ok (extract_single_document_flow textractor_document_analysis
                   (extraction_request (VStr id) task)).2)
          ws (expected_documents (VStr id) student) ->
  Forall (fun task =>
            extraction_fails textractor_document_analysis (locator task) = false)
         (expected_documents (VStr id) student) ->
  let seq := document_extraction_flow textractor_document_analysis data t in
  let par := consolidate_extraction_results_flow (consolidation_input id ws) t in
  seq.1 = par.1 /\ seq.2.1 = par.2.1 /\
  consolidate student ws =
  Ok (<[KStr "application_status" := in_progress]>
        (extract_all textractor_document_analysis student).1,
      Summary (length ws) 0 0).
Proof.
  intros Hd Hid Ht Hs Hshape Hws Hok seq par.
  assert (truthy (VStr id) = true) as Htruthy.
  { cbn [truthy]. apply eqb_empty in Hid. by rewrite Hid. }
  assert (consolidate student ws =
          Ok (<[KStr "application_status" := in_progress]>
                (extract_all textractor_document_analysis student).1,
              Summary (length ws) 0 0)) as Hc.
  { unfold consolidate.
    rewrite (parallel_expected textractor_document_analysis (VStr id) Htruthy student ws)
      by done.
    destruct (extract_all_expected textractor_document_analysis student Hshape)
      as (r & -> & _). reflexivity. }
  split_and!; [| |exact Hc].
  - unfold seq, par, document_extraction_flow.
    rewrite ConsolidationClaims.consolidate_flow_unfold, Hd.
    cbn [from_option Datatypes.id dynamodb_get_item]. rewrite Htruthy.
    apply eqb_empty in Hid. rewrite Hid, Ht. cbn [negb missing from_option].
    rewrite bool_decide_eq_false_2 by done. rewrite Hc. cbn [mbind res_bind fst].
    by destruct (dynamodb_put_item _ t).
  - unfold seq, par, document_extraction_flow.
    rewrite ConsolidationClaims.consolidate_flow_unfold, Hd.
    cbn [from_option Datatypes.id dynamodb_get_item]. rewrite Htruthy.
    apply eqb_empty in Hid. rewrite Hid, Ht. cbn [negb missing from_option].
    rewrite bool_decide_eq_false_2 by done. rewrite Hc. cbn [mbind res_bind fst].
    by destruct (dynamodb_put_item _ t).
Qed.

End Flows.

Lemma parallel_matches_sequential_witness :
  (document_extraction_flow MoreSamples.extracting Samples.request
     Samples.applications_table).1 =
  (consolidate_extraction_results_flow
     (consolidation_input "A1" MoreSamples.answered) Samples.applications_table).1.
Proof.
  apply (parallel_matches_sequential MoreSamples.extracting Samples.request "A1"
           Samples.application Samples.applications_table MoreSamples.answered);
    try reflexivity; try done.
  - repeat constructor.
  - repeat constructor.
Defined.

End ParallelFacts.

(** ** What the stages leave alone *)

Module StageFacts.
Import ExtractionUnit Consolidator Lifecycle Records SequentialExtraction Stages.
Import LocalFacts ConsolidationClaims LifecycleFacts.

Lemma put_other item t t' id other :
  dynamodb_put_item item t = Ok t' ->
  item !! KStr "application_id" = Some (VStr id) -> id <> other ->
  t' !! other = t !! other.
Proof.
  intros Hp Hk Hne. apply (dynamodb_put_item_at _ id) in Hp; [|done].
  subst t'. by apply lookup_insert_ne.
Qed.

Lemma put_keyed item t t' : keyed t -> dynamodb_put_item item t = Ok t' -> keyed t'.
Proof.
  intros Hkeyed Hp. apply dynamodb_put_item_Ok in Hp as (id & Hid & _ & ->).
  intros id' item'. rewrite lookup_insert_Some. intros [[<- <-]|[_ H]]; [done|].
  by apply Hkeyed.
Qed.

(** A read that finds a record was made with a string id. *)
Lemma read_record v (t : table) o :
  dynamodb_get_item v t = Ok o -> missing o = false ->
  exists id student, v = VStr id /\ t !! id = Some student /\ o = Some student.
Proof.
  destruct v as [| | |id| |]; try done. simpl.
  destruct (String.eqb id ""); [done|]. intros [= <-].
  destruct (t !! id) as [student|] eqn:E; [|done]. eauto.
Qed.

Lemma requested_id (data : dict) id other :
  default VNone (data !! KStr "application_id") = VStr id ->
  data !! KStr "application_id" <> Some (VStr other) -> id <> other.
Proof.
  destruct (data !! KStr "application_id") as [v|]; simpl; [|done].
  intros -> H ->. done.
Qed.

(** *** The record that sequential extraction leaves *)

Section Extraction.

Variable textractor_document_analysis : string -> string -> string * string.
Local Abbreviation tx := textractor_document_analysis.

Variable k : string.

Local Abbreviation kept := (fun (s s' : dict * extraction_results) =>
  s'.1 !! KStr k = s.1 !! KStr k).

Lemma extract_main_loop_keeps docs mapping : forall st,
  Forall (fun e : string * string => e.2 <> k) mapping ->
  kept st (extract_main_loop tx docs mapping st).
Proof.
  induction mapping as [|[doc_key content_key] rest IH]; intros st Hk; [done|].
  apply Forall_cons in Hk as [Hc Hk]. cbn [extract_main_loop].
  destruct (extract_main_document tx docs doc_key content_key st) as [st'|] eqn:E; [|done].
  rewrite (IH st' Hk). revert E. unfold extract_main_document.
  destruct (str_in doc_key docs) as [[]|]; cbn [mbind res_bind]; try done.
  - destruct (getitem docs (VStr doc_key)) as [s3_uri|]; cbn [mbind res_bind]; [|done].
    destruct (extract_document tx s3_uri doc_key st.2) as [r [text|]]; intros [= <-]; [|done].
    cbn [fst]. apply lookup_insert_ne. simpl in Hc. congruence.
  - by intros [= <-].
Qed.

Lemma state_of_on_state {S T} (g : S -> T) (p : progress S) :
  state_of (on_state g p) = g (state_of p).
Proof. by destruct p. Qed.

Lemma and_then_keeps (p : progress (dict * extraction_results)) f st :
  kept st (state_of p) -> (forall s, kept s (state_of (f s))) ->
  kept st (state_of (and_then p f)).
Proof.
  intros Hp Hf. destruct p as [s|s]; cbn [and_then state_of] in *; [|done].
  by rewrite Hf.
Qed.

Hypothesis Hpersonal : k <> "personal_information".
Hypothesis Hresearch : k <> "research_experience".
Hypothesis Hwork : k <> "work_experience".

Lemma extract_personal_keeps st :
  kept st (state_of (attempt (extract_personal tx) st)).
Proof.
  unfold attempt, extract_personal.
  destruct (extract_nested_document _ _ _ _ _) as [st'|]; cbn [mbind res_bind state_of]; [|done].
  cbn [fst]. case_bool_decide; [|done]. apply lookup_insert_ne. congruence.
Qed.

Lemma extract_research_keeps st : kept st (state_of (extract_research tx st)).
Proof.
  unfold extract_research.
  destruct (get _ "projects" _) as [projects|]; [|done].
  rewrite state_of_on_state. cbn [fst].
  destruct (st.1 !! KStr "research_experience") as [[| | | | |d]|]; try done.
  case_bool_decide; [|done]. apply lookup_insert_ne. congruence.
Qed.

Lemma extract_work_experience_keeps st :
  kept st (state_of (extract_work_experience tx st)).
Proof.
  unfold extract_work_experience. rewrite state_of_on_state. cbn [fst].
  case_bool_decide; [|done]. apply lookup_insert_ne. congruence.
Qed.

Lemma extract_nested_documents_keeps st : kept st (_extract_nested_documents tx st).
Proof.
  unfold _extract_nested_documents.
  apply and_then_keeps; [|apply extract_work_experience_keeps].
  apply and_then_keeps; [|apply extract_research_keeps].
  apply extract_personal_keeps.
Qed.

Lemma extract_all_keeps student :
  Forall (fun e : string * string => e.2 <> k) document_mapping ->
  (extract_all tx student).1 !! KStr k = student !! KStr k.
Proof using Hpersonal Hresearch Hwork.
  intros Hk. unfold extract_all. rewrite extract_nested_documents_keeps.
  case_bool_decide; [|done]. unfold _extract_main_documents.
  destruct (negb _); [done|]. by rewrite extract_main_loop_keeps.
Qed.

End Extraction.



(** *** The tables that a stage leaves *)

Lemma table_kept_refl other t : table_kept other t t.
Proof. done. Qed.

Lemma table_kept_put other item t t' id :
  dynamodb_put_item item t = Ok t' ->
  item !! KStr "application_id" = Some (VStr id) -> id <> other ->
  table_kept other t t'.
Proof.
  intros Hp Hk Hne. split; [by eapply put_other|]. intros H. by eapply put_keyed.
Qed.

Lemma db_kept other d ta te :
  keyed_db d ->
  table_kept other (applications d) ta -> table_kept other (evaluations d) te ->
  same_record other d (Db ta te) /\ keyed_db (Db ta te).
Proof.
  intros [Ka Ke] [Ha Ha'] [He He']. repeat split; simpl; auto.
Qed.

Lemma db_kept_refl other d : keyed_db d -> same_record other d d /\ keyed_db d.
Proof. done. Qed.

Lemma with_context_keeps student app_data student' k :
  with_context student app_data = Ok student' -> k <> "application_context" ->
  student' !! KStr k = student !! KStr k.
Proof.
  unfold with_context. destruct (missing app_data); [by intros [= <-]|].
  destruct (select_fields (ends_with _) _); cbn [mbind res_bind]; [|done].
  destruct (select_fields _ _); cbn [mbind res_bind]; [|done].
  intros [= <-] Hk. apply lookup_insert_ne. congruence.
Qed.

Lemma chain_untouched r acts : forall o,
  Forall (fun a => root a <> Some r) acts -> chain r acts o = Ok o.
Proof.
  unfold chain. induction acts as [|a acts IH]; intros o Hr; [done|].
  apply Forall_cons in Hr as [Ha Hr]. cbn [foldM]. unfold step at 2.
  rewrite bool_decide_eq_false_2 by done. cbn [mbind res_bind]. by apply IH.
Qed.

Lemma consolidate_keeps student ws student' n k :
  consolidate student ws = Ok (student', n) ->
  Forall (fun w => ~ writes_field k w) ws -> k <> "application_status" ->
  student' !! KStr k = student !! KStr k.
Proof.
  intros Hc Hws Hk. apply consolidate_run in Hc.
  apply (run_chain (KStr k)) in Hc. rewrite chain_untouched in Hc; [congruence|].
  apply Forall_app. split.
  - apply Forall_fmap. eapply Forall_impl; [exact Hws|]. done.
  - repeat constructor. simpl. congruence.
Qed.

Section Frames.

Variable start_state_machine : value -> bool * string.
Variable invoke_agentcore_runtime : dict -> bool * value.
Variable generate_html_report : dict -> list dict -> string -> value.
Variables s3_bucket s3_prefix : string.
Variable textractor_document_analysis : string -> string -> string * string.

Variables (data : dict) (d : db) (other : string).
Hypothesis Hkeyed : keyed_db d.
Hypothesis Hother : data !! KStr "application_id" <> Some (VStr other).

Local Abbreviation kept := (fun d' : db => same_record other d d' /\ keyed_db d').

Lemma process_application_flow_frame :
  kept (process_application_flow start_state_machine data d).1.
Proof using Hkeyed Hother.
  unfold process_application_flow. cbv zeta.
  destruct (negb (truthy _)); [by apply db_kept_refl|].
  destruct (dynamodb_get_item _ _) as [o|] eqn:Eg; [|by apply db_kept_refl].
  destruct (missing o) eqn:Em; [by apply db_kept_refl|].
  destruct (read_record _ _ _ Eg Em) as (id & student & Hv & Ht & ->).
  pose proof (requested_id _ _ _ Hv Hother) as Hid. rewrite Hv.
  destruct Hkeyed as [Ka Ke]. apply Ka in Ht.
  destruct (start_state_machine (VStr id)) as [status output].
  destruct (negb status);
    (destruct (dynamodb_put_item _ _) as [t|] eqn:Ep; [|by apply db_kept_refl]);
    (apply db_kept; [done| |apply table_kept_refl]);
    (eapply table_kept_put; [exact Ep| |exact Hid]);
    by rewrite lookup_insert_ne.
Qed.

Lemma evaluate_application_flow_frame :
  kept (evaluate_application_flow invoke_agentcore_runtime data d).1.
Proof using Hkeyed Hother.
  unfold evaluate_application_flow. cbv zeta.
  destruct (negb (truthy _)); [by apply db_kept_refl|].
  destruct (dynamodb_get_item _ _) as [o|] eqn:Eg; [|by apply db_kept_refl].
  destruct (missing o) eqn:Em; [by apply db_kept_refl|].
  destruct (read_record _ _ _ Eg Em) as (id & student & Hv & Ht & ->).
  pose proof (requested_id _ _ _ Hv Hother) as Hid. rewrite Hv.
  pose proof Hkeyed as [Ka Ke]. apply Ka in Ht.
  destruct (invoke_agentcore_runtime _) as [status response].
  destruct (negb status); [by apply db_kept_refl|].
  destruct response as [| | | | |response]; try by apply db_kept_refl.
  destruct (negb (truthy _)); [by apply db_kept_refl|].
  destruct (dynamodb_put_item _ (applications d)) as [t|] eqn:Ep; [|by apply db_kept_refl].
  assert (table_kept other (applications d) t) as Hta.
  { eapply table_kept_put; [exact Ep| |exact Hid]. by rewrite lookup_insert_ne. }
  destruct (dynamodb_put_item _ (evaluations d)) as [t'|] eqn:Ep';
    (apply db_kept; [done|done|]); [|apply table_kept_refl].
  eapply table_kept_put; [exact Ep'| |exact Hid]. apply lookup_insert_eq.
Qed.

Lemma generate_report_flow_frame :
  kept (generate_report_flow generate_html_report s3_bucket s3_prefix data d).1.
Proof using Hkeyed Hother.
  unfold generate_report_flow. cbv zeta.
  destruct (negb (truthy _)); [by apply db_kept_refl|].
  destruct (dynamodb_get_item _ (evaluations d)) as [o|] eqn:Eg; [|by apply db_kept_refl].
  destruct (missing o) eqn:Em; [by apply db_kept_refl|].
  destruct (read_record _ _ _ Eg Em) as (id & student & Hv & Ht & ->).
  pose proof (requested_id _ _ _ Hv Hother) as Hid. rewrite Hv.
  pose proof Hkeyed as [Ka Ke]. apply Ke in Ht.
  destruct (_ ≫= _) as [student'|] eqn:Ec; [|by apply db_kept_refl].
  assert (student' !! KStr "application_id" = Some (VStr id)) as Hs'.
  { revert Ec.
    destruct (dynamodb_get_item (VStr id) (applications d)); cbn [mbind res_bind]; [|done].
    intros Ec. by rewrite (with_context_keeps _ _ _ "application_id" Ec). }
  clear Ec Eg.
  destruct (_ ≫= _) as [success|]; [|by apply db_kept_refl].
  destruct (negb (truthy success)); [by apply db_kept_refl|].
  destruct (dynamodb_put_item _ (evaluations d)) as [te|] eqn:Ep; [|by apply db_kept_refl].
  assert (table_kept other (evaluations d) te) as Hte.
  { eapply table_kept_put; [exact Ep| |exact Hid]. by rewrite lookup_insert_ne. }
  destruct (dynamodb_get_item _ (applications d)) as [o|] eqn:Eg';
    [|by apply db_kept; [|apply table_kept_refl|]].
  destruct (missing o) eqn:Em'; [by apply db_kept; [|apply table_kept_refl|]|].
  destruct (read_record _ _ _ Eg' Em') as (id' & app & [= <-] & Ha & ->).
  apply Ka in Ha.
  destruct (dynamodb_put_item _ (applications d)) as [ta|] eqn:Ep';
    [|by apply db_kept; [|apply table_kept_refl|]].
  apply db_kept; [done| |done].
  eapply table_kept_put; [exact Ep'| |exact Hid]. by rewrite lookup_insert_ne.
Qed.

Lemma document_extraction_flow_frame :
  table_kept other (applications d)
    (document_extraction_flow textractor_document_analysis data (applications d)).1.
Proof using Hkeyed Hother.
  unfold document_extraction_flow. cbv zeta.
  destruct (negb (truthy _)); [apply table_kept_refl|].
  destruct (dynamodb_get_item _ _) as [o|] eqn:Eg; [|apply table_kept_refl].
  destruct (missing o) eqn:Em; [apply table_kept_refl|].
  destruct (read_record _ _ _ Eg Em) as (id & student & Hv & Ht & ->).
  pose proof (requested_id _ _ _ Hv Hother) as Hid.
  destruct Hkeyed as [Ka Ke]. apply Ka in Ht.
  destruct (dynamodb_put_item _ _) as [t|] eqn:Ep; [|apply table_kept_refl].
  eapply table_kept_put; [exact Ep| |exact Hid].
  rewrite lookup_insert_ne by done. cbn [from_option Datatypes.id].
  rewrite extract_all_keeps; [done|done|done|done|].
  apply Forall_forall. intros e He. apply (bool_decide_unpack _).
  revert e He. apply Forall_forall. vm_compute. repeat constructor.
Qed.

End Frames.

(** X9: in a store that holds every item under the item's own id, a
    stage run for one application leaves what the tables hold under any
    other id as it was, and the store stays keyed by id. This holds for
    the start of processing, the sequential extraction, the evaluation
    and the report generation, whatever the services answer and whether
    the stage succeeds or fails. *)
Theorem stages_touch_one_record
    (start_state_machine : value -> bool * string)
    (invoke_agentcore_runtime : dict -> bool * value)
    (generate_html_report : dict -> list dict -> string -> value)
    (s3_bucket s3_prefix : string)
    (textractor_document_analysis : string -> string -> string * string)
    (data : dict) (d : db) (other : string) :
  keyed_db d ->
  data !! KStr "application_id" <> Some (VStr other) ->
  let kept := fun d' : db => same_record other d d' /\ keyed_db d' in
  kept (process_application_flow start_state_machine data d).1 /\
  kept (Db (document_extraction_flow textractor_document_analysis data
              (applications d)).1 (evaluations d)) /\
  kept (evaluate_application_flow invoke_agentcore_runtime data d).1 /\
  kept (generate_report_flow generate_html_report s3_bucket s3_prefix data d).1.
Proof.
  intros Hkeyed Hother kept. unfold kept. split; [|split; [|split]].
  - by apply process_application_flow_frame.
  - apply db_kept; [done| |apply table_kept_refl].
    by apply document_extraction_flow_frame.
  - by apply evaluate_application_flow_frame.
  - by apply generate_report_flow_frame.
Qed.

Lemma keyed_empty : keyed ∅.
Proof. intros id item. by rewrite lookup_empty. Qed.

Lemma keyed_insert (t : table) id item :
  keyed t -> item !! KStr "application_id" = Some (VStr id) -> keyed (<[id := item]> t).
Proof.
  intros Ht Hitem id' item'. rewrite lookup_insert_Some.
  intros [[<- <-]|[_ H]]; [done|]. by apply Ht.
Qed.

Lemma two_applications_keyed : keyed_db MoreSamples.two_applications.
Proof.
  split; [|apply keyed_empty].
  apply keyed_insert; [|reflexivity]. apply keyed_insert; [apply keyed_empty|reflexivity].
Qed.

Lemma stages_touch_one_record_witness :
  applications (evaluate_application_flow Samples.agent_scores Samples.request
                  MoreSamples.two_applications).1 !! "B2" =
  Some MoreSamples.second_application.
Proof.
  destruct (stages_touch_one_record Samples.start_accepted Samples.agent_scores
              Samples.upload_refused "reports" "admissions" MoreSamples.extracting
              Samples.request MoreSamples.two_applications "B2")
    as (_ & _ & [[H _] _] & _); [apply two_applications_keyed|done|].
  etransitivity; [exact H|vm_compute; reflexivity].
Defined.

(** X10: in a table that holds every record under the record's own id,
    consolidation run for one application leaves the record of any other
    application as it was and keeps the table keyed by id, provided that
    no outcome asks for a write of the top-level field application_id. *)
Theorem consolidation_touches_one_record (id other : string) (outcomes : list value)
    (t : table) :
  keyed t -> id <> other ->
  Forall (fun w => ~ writes_field "application_id" w) outcomes ->
  let t' := (consolidate_extraction_results_flow (consolidation_input id outcomes) t).1 in
  t' !! other = t !! other /\ keyed t'.
Proof.
  intros Hkeyed Hid Hws t'. unfold t'. rewrite consolidate_flow_unfold.
  destruct (String.eqb id ""); [done|].
  destruct (t !! id) as [student|] eqn:Ht; [|done].
  case_bool_decide; [done|].
  destruct (consolidate student outcomes) as [[s1 n]|] eqn:Ec; cbn [mbind res_bind]; [|done].
  destruct (dynamodb_put_item _ t) as [t1|] eqn:Ep; cbn [mbind res_bind fst]; [|done].
  destruct (table_kept_put other _ _ _ id Ep) as [H1 H2]; [|done|auto].
  cbn [fst]. rewrite (consolidate_keeps _ _ _ _ "application_id" Ec Hws) by done.
  by apply Hkeyed.
Qed.

Lemma consolidation_touches_one_record_witness :
  (consolidate_extraction_results_flow
     (consolidation_input "A1" MoreSamples.answered)
     (applications MoreSamples.two_applications)).1 !! "B2" =
  Some MoreSamples.second_application.
Proof.
  destruct (consolidation_touches_one_record "A1" "B2" MoreSamples.answered
              (applications MoreSamples.two_applications)) as [H _];
    [apply two_applications_keyed|done| |].
  - unfold writes_field. apply (bool_decide_unpack _). vm_compute. exact I.
  - etransitivity; [exact H|vm_compute; reflexivity].
Defined.

End StageFacts.

(** ** The lifecycle status after each stage *)

Module StageOutcomes.
Import ExtractionUnit Consolidator Lifecycle Records SequentialExtraction Stages Samples.
Import ConsolidationClaims LifecycleFacts StageFacts.

Section Outcomes.

Variable start_state_machine : value -> bool * string.
Variable invoke_agentcore_runtime : dict -> bool * value.
Variable generate_html_report : dict -> list dict -> string -> value.
Variables s3_bucket s3_prefix : string.
Variable textractor_document_analysis : string -> string -> string * string.

Variables (data : dict) (application_id : string) (student : dict) (d : db).
Hypothesis Hdata : data !! KStr "application_id" = Some (VStr application_id).
Hypothesis Hid : application_id <> "".
Hypothesis Hrecord : applications d !! application_id = Some student.
Hypothesis Hkey : student !! KStr "application_id" = Some (VStr application_id).







End Outcomes.



End StageOutcomes.

(** ** What a stage stores, read back *)

Module ReadBackFacts.
Import ExtractionUnit Resolver Consolidator Lifecycle Records Stages.
Import ConsolidatorFacts ConsolidationClaims LifecycleFacts WriteBackFacts.

Lemma get_evaluation_flow_found (data : dict) id (t : table) item :
  data !! KStr "application_id" = Some (VStr id) -> id <> "" ->
  t !! id = Some item -> item <> ∅ ->
  get_evaluation_flow data t = (true, VDict item).
Proof.
  intros Hd Hid%String.eqb_neq Ht Hne. unfold get_evaluation_flow. rewrite Hd.
  cbn [from_option Datatypes.id truthy dynamodb_get_item]. rewrite Hid. cbn [negb].
  rewrite Ht. cbn [missing from_option]. by rewrite bool_decide_eq_false_2.
Qed.

(** X11: when the evaluation of a stored application reports success,
    the evaluation service has answered with a mapping for the record
    without its status, the evaluation read back is that answer with the
    application's id, and the application read back is the record with
    its status set to Generating report and nothing else changed. *)
Theorem evaluate_then_read_back (invoke_agentcore_runtime : dict -> bool * value)
    (data : dict) (application_id : string) (student : dict) (d : db) :
  data !! KStr "application_id" = Some (VStr application_id) ->
  application_id <> "" ->
  applications d !! application_id = Some student ->
  student !! KStr "application_id" = Some (VStr application_id) ->
  let r := evaluate_application_flow invoke_agentcore_runtime data d in
  r.2.1 = true ->
  exists response : dict,
    invoke_agentcore_runtime (delete status_key student) = (true, VDict response) /\
    get_evaluation_flow data (evaluations r.1) =
      (true, VDict (<[KStr "application_id" := VStr application_id]> response)) /\
    get_application_flow data (applications r.1) =
      (true, VDict (<[status_key := VStr "Generating report"]> student)).
Proof.
  intros Hdata Hid Hrecord Hkey r. unfold r.
  rewrite (evaluate_application_flow_unfold invoke_agentcore_runtime data application_id
             student d Hdata Hid Hrecord Hkey).
  destruct (invoke_agentcore_runtime _) as [[] response]; cbn [negb fst]; [|done].
  destruct response as [| | | | |response]; try done.
  destruct (negb _); [done|].
  destruct (dynamodb_put_item _ (applications d)) as [t|] eqn:Ep; cbn [fst snd]; [|done].
  destruct (dynamodb_put_item _ (evaluations d)) as [t'|] eqn:Ep'; cbn [fst snd]; [|done].
  intros _. exists response. split; [done|].
  apply (dynamodb_put_item_at _ application_id) in Ep; [|by rewrite lookup_insert_ne].
  apply (dynamodb_put_item_at _ application_id) in Ep'; [|apply lookup_insert_eq].
  subst t t'. cbn [applications evaluations]. split.
  - apply (get_evaluation_flow_found _ application_id); [done|done| |].
    + apply lookup_insert_eq.
    + apply insert_non_empty.
  - apply (RecordsFacts.get_application_flow_found _ application_id); [done|done| |].
    + apply lookup_insert_eq.
    + apply insert_non_empty.
Qed.

Lemma evaluate_then_read_back_witness :
  get_evaluation_flow Samples.request
    (evaluations (evaluate_application_flow Samples.agent_scores Samples.request
                    Samples.database_in_evaluation).1) =
  (true, obj [("application_id", VStr "A1");
              ("level4_Result", obj [("final_decision", VStr "ADMIT")])]).
Proof.
  destruct (evaluate_then_read_back Samples.agent_scores Samples.request "A1"
              Samples.consolidated Samples.database_in_evaluation)
    as (response & Hr & He & _);
    [reflexivity|done|reflexivity|reflexivity|vm_compute; reflexivity|].
  etransitivity; [exact He|]. injection Hr as <-. vm_compute. reflexivity.
Defined.

(** X12: consolidation writes whatever top-level field a successful main
    outcome names. When that field is application_id, the flow reports
    success and stores the record, with the content as its id, under that
    id: the record stored under the id the flow was called for stays as it
    was, status included, unless the two ids are the same. *)
Theorem consolidation_follows_written_id (id new_id doc_key : string) (s3_uri w : value)
    (student : dict) (t : table) :
  t !! id = Some student -> student <> ∅ -> storable (VDict student) = true ->
  id <> "" -> new_id <> "" ->
  result_of w =
    Ok (success_outcome (VStr id) (main_task (VStr id) doc_key "application_id" s3_uri)
          new_id) ->
  let r := consolidate_extraction_results_flow (consolidation_input id [w]) t in
  r.2.1 = true /\
  r.1 = <[new_id := <[KStr "application_status" := in_progress]>
                      (<[KStr "application_id" := VStr new_id]> student)]> t /\
  (new_id <> id -> r.1 !! id = Some student).
Proof.
  intros Ht Hne Hs Hid Hnew Hw r.
  assert (r = (<[new_id := <[KStr "application_status" := in_progress]>
                             (<[KStr "application_id" := VStr new_id]> student)]> t,
               (true, summary_value (VStr id) (Summary 1 0 0) 1))) as ->.
  { unfold r. rewrite consolidate_flow_unfold.
    pose proof Hid as Hid'. apply String.eqb_neq in Hid'. rewrite Hid', Ht.
    rewrite bool_decide_eq_false_2 by done.
    unfold consolidate. cbn [foldM]. rewrite process_result_decode.
    rewrite (decode_success _ _ _ _ Hw), decode_main_task by done.
    cbn [mbind res_bind apply bump fst snd successful failed skipped].
    unfold dynamodb_put_item.
    rewrite bool_decide_eq_false_2 by apply insert_non_empty.
    rewrite lookup_insert_ne, lookup_insert_eq by done.
    pose proof Hnew as Hnew'. apply String.eqb_neq in Hnew'. rewrite Hnew'.
    rewrite storable_insert; [done| |done]. by apply storable_insert. }
  cbn [fst snd]. split; [done|]. split; [done|].
  intros Hdiff. by rewrite lookup_insert_ne.
Qed.

Lemma consolidation_follows_written_id_witness :
  let w := Samples.main_success "transcript" "application_id" "B2" in
  (consolidate_extraction_results_flow (consolidation_input "A1" [w])
     (applications MoreSamples.two_applications)).1 !! "B2" =
  Some (<[KStr "application_status" := in_progress]>
          (<[KStr "application_id" := VStr "B2"]> Samples.application)).
Proof.
  intros w.
  destruct (consolidation_follows_written_id "A1" "B2" "transcript"
              (VStr "s3://bucket/doc.pdf") w Samples.application
              (applications MoreSamples.two_applications)) as (_ & H & _);
    [vm_compute; reflexivity|by intros E%(f_equal (fun m : dict => m !! KStr "application_id"))
    |vm_compute; reflexivity|done|done|reflexivity|].
  rewrite H. apply lookup_insert_eq.
Defined.

End ReadBackFacts.

(** ** Running the sequential extraction again *)

Module RerunFacts.
Import ExtractionUnit Resolver SequentialExtraction.
Import SequentialFacts.

Section Facts.

Variable textractor_document_analysis : string -> string -> string * string.
Local Abbreviation tx := textractor_document_analysis.

Local Abbreviation documents := (KStr "documents").
Local Abbreviation personal := (KStr "personal_information").
Local Abbreviation research := (KStr "research_experience").
Local Abbreviation work := (KStr "work_experience").
Local Abbreviation projects := (KStr "projects").

(** *** Filling a mapping twice *)

Lemma filled_idempotent field content_key (holder : dict) :
  field <> content_key ->
  filled tx field content_key (filled tx field content_key holder) =
  filled tx field content_key holder.
Proof.
  intros Hne. unfold filled at 2.
  destruct (holder !! KStr field) as [u|] eqn:Eu.
  - destruct (extracted tx u) as [text|] eqn:Et.
    + unfold filled. rewrite lookup_insert_ne, Eu, Et by congruence.
      apply insert_insert_eq.
    + unfold filled. by rewrite Eu, Et.
  - unfold filled. by rewrite Eu.
Qed.

Lemma filled_commute f1 c1 f2 c2 (holder : dict) :
  f1 <> c2 -> f2 <> c1 -> c1 <> c2 ->
  filled tx f1 c1 (filled tx f2 c2 holder) = filled tx f2 c2 (filled tx f1 c1 holder).
Proof.
  intros H1 H2 H3. unfold filled at 1 3.
  rewrite !filled_lookup_ne by congruence. unfold filled.
  destruct (holder !! KStr f1) as [u1|] eqn:E1; [|done].
  destruct (extracted tx u1) as [t1|]; [|done].
  destruct (holder !! KStr f2) as [u2|] eqn:E2; [|done].
  destruct (extracted tx u2) as [t2|]; [|done].
  apply insert_insert_ne. congruence.
Qed.

Lemma project_filled_idempotent project :
  project_filled tx (project_filled tx project) = project_filled tx project.
Proof.
  destruct project as [| | | | |p]; try done. cbn [project_filled]. f_equal.
  rewrite (filled_commute "publication_document" "publication_content"
             "report_document" "report_content") by done.
  rewrite filled_idempotent by done. f_equal. by rewrite filled_idempotent.
Qed.

Lemma work_filled_idempotent entry :
  work_filled tx (work_filled tx entry) = work_filled tx entry.
Proof.
  destruct entry as [| | | | |w]; try done. cbn [work_filled]. f_equal.
  rewrite (filled_commute "certificate_document" "certificate_content"
             "recommendation_document" "recommendation_content") by done.
  rewrite filled_idempotent by done. f_equal. by rewrite filled_idempotent.
Qed.

Lemma fmap_idempotent {A} (f : A -> A) (l : list A) :
  (forall x, f (f x) = f x) -> f <$> (f <$> l) = f <$> l.
Proof.
  intros H. rewrite <- list_fmap_compose. apply list_fmap_ext. intros _ x _. apply H.
Qed.

(** *** What each part leaves under its own field *)

Lemma personal_filled_own student :
  personal_filled tx student !! personal =
  match student !! personal with
  | Some (VDict p) =>
      Some (VDict (filled tx "government_id_document" "government_id_content" p))
  | o => o
  end.
Proof.
  unfold personal_filled.
  destruct (student !! personal) as [[| | | | |p]|] eqn:E; try done.
  apply lookup_insert_eq.
Qed.

Lemma research_filled_own student :
  research_filled tx student !! research =
  match student !! research with
  | Some (VDict research_exp) =>
      match research_exp !! projects with
      | Some (VList l) =>
          Some (VDict (<[projects := VList (project_filled tx <$> l)]> research_exp))
      | _ => Some (VDict research_exp)
      end
  | o => o
  end.
Proof.
  unfold research_filled.
  destruct (student !! research) as [[| | | | |re]|] eqn:E; try done.
  destruct (re !! projects) as [[| | | |l|]|]; try done.
  apply lookup_insert_eq.
Qed.

Lemma work_experience_filled_own student :
  work_experience_filled tx student !! work =
  match student !! work with
  | Some (VList l) => Some (VList (work_filled tx <$> l))
  | o => o
  end.
Proof.
  unfold work_experience_filled.
  destruct (student !! work) as [[| | | |l|]|] eqn:E; try done.
  apply lookup_insert_eq.
Qed.

Lemma work_experience_filled_lookup student k :
  k <> work -> work_experience_filled tx student !! k = student !! k.
Proof.
  intros H. unfold work_experience_filled.
  destruct (student !! work) as [[| | | |l|]|]; try done.
  by rewrite lookup_insert_ne.
Qed.

(** *** A part that finds its work done changes nothing *)

Lemma personal_filled_fixed student :
  (forall p, student !! personal = Some (VDict p) ->
             filled tx "government_id_document" "government_id_content" p = p) ->
  personal_filled tx student = student.
Proof.
  intros H. unfold personal_filled.
  destruct (student !! personal) as [[| | | | |p]|] eqn:E; try done.
  rewrite (H p eq_refl). by apply insert_id.
Qed.

Lemma research_filled_fixed student :
  (forall research_exp l,
      student !! research = Some (VDict research_exp) ->
      research_exp !! projects = Some (VList l) -> project_filled tx <$> l = l) ->
  research_filled tx student = student.
Proof.
  intros H. unfold research_filled.
  destruct (student !! research) as [[| | | | |re]|] eqn:E; try done.
  destruct (re !! projects) as [[| | | |l|]|] eqn:El; try done.
  rewrite (H re l eq_refl El). rewrite (insert_id re) by done. by apply insert_id.
Qed.

Lemma work_experience_filled_fixed student :
  (forall l, student !! work = Some (VList l) -> work_filled tx <$> l = l) ->
  work_experience_filled tx student = student.
Proof.
  intros H. unfold work_experience_filled.
  destruct (student !! work) as [[| | | |l|]|] eqn:E; try done.
  rewrite (H l eq_refl). by apply insert_id.
Qed.

Lemma fold_main_filled_fixed (docs : dict) mapping student :
  Forall (fun e => main_filled tx docs student e = student) mapping ->
  fold_left (main_filled tx docs) mapping student = student.
Proof.
  induction 1 as [|e mapping He _ IH]; [done|]. cbn [fold_left]. by rewrite He.
Qed.

(** The content that the loop over the registry leaves under a content
    field, the fields of the registry being distinct. *)
Lemma fold_main_filled_written (docs : dict) mapping :
  NoDup (snd <$> mapping) ->
  forall student e u text,
    e ∈ mapping -> docs !! KStr e.1 = Some u -> extracted tx u = Some text ->
    fold_left (main_filled tx docs) mapping student !! KStr e.2 = Some (VStr text).
Proof.
  induction mapping as [|e' mapping IH]; intros Hnd student e u text He Hu Ht.
  { by apply elem_of_nil in He. }
  cbn [fmap list_fmap] in Hnd. apply NoDup_cons in Hnd as [Hnotin Hnd].
  cbn [fold_left]. apply elem_of_cons in He as [->|He].
  - rewrite fold_main_filled_lookup.
    + unfold main_filled. rewrite Hu, Ht. apply lookup_insert_eq.
    + apply forallb_forall. intros x Hx. apply negb_true_iff, String.eqb_neq.
      intros Heq. apply Hnotin. rewrite <- Heq.
      apply (list_elem_of_fmap_2 snd). by apply list_elem_of_In.
  - by apply (IH Hnd _ e u text).
Qed.

(** *** The expected record is a fixed point *)

Lemma registry_fields_distinct : NoDup (snd <$> document_mapping).
Proof. apply (bool_decide_unpack _). vm_compute. exact I. Qed.

Lemma extraction_expected_lookup student k :
  k <> personal -> k <> research -> k <> work ->
  extraction_expected tx student !! k = documents_filled tx student !! k.
Proof.
  intros Hp Hr Hw. unfold extraction_expected.
  by rewrite work_experience_filled_lookup, research_filled_lookup,
    personal_filled_lookup.
Qed.

Lemma extraction_expected_personal student :
  extraction_expected tx student !! personal =
  match student !! personal with
  | Some (VDict p) =>
      Some (VDict (filled tx "government_id_document" "government_id_content" p))
  | o => o
  end.
Proof.
  unfold extraction_expected.
  rewrite work_experience_filled_lookup, research_filled_lookup by done.
  rewrite personal_filled_own, documents_filled_lookup; [done|].
  reflexivity.
Qed.

Lemma extraction_expected_research student :
  extraction_expected tx student !! research =
  match student !! research with
  | Some (VDict research_exp) =>
      match research_exp !! projects with
      | Some (VList l) =>
          Some (VDict (<[projects := VList (project_filled tx <$> l)]> research_exp))
      | _ => Some (VDict research_exp)
      end
  | o => o
  end.
Proof.
  unfold extraction_expected.
  rewrite work_experience_filled_lookup by done.
  rewrite research_filled_own, personal_filled_lookup by done.
  rewrite documents_filled_lookup; [done|].
  reflexivity.
Qed.

Lemma extraction_expected_work student :
  extraction_expected tx student !! work =
  match student !! work with
  | Some (VList l) => Some (VList (work_filled tx <$> l))
  | o => o
  end.
Proof.
  unfold extraction_expected.
  rewrite work_experience_filled_own, research_filled_lookup, personal_filled_lookup
    by done.
  rewrite documents_filled_lookup; [done|].
  reflexivity.
Qed.

Lemma extraction_expected_documents student :
  extraction_expected tx student !! documents = student !! documents.
Proof.
  rewrite extraction_expected_lookup by done.
  by apply documents_filled_lookup.
Qed.

Lemma documents_filled_fixed student :
  documents_filled tx (extraction_expected tx student) = extraction_expected tx student.
Proof.
  unfold documents_filled at 1. rewrite extraction_expected_documents.
  destruct (student !! documents) as [[| | | | |docs]|] eqn:Ed; try done.
  apply fold_main_filled_fixed, Forall_forall. intros e He.
  unfold main_filled. destruct (docs !! KStr e.1) as [u|] eqn:Eu; [|done].
  destruct (extracted tx u) as [text|] eqn:Et; [|done].
  apply insert_id.
  assert (forallb (fun e' : string * string => negb (String.eqb e'.2 e.2))
            document_mapping = true -> False) as Hin.
  { rewrite forallb_forall. intros H.
    assert (In e document_mapping) as Hin by (by apply list_elem_of_In).
    specialize (H e Hin). by rewrite String.eqb_refl in H. }
  rewrite extraction_expected_lookup.
  - unfold documents_filled. rewrite Ed.
    by apply (fold_main_filled_written docs _ registry_fields_distinct _ e u text).
  - intros [= Hk]. apply Hin. by rewrite Hk.
  - intros [= Hk]. apply Hin. by rewrite Hk.
  - intros [= Hk]. apply Hin. by rewrite Hk.
Qed.

Lemma extraction_expected_idempotent student :
  extraction_expected tx (extraction_expected tx student) = extraction_expected tx student.
Proof.
  unfold extraction_expected at 1. rewrite documents_filled_fixed.
  rewrite personal_filled_fixed.
  2: { intros p. rewrite extraction_expected_personal.
       destruct (student !! personal) as [[| | | | |p0]|]; try done.
       intros [= <-]. by apply filled_idempotent. }
  rewrite research_filled_fixed.
  2: { intros re l. rewrite extraction_expected_research.
       destruct (student !! research) as [[| | | | |re0]|]; try done.
       destruct (re0 !! projects) as [[| | | |l0|]|] eqn:El0.
       all: intros [= <-]; try (rewrite El0; done).
       rewrite lookup_insert_eq. intros [= <-].
       apply fmap_idempotent, project_filled_idempotent. }
  apply work_experience_filled_fixed.
  intros l. rewrite extraction_expected_work.
  destruct (student !! work) as [[| | | |l0|]|]; try done.
  intros [= <-]. apply fmap_idempotent, work_filled_idempotent.
Qed.

Lemma is_dict_project_filled l :
  forallb is_dict (project_filled tx <$> l) = forallb is_dict l.
Proof. induction l as [|[| | | | |p] l IH]; cbn; by rewrite ?IH. Qed.

Lemma is_dict_work_filled l :
  forallb is_dict (work_filled tx <$> l) = forallb is_dict l.
Proof. induction l as [|[| | | | |p] l IH]; cbn; by rewrite ?IH. Qed.

Lemma extraction_expected_well_shaped student :
  well_shaped student = true -> well_shaped (extraction_expected tx student) = true.
Proof.
  unfold well_shaped.
  rewrite extraction_expected_documents, extraction_expected_personal,
    extraction_expected_research, extraction_expected_work.
  rewrite !andb_true_iff. intros [[[Hd Hp] Hr] Hw]. repeat split.
  - done.
  - by destruct (student !! personal) as [[| | | | |p]|].
  - destruct (student !! research) as [[| | | | |re]|]; try done.
    destruct (re !! projects) as [[| | | |l|]|] eqn:El; try done.
    + rewrite lookup_insert_eq. by rewrite is_dict_project_filled.
    + by rewrite El.
  - destruct (student !! work) as [[| | | |l|]|]; try done.
    by rewrite is_dict_work_filled.
Qed.

(** X13: on a record of the data model's shape, running the
    sequential extraction again on the record that a first run left, with
    an extraction service that answers as before, leaves that record as it
    is: the content fields are written again with the same content and
    nothing else changes. *)
Theorem extraction_rerun_changes_nothing (student : dict) :
  well_shaped student = true ->
  let once := extract_all tx student in
  let twice := extract_all tx once.1 in
  twice.1 = once.1.
Proof.
  intros Hshape once twice. unfold twice, once.
  destruct (extract_all_expected tx student Hshape) as (r & -> & _). cbn [fst].
  destruct (extract_all_expected tx (extraction_expected tx student)
              (extraction_expected_well_shaped student Hshape)) as (r' & -> & _).
  cbn [fst]. apply extraction_expected_idempotent.
Qed.

End Facts.
Lemma extraction_rerun_changes_nothing_witness :
  (extract_all MoreSamples.extracting
     (extract_all MoreSamples.extracting Samples.application).1).1 =
  (extract_all MoreSamples.extracting Samples.application).1.
Proof.
  apply (extraction_rerun_changes_nothing MoreSamples.extracting Samples.application).
  reflexivity.
Defined.

End RerunFacts.
